(** * agentracer-node: interception and usage accounting

    A shallow embedding of the TypeScript sources of the agentracer SDK
    and the proofs of the properties its specification states about
    them.  Embedded are: the current [index.ts] ([init], [getConfig],
    [sendTelemetry], [track], [sendRunApi], [AgentRun]); the current
    [openai.ts] ([wrapOpenAIStream], [createOpenAIProxy]); both
    versions of [anthropic.ts] (the one reporting through [track], and
    the earlier one calling [sendTelemetry] itself); the current
    [gemini.ts] ([extractFeatureTag], [wrapGeminiStream],
    [createTrackedModel]); the earlier versions of [index.ts]
    ([track]), [openai.ts] and [gemini.ts], which call [sendTelemetry]
    themselves; and the client singletons of the adapters ([getClient],
    [_setClientForTesting], the constructor of [TrackedOpenAI]).  Not
    embedded is what the proxies pass through untouched: the other
    properties of the wrapped client and of a tracked model.

    How the program is modelled:
    - a JavaScript object is a finite map from property names to
      values; numbers are integers, which is all a token count, a
      step index or a millisecond latency ever is;
    - the module state ([config], the step counter of every [AgentRun]
      object) and what the program does to the outside (the requests
      handed to [fetch], the calls into the wrapped client, the console
      lines) are one record threaded through a state-and-exception
      monad; the outside answers from a script held in the same record
      (how each [fetch] settles, what the wrapped client replies, what
      [Date.now()] reads);
    - the two [AsyncLocalStorage] slots are an explicit context passed
      to every call;
    - a promise that nobody awaits ([track(...).catch(() => {})]) is run
      where it is created and its outcome dropped: every request of
      this program is issued synchronously, before the first [await] of
      the function that sends it, so the order of the requests is the
      order of the calls;
    - a provider stream is the finite list of its chunks and how it
      ends; an async generator is its code and its suspended state,
      advanced by [next]. *)

From stdpp Require Import gmap strings list fin_maps pretty.
From Stdlib Require Import ZArith Lia.

Set Warnings "-register-all".
#[local] Open Scope Z_scope.
#[local] Open Scope string_scope.
#[local] Open Scope list_scope.

(** ** JavaScript values *)

Inductive value :=
| VUndefined
| VNull
| VBool (b : bool)
| VNum (n : Z)
| VStr (s : string)
| VObj (fields : gmap string value)
| VArr (items : list value).

(** An object literal: its own enumerable properties. *)
Abbreviation obj := (gmap string value).

(** ToBoolean: what [if (v)], [!v] and [a && b] test. *)
Definition truthy (v : value) : bool :=
  match v with
  | VUndefined | VNull => false
  | VBool b => b
  | VNum n => negb (Z.eqb n 0)
  | VStr s => negb (String.eqb s EmptyString)
  | VObj _ | VArr _ => true
  end.

(** [v == null], the test behind [??] and [?.]. *)
Definition nullish (v : value) : bool :=
  match v with
  | VUndefined | VNull => true
  | _ => false
  end.

(** [a ?? b] *)
Definition coalesce (a b : value) : value := if nullish a then b else a.

Infix "??" := coalesce (at level 45, right associativity).

(** [o.k] on an object literal: a missing property reads as [undefined]. *)
Definition field (o : obj) (k : string) : value := default VUndefined (o !! k).

(** [v?.k], and [v.k] where [v] was just tested truthy.  None of the
    property names this program reads ([usage], [prompt_tokens],
    [message], ...) is supplied by a prototype, so on a primitive or an
    array the read gives [undefined]. *)
Definition prop (v : value) (k : string) : value :=
  match v with
  | VObj o => field o k
  | _ => VUndefined
  end.

(** [v === "s"] *)
Definition is_string (v : value) (s : string) : bool :=
  match v with
  | VStr s' => String.eqb s' s
  | _ => false
  end.

(** [typeof v === "object"] (which [null] satisfies too) *)
Definition typeof_object (v : value) : bool :=
  match v with
  | VNull | VObj _ | VArr _ => true
  | _ => false
  end.

(** [Array.isArray(v)] *)
Definition isArray (v : value) : bool :=
  match v with
  | VArr _ => true
  | _ => false
  end.

Fixpoint index_from {A} (i : nat) (l : list A) : list (string * A) :=
  match l with
  | [] => []
  | x :: r => (pretty i, x) :: index_from (S i) r
  end.

Fixpoint chars (s : string) : list value :=
  match s with
  | EmptyString => []
  | String a r => VStr (String a EmptyString) :: chars r
  end.

(** [{...v}]: the own enumerable properties of [v]; none for
    [undefined], [null], booleans and numbers, the indices for arrays
    and strings. *)
Definition spread (v : value) : obj :=
  match v with
  | VObj o => o
  | VArr l => list_to_map (index_from 0 l)
  | VStr s => list_to_map (index_from 0 (chars s))
  | _ => ∅
  end.

(** [`${v}`] *)
Fixpoint to_string (v : value) : string :=
  match v with
  | VUndefined => "undefined"
  | VNull => "null"
  | VBool true => "true"
  | VBool false => "false"
  | VNum n => pretty n
  | VStr s => s
  | VObj _ => "[object Object]"
  | VArr l =>
      (fix join (l : list value) : string :=
         match l with
         | [] => EmptyString
         | [x] => if nullish x then EmptyString else to_string x
         | x :: r => (if nullish x then EmptyString else to_string x) +:+ "," +:+ join r
         end) l
  end.

(** ** What is thrown

    A thrown value, as far as this program looks at it: [exn_class] is
    what [err?.constructor?.name] evaluates to ([undefined] when the
    chain breaks), [exn_data] whatever else distinguishes the value. *)
Record exn := Exn { exn_class : value; exn_data : value }.

(** [err?.constructor?.name ?? "Error"] *)
Definition error_type_of (err : exn) : value := exn_class err ?? VStr "Error".

(** ** The world the SDK runs in *)

(** How a [fetch] settles. *)
Inductive fetch_outcome :=
| FetchResponse (status : Z)
| FetchNetworkError
| FetchTimeout.

(** One call of [fetch(url, {method, headers, body, signal})]. *)
Record request := Request {
  req_url : string;
  req_method : string;
  req_headers : obj;
  req_body : value;
  req_timeout : Z
}.

Inductive stream_end :=
| EndOfStream
| StreamFails (e : exn).

(** What a provider SDK call resolves to: a response object, or (for a
    streaming call) an async iterable of chunk objects. *)
Inductive sdk_result :=
| Response (r : obj)
| Stream (chunks : list obj) (fin : stream_end).

Inductive provider_reply :=
| Resolves (r : sdk_result)
| Rejects (e : exn).

(** [class AgentRun] *)
Record AgentRun := {
  runId : value;
  runName : value;
  featureTag : value;
  endUserId : value;
  stepCounter : Z
}.

(** The environment is scripted, as a test double would be: the n-th
    [fetch] settles as [env_fetch n] says, the n-th [Date.now()] reads
    [env_clock n], the wrapped client answers a call of [method] with
    [args] by [env_provider method args]. *)
Record world := World {
  config : obj;
  runs : gmap nat AgentRun;
  net : list request;
  console : list value;
  calls : list (string * list value);
  ticks : nat;
  env_fetch : nat -> fetch_outcome;
  env_clock : nat -> Z;
  env_uuid : nat -> string;
  env_provider : string -> list value -> provider_reply
}.

(** The two [AsyncLocalStorage] slots as seen from one point of an
    asynchronous call chain: [featureTagStorage.getStore()] and
    [runStorage.getStore()] (a reference to the active run). *)
Record ctx := Ctx {
  ctx_tag : value;
  ctx_run : option nat
}.

Definition no_ctx : ctx := Ctx VUndefined None.

(** [featureTagStorage.run(tag, fn)]: [fn] sees [tag], the caller's
    context is untouched. *)
Definition featureTagStorage_run {A} (tag : value) (fn : ctx -> A) (c : ctx) : A :=
  fn (Ctx tag (ctx_run c)).

(** [runStorage.run(run, fn)] *)
Definition runStorage_run {A} (run : nat) (fn : ctx -> A) (c : ctx) : A :=
  fn (Ctx (ctx_tag c) (Some run)).

(** ** State and exceptions *)

Inductive result (A : Type) :=
| Ok (a : A)
| Throw (e : exn).
Arguments Ok {A} a.
Arguments Throw {A} e.

Definition M (A : Type) : Type := world -> result A * world.

Definition ret {A} (a : A) : M A := fun w => (Ok a, w).

Definition throw {A} (e : exn) : M A := fun w => (Throw e, w).

Definition bind {A B} (m : M A) (k : A -> M B) : M B :=
  fun w =>
    match m w with
    | (Ok a, w') => k a w'
    | (Throw e, w') => (Throw e, w')
    end.

Notation "'let!' x ':=' m 'in' k" := (bind m (fun x => k))
  (at level 10, x name, m at level 100, k at level 200,
   format "'[v' 'let!'  x  ':='  m  'in' '/' k ']'").
Notation "'do!' m 'in' k" := (bind m (fun _ => k))
  (at level 10, m at level 100, k at level 200,
   format "'[v' 'do!'  m  'in' '/' k ']'").

(** [try { m } catch (err) { h err }] *)
Definition try_catch {A} (m : M A) (h : exn -> M A) : M A :=
  fun w =>
    match m w with
    | (Ok a, w') => (Ok a, w')
    | (Throw e, w') => h e w'
    end.

(** [p.catch(() => {})] on a promise nobody awaits: the effects of [m]
    happen, how it settles is dropped. *)
Definition fire_and_forget {A} (m : M A) : M unit :=
  fun w => (Ok tt, snd (m w)).

(** The elementary changes of the world. *)
Definition put_config (c : obj) (w : world) : world :=
  World c (runs w) (net w) (console w) (calls w) (ticks w)
    (env_fetch w) (env_clock w) (env_uuid w) (env_provider w).

Definition put_runs (h : gmap nat AgentRun) (w : world) : world :=
  World (config w) h (net w) (console w) (calls w) (ticks w)
    (env_fetch w) (env_clock w) (env_uuid w) (env_provider w).

Definition push_request (r : request) (w : world) : world :=
  World (config w) (runs w) (net w ++ [r]) (console w) (calls w) (ticks w)
    (env_fetch w) (env_clock w) (env_uuid w) (env_provider w).

Definition push_console (v : value) (w : world) : world :=
  World (config w) (runs w) (net w) (console w ++ [v]) (calls w) (ticks w)
    (env_fetch w) (env_clock w) (env_uuid w) (env_provider w).

Definition push_call (method : string) (args : list value) (w : world) : world :=
  World (config w) (runs w) (net w) (console w) (calls w ++ [(method, args)])
    (ticks w) (env_fetch w) (env_clock w) (env_uuid w) (env_provider w).

Definition tick (w : world) : world :=
  World (config w) (runs w) (net w) (console w) (calls w) (S (ticks w))
    (env_fetch w) (env_clock w) (env_uuid w) (env_provider w).

Definition get_config : M obj := fun w => (Ok (config w), w).

Definition set_config (c : obj) : M unit := fun w => (Ok tt, put_config c w).

Definition get_runs : M (gmap nat AgentRun) := fun w => (Ok (runs w), w).

Definition set_runs (h : gmap nat AgentRun) : M unit := fun w => (Ok tt, put_runs h w).

(** [Date.now()] *)
Definition Date_now : M Z := fun w => (Ok (env_clock w (ticks w)), tick w).

(** [console.log("[agentracer]", payload)] *)
Definition console_log (v : value) : M unit := fun w => (Ok tt, push_console v w).

(** What [JSON.stringify] keeps of a value, read back as
    [JSON.parse] would: properties holding [undefined] are dropped,
    [undefined] array items become [null]. *)
Fixpoint json (v : value) : value :=
  match v with
  | VObj o =>
      VObj (omap (fun x => match x with
                           | VUndefined => None
                           | _ => Some (json x)
                           end) o)
  | VArr l =>
      VArr (map (fun x => match x with
                          | VUndefined => VNull
                          | _ => json x
                          end) l)
  | _ => v
  end.

(** [JSON.stringify(payload)]; every [value] can be serialised. *)
Definition JSON_stringify (v : value) : M value := ret (json v).

(** [await fetch(url, init)]: the request is issued, then the call
    settles as the environment decides; a rejection surfaces as a
    throw at the [await]. *)
Definition fetch (url : string) (headers : obj) (body : value) : M Z :=
  fun w =>
    let w' := push_request (Request url "POST" headers body 2000) w in
    match env_fetch w (length (net w)) with
    | FetchResponse status => (Ok status, w')
    | FetchNetworkError => (Throw (Exn (VStr "TypeError") (VStr "fetch failed")), w')
    | FetchTimeout => (Throw (Exn (VStr "DOMException") (VStr "TimeoutError")), w')
    end.

(** A call into the wrapped provider client: recorded, then answered. *)
Definition call_provider (method : string) (args : list value) : M sdk_result :=
  fun w =>
    match env_provider w method args with
    | Resolves r => (Ok r, push_call method args w)
    | Rejects e => (Throw e, push_call method args w)
    end.

(** Reading a field of the run object behind a reference.  A reference
    always points to a live object; the blank record only makes the
    read total. *)
Definition blank_run : AgentRun :=
  {| runId := VUndefined; runName := VUndefined; featureTag := VUndefined;
     endUserId := VUndefined; stepCounter := 0 |}.

Definition deref (h : gmap nat AgentRun) (l : nat) : AgentRun :=
  default blank_run (h !! l).

(** ** index.ts *)

(** The initial value of the module variable [config]. *)
Definition default_config : obj :=
  <["trackerApiKey" := VStr EmptyString]>
  (<["projectId" := VStr EmptyString]>
  (<["environment" := VStr "production"]>
  (<["host" := VStr "https://api.agentracer.dev"]>
  (<["debug" := VBool false]>
  (<["enabled" := VBool true]> ∅))))).

(** [{...a, ...b}]: the properties of [b] win. *)
Definition object_spread (a b : obj) : obj := b ∪ a.

(** [init(options)]: [config = { ...config, ...options }] *)
Definition init (options : obj) : M unit :=
  let! c := get_config in
  set_config (object_spread c options).

(** [getConfig()] *)
Definition getConfig : M obj := get_config.

Definition api_headers (c : obj) : obj :=
  <["Content-Type" := VStr "application/json"]>
  (<["x-api-key" := field c "trackerApiKey"]> ∅).

(** [sendTelemetry(payload)] *)
Definition sendTelemetry (payload : value) : M unit :=
  let! c := get_config in
  if negb (truthy (field c "enabled")) then ret tt
  else
    try_catch
      (do! (if truthy (field c "debug") then console_log payload else ret tt) in
       let! body := JSON_stringify payload in
       let! response := fetch (to_string (field c "host") +:+ "/api/ingest")
                          (api_headers c) body in
       ret tt)
      (fun _ => ret tt).

(** [sendRunApi(path, payload)] *)
Definition sendRunApi (path : string) (payload : value) : M unit :=
  let! c := get_config in
  if negb (truthy (field c "enabled")) then ret tt
  else
    try_catch
      (let! body := JSON_stringify payload in
       let! response := fetch (to_string (field c "host") +:+ path)
                          (api_headers c) body in
       ret tt)
      (fun _ => ret tt).

(** The [options] argument of [track]; a property left out is
    [VUndefined]. *)
Record TrackOptions := {
  opt_model : value;
  opt_inputTokens : value;
  opt_outputTokens : value;
  opt_latencyMs : value;
  opt_featureTag : value;
  opt_environment : value;
  opt_provider : value;
  opt_cachedTokens : value;
  opt_success : value;
  opt_errorType : value;
  opt_endUserId : value;
  opt_runId : value;
  opt_stepIndex : value
}.

(** [AgentRun._nextStep()]: [return ++this.stepCounter] *)
Definition _nextStep (l : nat) : M Z :=
  let! h := get_runs in
  let r := deref h l in
  let n := stepCounter r + 1 in
  do! set_runs (<[l := {| runId := runId r; runName := runName r;
                          featureTag := featureTag r; endUserId := endUserId r;
                          stepCounter := n |}]> h) in
  ret n.

(** [if (v != null) payload.k = v] *)
Definition set_if_present (k : string) (v : value) (payload : obj) : obj :=
  if nullish v then payload else <[k := v]> payload.

(** The body of the request to [/api/runs/step]. *)
Definition step_payload (c : obj) (run_id : value) (stepIndex : value)
    (options : TrackOptions) : obj :=
  <["project_id" := field c "projectId"]>
  (<["run_id" := run_id]>
  (<["step_index" := stepIndex]>
  (<["step_type" := VStr "llm_call"]>
  (<["model" := opt_model options]>
  (<["provider" := opt_provider options ?? VStr "custom"]>
  (<["input_tokens" := opt_inputTokens options]>
  (<["output_tokens" := opt_outputTokens options]>
  (<["cached_tokens" := opt_cachedTokens options ?? VNum 0]>
  (<["cost_usd" := VNum 0]>
  (<["latency_ms" := opt_latencyMs options]>
  (<["success" := opt_success options ?? VBool true]>
  (<["error_type" := opt_errorType options ?? VNull]> ∅)))))))))))).

(** The object literal [payload] of [track], before the optional keys. *)
Definition base_payload (c : obj) (currentTag : value) (options : TrackOptions) : obj :=
  <["project_id" := field c "projectId"]>
  (<["provider" := opt_provider options ?? VStr "custom"]>
  (<["model" := opt_model options]>
  (<["feature_tag" := opt_featureTag options ?? currentTag ?? VStr "unknown"]>
  (<["input_tokens" := opt_inputTokens options]>
  (<["output_tokens" := opt_outputTokens options]>
  (<["cached_tokens" := opt_cachedTokens options ?? VNum 0]>
  (<["latency_ms" := opt_latencyMs options]>
  (<["success" := opt_success options ?? VBool true]>
  (<["environment" := opt_environment options ?? field c "environment"]> ∅))))))))).

(** [payload] as [track] hands it to [sendTelemetry], once [runId] and
    [stepIndex] are resolved. *)
Definition ingest_payload (c : obj) (currentTag : value) (options : TrackOptions)
    (run_id stepIndex : value) : obj :=
  set_if_present "step_index" stepIndex
    (set_if_present "run_id" run_id
       (set_if_present "end_user_id" (opt_endUserId options)
          (set_if_present "error_type" (opt_errorType options)
             (base_payload c currentTag options)))).

(** [track(options)] *)
Definition track (options : TrackOptions) (cx : ctx) : M unit :=
  let currentTag := ctx_tag cx in
  let! resolved :=
    match ctx_run cx with
    | Some activeRun =>
        if nullish (opt_runId options) then
          let! h := get_runs in
          let run_id := runId (deref h activeRun) in
          let! step := _nextStep activeRun in
          let! c := get_config in
          do! fire_and_forget
                (sendRunApi "/api/runs/step"
                   (VObj (step_payload c run_id (VNum step) options))) in
          ret (run_id, VNum step)
        else ret (opt_runId options, opt_stepIndex options)
    | None => ret (opt_runId options, opt_stepIndex options)
    end in
  let! c := get_config in
  sendTelemetry
    (VObj (ingest_payload c currentTag options (fst resolved) (snd resolved))).

(** [randomUUID()], the n-th draw *)
Definition randomUUID (n : nat) : M string := fun w => (Ok (env_uuid w n), w).

(** [new AgentRun(options)]: [randomUUID()] is only drawn when no
    [runId] is supplied; the new object gets a reference of its own. *)
Definition new_AgentRun (options : obj) : M nat :=
  let! h := get_runs in
  let l := fresh (dom h) in
  let! id :=
    (if nullish (field options "runId")
     then let! u := randomUUID (size h) in ret (VStr u)
     else ret (field options "runId")) in
  do! set_runs
        (<[l := {| runId := id;
                   runName := field options "runName";
                   featureTag := field options "featureTag" ?? VStr "unknown";
                   endUserId := field options "endUserId";
                   stepCounter := 0 |}]> h) in
  ret l.

Definition run_start_payload (c : obj) (r : AgentRun) : obj :=
  <["project_id" := field c "projectId"]>
  (<["run_id" := runId r]>
  (<["run_name" := runName r]>
  (<["feature_tag" := featureTag r]>
  (<["end_user_id" := endUserId r]> ∅)))).

Definition run_end_completed (c : obj) (r : AgentRun) : obj :=
  <["project_id" := field c "projectId"]>
  (<["run_id" := runId r]>
  (<["status" := VStr "completed"]> ∅)).

Definition run_end_failed (c : obj) (r : AgentRun) (err : exn) : obj :=
  <["project_id" := field c "projectId"]>
  (<["run_id" := runId r]>
  (<["status" := VStr "failed"]>
  (<["error_type" := error_type_of err]> ∅))).

(** [AgentRun.execute(fn)] on the run behind [this], called in context
    [cx]; [fn] receives the context it runs in. *)
Definition execute {T} (this : nat) (fn : ctx -> M T) (cx : ctx) : M T :=
  let! c := get_config in
  let! h := get_runs in
  do! fire_and_forget
        (sendRunApi "/api/runs/start" (VObj (run_start_payload c (deref h this)))) in
  try_catch
    (let! h := get_runs in
     let! result :=
       runStorage_run this
         (featureTagStorage_run (featureTag (deref h this)) fn) cx in
     let! c := get_config in
     let! h := get_runs in
     do! fire_and_forget
           (sendRunApi "/api/runs/end" (VObj (run_end_completed c (deref h this)))) in
     ret result)
    (fun err =>
       let! c := get_config in
       let! h := get_runs in
       do! fire_and_forget
             (sendRunApi "/api/runs/end" (VObj (run_end_failed c (deref h this) err))) in
       throw err).

(** [observe(fn, {featureTag})] *)
Definition observe {A} (fn : ctx -> A) (tag : value) : ctx -> A :=
  featureTagStorage_run tag fn.

(** ** Async generators

    The three [wrap*Stream] functions are async generators of one shape:
<<
      let inputTokens = 0; let outputTokens = 0;
      for await (const x of stream) { (look at x); yield x; }
      (send telemetry)
>>
    A generator object is its code together with where it is suspended:
    what it still has to pull from [stream], and the two counters. *)

Record tally := Tally { inputTokens : value; outputTokens : value }.

Record wrapper := {
  on_item : obj -> tally -> tally;
  at_end : tally -> ctx -> M unit
}.

Inductive gen_state :=
| Suspended (pending : list obj) (fin : stream_end) (t : tally)
| Finished.

Record generator := Generator { gen_code : wrapper; gen_state_of : gen_state }.

(** What one [next()] settles to. *)
Inductive iter_step :=
| Yielded (x : obj)
| Returned
| Raised (e : exn).

(** Iterating what the provider resolved to.  A response object is not
    iterable: the first pull fails. *)
Definition iterate (stream : sdk_result) : list obj * stream_end :=
  match stream with
  | Stream chunks fin => (chunks, fin)
  | Response r => ([], StreamFails (Exn (VStr "TypeError") (VObj r)))
  end.

Definition start_generator (code : wrapper) (stream : sdk_result) : generator :=
  Generator code
    (Suspended (fst (iterate stream)) (snd (iterate stream))
       (Tally (VNum 0) (VNum 0))).

(** [g.next()], called in context [cx]: the body runs up to its next
    [yield], or to its end (and then sends the telemetry), or the
    source fails and the failure leaves the generator (past the
    telemetry, which is not sent). *)
Definition next (g : generator) (cx : ctx) : M (iter_step * generator) :=
  match gen_state_of g with
  | Finished => ret (Returned, g)
  | Suspended (x :: rest) fin t =>
      ret (Yielded x,
           Generator (gen_code g) (Suspended rest fin (on_item (gen_code g) x t)))
  | Suspended [] EndOfStream t =>
      do! at_end (gen_code g) t cx in
      ret (Returned, Generator (gen_code g) Finished)
  | Suspended [] (StreamFails e) t =>
      ret (Raised e, Generator (gen_code g) Finished)
  end.

(** [g.return()], what [break] in a [for await] does: the generator is
    closed where it stands; no [finally] block exists to run. *)
Definition return_ (g : generator) : generator :=
  Generator (gen_code g) Finished.

(** [for await (const x of g) received.push(x)], at most [fuel] pulls.
    [None]: the pulls ran out before the generator returned. *)
Fixpoint for_await (fuel : nat) (g : generator) (cx : ctx) (received : list obj)
    : M (option (list obj)) :=
  match fuel with
  | O => ret None
  | S fuel' =>
      let! r := next g cx in
      match fst r with
      | Yielded x => for_await fuel' (snd r) cx (received ++ [x])
      | Returned => ret (Some received)
      | Raised e => throw e
      end
  end.

(** [for await (const x of g) { received.push(x); if (received.length
    === n) break; }]: the consumer walks away after [n] items. *)
Fixpoint take_then_break (n : nat) (g : generator) (cx : ctx) (received : list obj)
    : M (list obj * generator) :=
  match n with
  | O => ret (received, return_ g)
  | S n' =>
      let! r := next g cx in
      match fst r with
      | Yielded x => take_then_break n' (snd r) cx (received ++ [x])
      | Returned => ret (received, snd r)
      | Raised e => throw e
      end
  end.

(** What an adapter call resolves to: the provider's own result,
    untouched, or a wrapping generator in place of the stream. *)
Inductive adapter_result :=
| Passed (r : sdk_result)
| Wrapped (g : generator).

(** [r.k] on what the provider resolved to. *)
Definition result_field (r : sdk_result) (k : string) : value :=
  match r with
  | Response o => field o k
  | Stream _ _ => VUndefined
  end.

(** The [track] options the adapters build; everything they leave out
    is [undefined]. *)
Definition adapter_options (provider model featureTag inTok outTok cached : value)
    (latency : Z) (success errorType : value) : TrackOptions :=
  {| opt_model := model;
     opt_inputTokens := inTok;
     opt_outputTokens := outTok;
     opt_latencyMs := VNum latency;
     opt_featureTag := featureTag;
     opt_environment := VUndefined;
     opt_provider := provider;
     opt_cachedTokens := cached;
     opt_success := success;
     opt_errorType := errorType;
     opt_endUserId := VUndefined;
     opt_runId := VUndefined;
     opt_stepIndex := VUndefined |}.

(** ** openai.ts *)

Module OpenAI.

Definition observe_chunk (chunk : obj) (t : tally) : tally :=
  if truthy (field chunk "usage") then
    Tally (prop (field chunk "usage") "prompt_tokens" ?? VNum 0)
          (prop (field chunk "usage") "completion_tokens" ?? VNum 0)
  else t.

Definition send_usage (model featureTag : value) (start : Z) (t : tally)
    (cx : ctx) : M unit :=
  let! now := Date_now in
  fire_and_forget
    (track (adapter_options (VStr "openai") model featureTag
              (inputTokens t) (outputTokens t) VUndefined
              (now - start) VUndefined VUndefined) cx).

(** [wrapOpenAIStream(stream, model, featureTag, start)] *)
Definition wrapOpenAIStream (stream : sdk_result) (model featureTag : value)
    (start : Z) : generator :=
  start_generator
    {| on_item := observe_chunk; at_end := send_usage model featureTag start |}
    stream.

(** [{ ...cleanParams.stream_options, include_usage: true }] *)
Definition with_include_usage (cleanParams : obj) : obj :=
  <["stream_options" :=
      VObj (<["include_usage" := VBool true]>
              (spread (field cleanParams "stream_options")))]> cleanParams.

(** [chat.completions.create(params)] of the proxy *)
Definition create (params : obj) (cx : ctx) : M adapter_result :=
  let featureTag := field params "feature_tag" ?? ctx_tag cx ?? VStr "unknown" in
  let cleanParams := delete "feature_tag" params in
  let! start := Date_now in
  if truthy (field cleanParams "stream") then
    let! stream := call_provider "chat.completions.create"
                     [VObj (with_include_usage cleanParams)] in
    ret (Wrapped (wrapOpenAIStream stream (field params "model") featureTag start))
  else
    let! response :=
      try_catch
        (call_provider "chat.completions.create" [VObj cleanParams])
        (fun err =>
           let! now := Date_now in
           do! fire_and_forget
                 (track (adapter_options (VStr "openai") (field params "model")
                           featureTag (VNum 0) (VNum 0) VUndefined
                           (now - start) (VBool false) (error_type_of err)) cx) in
           throw err) in
    let usage := result_field response "usage" in
    let! now := Date_now in
    do! fire_and_forget
          (track (adapter_options (VStr "openai") (field params "model")
                    featureTag
                    (prop usage "prompt_tokens" ?? VNum 0)
                    (prop usage "completion_tokens" ?? VNum 0)
                    (prop (prop usage "prompt_tokens_details") "cached_tokens"
                       ?? VNum 0)
                    (now - start) VUndefined VUndefined) cx) in
    ret (Passed response).

End OpenAI.

(** ** anthropic.ts *)

(** The loop body of [wrapAnthropicStream], the same in both versions
    of the file. *)
Definition observe_event (event : obj) (t : tally) : tally :=
  let t1 :=
    if is_string (field event "type") "message_start"
       && truthy (prop (field event "message") "usage")
    then Tally (prop (prop (field event "message") "usage") "input_tokens" ?? VNum 0)
               (outputTokens t)
    else t in
  if is_string (field event "type") "message_delta"
     && truthy (field event "usage")
  then Tally (inputTokens t1)
             (prop (field event "usage") "output_tokens" ?? VNum 0)
  else t1.

(** The current adapter ([createAnthropicProxy]), which reports
    through [track]. *)
Module Anthropic.

Definition send_usage (model featureTag : value) (start : Z) (t : tally)
    (cx : ctx) : M unit :=
  let! now := Date_now in
  fire_and_forget
    (track (adapter_options (VStr "anthropic") model featureTag
              (inputTokens t) (outputTokens t) VUndefined
              (now - start) VUndefined VUndefined) cx).

(** [wrapAnthropicStream(stream, model, featureTag, start)] *)
Definition wrapAnthropicStream (stream : sdk_result) (model featureTag : value)
    (start : Z) : generator :=
  start_generator
    {| on_item := observe_event; at_end := send_usage model featureTag start |}
    stream.

(** [messages.create(params)] of the proxy *)
Definition create (params : obj) (cx : ctx) : M adapter_result :=
  let featureTag := field params "feature_tag" ?? ctx_tag cx ?? VStr "unknown" in
  let cleanParams := delete "feature_tag" params in
  let! start := Date_now in
  if truthy (field cleanParams "stream") then
    let! stream := call_provider "messages.create" [VObj cleanParams] in
    ret (Wrapped (wrapAnthropicStream stream (field params "model") featureTag start))
  else
    let! response :=
      try_catch
        (call_provider "messages.create" [VObj cleanParams])
        (fun err =>
           let! now := Date_now in
           do! fire_and_forget
                 (track (adapter_options (VStr "anthropic") (field params "model")
                           featureTag (VNum 0) (VNum 0) VUndefined
                           (now - start) (VBool false) (error_type_of err)) cx) in
           throw err) in
    let usage := result_field response "usage" in
    let! now := Date_now in
    do! fire_and_forget
          (track (adapter_options (VStr "anthropic") (field params "model")
                    featureTag
                    (prop usage "input_tokens" ?? VNum 0)
                    (prop usage "output_tokens" ?? VNum 0)
                    (prop usage "cache_read_input_tokens" ?? VNum 0)
                    (now - start) VUndefined VUndefined) cx) in
    ret (Passed response).

End Anthropic.

(** The earlier adapter (the [anthropic] proxy that imports
    [sendTelemetry]), which builds the payload itself. *)
Module AnthropicLegacy.

Definition usage_payload (c : obj) (model featureTag : value) (t : tally)
    (latency : Z) : obj :=
  <["project_id" := field c "projectId"]>
  (<["provider" := VStr "anthropic"]>
  (<["model" := model]>
  (<["feature_tag" := featureTag]>
  (<["input_tokens" := inputTokens t]>
  (<["output_tokens" := outputTokens t]>
  (<["latency_ms" := VNum latency]>
  (<["environment" := field c "environment"]> ∅))))))).

Definition send_usage (model featureTag : value) (start : Z) (t : tally)
    (cx : ctx) : M unit :=
  let! c := getConfig in
  let! now := Date_now in
  fire_and_forget
    (sendTelemetry (VObj (usage_payload c model featureTag t (now - start)))).

(** [wrapAnthropicStream(stream, model, featureTag, start)] *)
Definition wrapAnthropicStream (stream : sdk_result) (model featureTag : value)
    (start : Z) : generator :=
  start_generator
    {| on_item := observe_event; at_end := send_usage model featureTag start |}
    stream.

(** [messages.create(params)] of the proxy: no [try] around the
    provider call here. *)
Definition create (params : obj) (cx : ctx) : M adapter_result :=
  let featureTag := field params "feature_tag" ?? ctx_tag cx ?? VStr "unknown" in
  let cleanParams := delete "feature_tag" params in
  let! start := Date_now in
  if truthy (field cleanParams "stream") then
    let! stream := call_provider "messages.create" [VObj cleanParams] in
    ret (Wrapped (wrapAnthropicStream stream (field params "model") featureTag start))
  else
    let! response := call_provider "messages.create" [VObj cleanParams] in
    let usage := result_field response "usage" in
    let! c := getConfig in
    let! now := Date_now in
    do! fire_and_forget
          (sendTelemetry
             (VObj (usage_payload c (field params "model") featureTag
                      (Tally (prop usage "input_tokens" ?? VNum 0)
                             (prop usage "output_tokens" ?? VNum 0))
                      (now - start)))) in
    ret (Passed response).

End AnthropicLegacy.

(** ** gemini.ts *)

Module Gemini.

(** [extractFeatureTag(params)]: the tag, and what is forwarded. *)
Definition extractFeatureTag (params : value) (cx : ctx) : value * value :=
  if truthy params && typeof_object params && negb (isArray params)
     && truthy (prop params "feature_tag")
  then (prop params "feature_tag", VObj (delete "feature_tag" (spread params)))
  else (ctx_tag cx ?? VStr "unknown", params).

Definition observe_chunk (chunk : obj) (t : tally) : tally :=
  let usage := field chunk "usageMetadata" in
  if truthy usage then
    Tally (prop usage "promptTokenCount" ?? VNum 0)
          (prop usage "candidatesTokenCount" ?? VNum 0)
  else t.

Definition send_usage (modelName featureTag : value) (start : Z) (t : tally)
    (cx : ctx) : M unit :=
  let! now := Date_now in
  fire_and_forget
    (track (adapter_options (VStr "gemini") modelName featureTag
              (inputTokens t) (outputTokens t) VUndefined
              (now - start) VUndefined VUndefined) cx).

(** [wrapGeminiStream(stream, modelName, featureTag, start)] *)
Definition wrapGeminiStream (stream : sdk_result) (modelName featureTag : value)
    (start : Z) : generator :=
  start_generator
    {| on_item := observe_chunk; at_end := send_usage modelName featureTag start |}
    stream.

(** The model name [getGenerativeModel(params)] captures:
    [params?.model ?? "unknown"] *)
Definition model_name (params : value) : value :=
  prop params "model" ?? VStr "unknown".

(** [generateContent(params, ...rest)] of a tracked model *)
Definition generateContent (modelName params : value) (rest : list value)
    (cx : ctx) : M sdk_result :=
  let featureTag := fst (extractFeatureTag params cx) in
  let cleanParams := snd (extractFeatureTag params cx) in
  let! start := Date_now in
  let! result :=
    try_catch
      (call_provider "generateContent" (cleanParams :: rest))
      (fun err =>
         let! now := Date_now in
         do! fire_and_forget
               (track (adapter_options (VStr "gemini") modelName featureTag
                         (VNum 0) (VNum 0) VUndefined
                         (now - start) (VBool false) (error_type_of err)) cx) in
         throw err) in
  do! try_catch
        (let usage := prop (result_field result "response") "usageMetadata" in
         let! now := Date_now in
         fire_and_forget
           (track (adapter_options (VStr "gemini") modelName featureTag
                     (prop usage "promptTokenCount" ?? VNum 0)
                     (prop usage "candidatesTokenCount" ?? VNum 0)
                     (prop usage "cachedContentTokenCount" ?? VNum 0)
                     (now - start) VUndefined VUndefined) cx))
        (fun _ => ret tt) in
  ret result.

(** [generateContentStream(params, ...rest)] of a tracked model; of
    the object it returns, the [stream] property. *)
Definition generateContentStream (modelName params : value) (rest : list value)
    (cx : ctx) : M generator :=
  let featureTag := fst (extractFeatureTag params cx) in
  let cleanParams := snd (extractFeatureTag params cx) in
  let! start := Date_now in
  let! result := call_provider "generateContentStream" (cleanParams :: rest) in
  ret (wrapGeminiStream result modelName featureTag start).

End Gemini.

(** ** index.ts, the earlier version

    [init], [getConfig], [sendTelemetry] and [observe] read the same in
    both versions of the file; the earlier [track] knows neither runs
    nor the optional keys, and reads of its [options] the first seven
    properties only. *)

Module IndexLegacy.

(** The object literal [track] hands to [sendTelemetry]. *)
Definition payload (c : obj) (currentTag : value) (options : TrackOptions) : obj :=
  <["project_id" := field c "projectId"]>
  (<["provider" := opt_provider options ?? VStr "custom"]>
  (<["model" := opt_model options]>
  (<["feature_tag" := opt_featureTag options ?? currentTag ?? VStr "unknown"]>
  (<["input_tokens" := opt_inputTokens options]>
  (<["output_tokens" := opt_outputTokens options]>
  (<["latency_ms" := opt_latencyMs options]>
  (<["environment" := opt_environment options ?? field c "environment"]> ∅))))))).

(** [track(options)] *)
Definition track (options : TrackOptions) (cx : ctx) : M unit :=
  let currentTag := ctx_tag cx in
  let! c := get_config in
  sendTelemetry (VObj (payload c currentTag options)).

End IndexLegacy.

(** ** openai.ts, the earlier version

    The [openai] proxy that imports [sendTelemetry] and builds the
    payload itself; its loop body is the one of the current file. *)

Module OpenAILegacy.

Definition usage_payload (c : obj) (model featureTag : value) (t : tally)
    (latency : Z) : obj :=
  <["project_id" := field c "projectId"]>
  (<["provider" := VStr "openai"]>
  (<["model" := model]>
  (<["feature_tag" := featureTag]>
  (<["input_tokens" := inputTokens t]>
  (<["output_tokens" := outputTokens t]>
  (<["latency_ms" := VNum latency]>
  (<["environment" := field c "environment"]> ∅))))))).

Definition send_usage (model featureTag : value) (start : Z) (t : tally)
    (cx : ctx) : M unit :=
  let! c := getConfig in
  let! now := Date_now in
  fire_and_forget
    (sendTelemetry (VObj (usage_payload c model featureTag t (now - start)))).

(** [wrapOpenAIStream(stream, model, featureTag, start)] *)
Definition wrapOpenAIStream (stream : sdk_result) (model featureTag : value)
    (start : Z) : generator :=
  start_generator
    {| on_item := OpenAI.observe_chunk; at_end := send_usage model featureTag start |}
    stream.

(** [chat.completions.create(params)] of the proxy: no [try] around the
    provider call here. *)
Definition create (params : obj) (cx : ctx) : M adapter_result :=
  let featureTag := field params "feature_tag" ?? ctx_tag cx ?? VStr "unknown" in
  let cleanParams := delete "feature_tag" params in
  let! start := Date_now in
  if truthy (field cleanParams "stream") then
    let! stream := call_provider "chat.completions.create"
                     [VObj (OpenAI.with_include_usage cleanParams)] in
    ret (Wrapped (wrapOpenAIStream stream (field params "model") featureTag start))
  else
    let! response := call_provider "chat.completions.create" [VObj cleanParams] in
    let usage := result_field response "usage" in
    let! c := getConfig in
    let! now := Date_now in
    do! fire_and_forget
          (sendTelemetry
             (VObj (usage_payload c (field params "model") featureTag
                      (Tally (prop usage "prompt_tokens" ?? VNum 0)
                             (prop usage "completion_tokens" ?? VNum 0))
                      (now - start)))) in
    ret (Passed response).

End OpenAILegacy.

(** ** gemini.ts, the earlier version

    [extractFeatureTag] and the loop body of [wrapGeminiStream] read the
    same in both versions of the file. *)

Module GeminiLegacy.

Definition usage_payload (c : obj) (modelName featureTag : value) (t : tally)
    (latency : Z) : obj :=
  <["project_id" := field c "projectId"]>
  (<["provider" := VStr "gemini"]>
  (<["model" := modelName]>
  (<["feature_tag" := featureTag]>
  (<["input_tokens" := inputTokens t]>
  (<["output_tokens" := outputTokens t]>
  (<["latency_ms" := VNum latency]>
  (<["environment" := field c "environment"]> ∅))))))).

Definition send_usage (modelName featureTag : value) (start : Z) (t : tally)
    (cx : ctx) : M unit :=
  let! c := getConfig in
  let! now := Date_now in
  fire_and_forget
    (sendTelemetry (VObj (usage_payload c modelName featureTag t (now - start)))).

(** [wrapGeminiStream(stream, modelName, featureTag, start)] *)
Definition wrapGeminiStream (stream : sdk_result) (modelName featureTag : value)
    (start : Z) : generator :=
  start_generator
    {| on_item := Gemini.observe_chunk; at_end := send_usage modelName featureTag start |}
    stream.

(** [generateContent(params, ...rest)] of a tracked model: no [try]
    around the provider call here, one around the telemetry. *)
Definition generateContent (modelName params : value) (rest : list value)
    (cx : ctx) : M sdk_result :=
  let featureTag := fst (Gemini.extractFeatureTag params cx) in
  let cleanParams := snd (Gemini.extractFeatureTag params cx) in
  let! start := Date_now in
  let! result := call_provider "generateContent" (cleanParams :: rest) in
  do! try_catch
        (let usage := prop (result_field result "response") "usageMetadata" in
         let! c := getConfig in
         let! now := Date_now in
         fire_and_forget
           (sendTelemetry
              (VObj (usage_payload c modelName featureTag
                       (Tally (prop usage "promptTokenCount" ?? VNum 0)
                              (prop usage "candidatesTokenCount" ?? VNum 0))
                       (now - start)))))
        (fun _ => ret tt) in
  ret result.

(** [generateContentStream(params, ...rest)] of a tracked model; of
    the object it returns, the [stream] property. *)
Definition generateContentStream (modelName params : value) (rest : list value)
    (cx : ctx) : M generator :=
  let featureTag := fst (Gemini.extractFeatureTag params cx) in
  let cleanParams := snd (Gemini.extractFeatureTag params cx) in
  let! start := Date_now in
  let! result := call_provider "generateContentStream" (cleanParams :: rest) in
  ret (wrapGeminiStream result modelName featureTag start).

End GeminiLegacy.

(** ** The wrapped clients

    Each adapter module keeps the real client in a module variable,
    [_clientInstance], built on first use.  A client object is one
    that [_setClientForTesting] was handed (any value, [null] to
    reset) or the n-th object a constructor call built.  The state is
    the module variable, the constructor calls made so far with their
    arguments, whether the n-th constructor call throws (an SDK
    refuses to be built without a key, say), and [process.env]. *)

Inductive client :=
| Injected (v : value)
| Constructed (n : nat) (args : list value).

Record clients := Clients {
  _clientInstance : client;
  constructed : list (list value);
  env_new : nat -> list value -> option exn;
  process_env : obj
}.

(** [!!_clientInstance] *)
Definition is_client (c : client) : bool :=
  match c with
  | Injected v => truthy v
  | Constructed _ _ => true
  end.

(** [a || b] *)
Definition or_else (a b : value) : value := if truthy a then a else b.

Definition set_instance (c : client) (s : clients) : clients :=
  Clients c (constructed s) (env_new s) (process_env s).

(** [new Sdk(...args)] *)
Definition construct (args : list value) (s : clients) : result client * clients :=
  let n := length (constructed s) in
  let s' := Clients (_clientInstance s) (constructed s ++ [args]) (env_new s)
              (process_env s) in
  match env_new s n args with
  | Some e => (Throw e, s')
  | None => (Ok (Constructed n args), s')
  end.

(** openai.ts; [getClient] and [_setClientForTesting] of the current
    anthropic.ts read the same, with the other SDK's name. *)
Module OpenAIClient.

(** [getClient(opts)] *)
Definition getClient (opts : value) (s : clients) : result client * clients :=
  if truthy opts then construct [opts] s
  else if negb (is_client (_clientInstance s)) then
    match construct [] s with
    | (Ok c, s') => (Ok c, set_instance c s')
    | (Throw e, s') => (Throw e, s')
    end
  else (Ok (_clientInstance s), s).

(** [_setClientForTesting(client)] *)
Definition _setClientForTesting (c : client) (s : clients) : clients :=
  set_instance c s.

(** [new TrackedOpenAI(options)]: the client its proxy will use. *)
Definition TrackedOpenAI (options : value) (s : clients) : result client * clients :=
  construct [options] s.

End OpenAIClient.

(** gemini.ts *)
Module GeminiClient.

(** [getClient(opts)] *)
Definition getClient (opts : value) (s : clients) : result client * clients :=
  if truthy (prop opts "apiKey") then construct [prop opts "apiKey"] s
  else if negb (is_client (_clientInstance s)) then
    let apiKey :=
      or_else (field (process_env s) "GOOGLE_API_KEY")
        (or_else (field (process_env s) "GEMINI_API_KEY") (VStr EmptyString)) in
    match construct [apiKey] s with
    | (Ok c, s') => (Ok c, set_instance c s')
    | (Throw e, s') => (Throw e, s')
    end
  else (Ok (_clientInstance s), s).

(** [_setClientForTesting(client)] *)
Definition _setClientForTesting (c : client) (s : clients) : clients :=
  set_instance c s.

End GeminiClient.

(** * The vocabulary of the statements *)

(** ** Requests and events *)

Definition enabled (w : world) : bool := truthy (field (config w) "enabled").

Definition debugging (w : world) : bool := truthy (field (config w) "debug").

(** The request [sendTelemetry] issues for [payload] under config [c]. *)
Definition ingest_request (c : obj) (payload : value) : request :=
  Request (to_string (field c "host") +:+ "/api/ingest") "POST"
    (api_headers c) (json payload) 2000.

(** The request [sendRunApi] issues. *)
Definition run_request (c : obj) (path : string) (payload : value) : request :=
  Request (to_string (field c "host") +:+ path) "POST"
    (api_headers c) (json payload) 2000.

(** The requests issued between two worlds of one execution. *)
Definition sent_since (w w' : world) : list request :=
  drop (length (net w)) (net w').

Definition is_post_to (url : string) (r : request) : bool :=
  String.eqb (req_url r) url && String.eqb (req_method r) "POST".

(** The telemetry events among some requests: the bodies posted to
    [{host}/api/ingest]. *)
Definition telemetry_events (c : obj) (l : list request) : list value :=
  map req_body
    (List.filter (is_post_to (to_string (field c "host") +:+ "/api/ingest")) l).

(** The run signals posted to [{host}{path}]. *)
Definition run_signals (c : obj) (path : string) (l : list request) : list value :=
  map req_body
    (List.filter (is_post_to (to_string (field c "host") +:+ path)) l).

(** The same world with another collector behind [fetch]. *)
Definition with_collector (f : nat -> fetch_outcome) (w : world) : world :=
  World (config w) (runs w) (net w) (console w) (calls w) (ticks w)
    f (env_clock w) (env_uuid w) (env_provider w).

(** A collector that rejects every POST. *)
Definition unreachable : nat -> fetch_outcome := fun _ => FetchNetworkError.

(** ** What one [track] call does *)

(** The run object after [_nextStep]. *)
Definition stepped (r : AgentRun) : AgentRun :=
  {| runId := runId r; runName := runName r; featureTag := featureTag r;
     endUserId := endUserId r; stepCounter := stepCounter r + 1 |}.

(** The run and step [track] resolves, and what it hands the emitter. *)
Definition resolved_run (options : TrackOptions) (cx : ctx) (w : world) : value * value :=
  match ctx_run cx with
  | Some l =>
      if nullish (opt_runId options)
      then (runId (deref (runs w) l), VNum (stepCounter (deref (runs w) l) + 1))
      else (opt_runId options, opt_stepIndex options)
  | None => (opt_runId options, opt_stepIndex options)
  end.

Definition track_payload (options : TrackOptions) (cx : ctx) (w : world) : obj :=
  ingest_payload (config w) (ctx_tag cx) options
    (fst (resolved_run options cx w)) (snd (resolved_run options cx w)).

Definition step_requests (options : TrackOptions) (cx : ctx) (w : world) : list request :=
  match ctx_run cx with
  | Some l =>
      if nullish (opt_runId options)
      then [run_request (config w) "/api/runs/step"
              (VObj (step_payload (config w) (runId (deref (runs w) l))
                       (VNum (stepCounter (deref (runs w) l) + 1)) options))]
      else []
  | None => []
  end.

Definition runs_after_track (options : TrackOptions) (cx : ctx) (w : world)
    : gmap nat AgentRun :=
  match ctx_run cx with
  | Some l =>
      if nullish (opt_runId options)
      then <[l := stepped (deref (runs w) l)]> (runs w)
      else runs w
  | None => runs w
  end.

(** The telemetry event one [track] call posts. *)
Definition event_of (options : TrackOptions) (cx : ctx) (w : world) : value :=
  json (VObj (track_payload options cx w)).

(** Between [w] and [w'] at most one [track] call happened, and it
    carried the tag [tag]. *)
Definition tracked_at_most_once (w w' : world) (tag : value) : Prop :=
  net w' = net w \/
  exists (o : TrackOptions) (cx : ctx) (w0 : world),
    net w0 = net w /\ config w0 = config w /\
    opt_featureTag o = tag /\ w' = snd (track o cx w0).

(** ** Streams *)

(** The populated [usage] fields of a chunk sequence, in order. *)
Definition openai_usages (chunks : list obj) : list value :=
  List.filter truthy (map (fun chunk => field chunk "usage") chunks).

(** The counts an OpenAI stream ends with: those of the last chunk
    whose [usage] is populated, zero when there is none. *)
Definition openai_counts (chunks : list obj) : tally :=
  match last (openai_usages chunks) with
  | Some u => Tally (prop u "prompt_tokens" ?? VNum 0)
                    (prop u "completion_tokens" ?? VNum 0)
  | None => Tally (VNum 0) (VNum 0)
  end.

Definition gemini_usages (chunks : list obj) : list value :=
  List.filter truthy (map (fun chunk => field chunk "usageMetadata") chunks).

(** The counts a Gemini stream ends with: those of the latest chunk
    that has [usageMetadata], zero when none has. *)
Definition gemini_counts (chunks : list obj) : tally :=
  match last (gemini_usages chunks) with
  | Some u => Tally (prop u "promptTokenCount" ?? VNum 0)
                    (prop u "candidatesTokenCount" ?? VNum 0)
  | None => Tally (VNum 0) (VNum 0)
  end.

(** The [message.usage] objects of the [message_start] events, and the
    [usage] objects of the [message_delta] events, in order. *)
Definition anthropic_starts (events : list obj) : list value :=
  map (fun e => prop (field e "message") "usage")
    (List.filter (fun e => is_string (field e "type") "message_start"
                           && truthy (prop (field e "message") "usage")) events).

Definition anthropic_deltas (events : list obj) : list value :=
  map (fun e => field e "usage")
    (List.filter (fun e => is_string (field e "type") "message_delta"
                           && truthy (field e "usage")) events).

(** The counts an Anthropic stream ends with: each one the latest
    value reported, zero when none was. *)
Definition anthropic_counts (events : list obj) : tally :=
  Tally
    (match last (anthropic_starts events) with
     | Some u => prop u "input_tokens" ?? VNum 0
     | None => VNum 0
     end)
    (match last (anthropic_deltas events) with
     | Some u => prop u "output_tokens" ?? VNum 0
     | None => VNum 0
     end).

(** Reading the generator [g] to its end, in whatever context and
    world, hands on exactly [items], in order; with telemetry enabled
    it posts exactly one telemetry event, carrying the counts [t]; with
    telemetry disabled it posts nothing. *)
Definition read_to_end_reports (g : generator) (items : list obj) (t : tally) : Prop :=
  forall (cx : ctx) (w : world),
    let r := for_await (S (length items)) g cx [] w in
    fst r = Ok (Some items) /\
    (enabled w = true ->
     exists body,
       telemetry_events (config w) (sent_since w (snd r)) = [body] /\
       prop body "input_tokens" = json (inputTokens t) /\
       prop body "output_tokens" = json (outputTokens t)) /\
    (enabled w = false -> net (snd r) = net w).

(** ** Calls of the adapters *)

(** What an OpenAI call forwards to the real client. *)
Definition openai_forwarded (params : obj) : obj :=
  if truthy (field params "stream")
  then OpenAI.with_include_usage (delete "feature_tag" params)
  else delete "feature_tag" params.

(** What an Anthropic call forwards. *)
Definition anthropic_forwarded (params : obj) : obj := delete "feature_tag" params.

(** The tag an OpenAI or Anthropic call resolves. *)
Definition resolved_tag (params : obj) (cx : ctx) : value :=
  field params "feature_tag" ?? ctx_tag cx ?? VStr "unknown".

Definition openai_success_options (params : obj) (cx : ctx) (response : sdk_result)
    (latency : Z) : TrackOptions :=
  let usage := result_field response "usage" in
  adapter_options (VStr "openai") (field params "model") (resolved_tag params cx)
    (prop usage "prompt_tokens" ?? VNum 0)
    (prop usage "completion_tokens" ?? VNum 0)
    (prop (prop usage "prompt_tokens_details") "cached_tokens" ?? VNum 0)
    latency VUndefined VUndefined.

Definition anthropic_success_options (params : obj) (cx : ctx) (response : sdk_result)
    (latency : Z) : TrackOptions :=
  let usage := result_field response "usage" in
  adapter_options (VStr "anthropic") (field params "model") (resolved_tag params cx)
    (prop usage "input_tokens" ?? VNum 0)
    (prop usage "output_tokens" ?? VNum 0)
    (prop usage "cache_read_input_tokens" ?? VNum 0)
    latency VUndefined VUndefined.

Definition gemini_success_options (modelName params : value) (cx : ctx)
    (result : sdk_result) (latency : Z) : TrackOptions :=
  let usage := prop (result_field result "response") "usageMetadata" in
  adapter_options (VStr "gemini") modelName (fst (Gemini.extractFeatureTag params cx))
    (prop usage "promptTokenCount" ?? VNum 0)
    (prop usage "candidatesTokenCount" ?? VNum 0)
    (prop usage "cachedContentTokenCount" ?? VNum 0)
    latency VUndefined VUndefined.

(** What the adapters report when the provider call fails. *)
Definition failure_options (provider model featureTag : value) (latency : Z) (e : exn)
    : TrackOptions :=
  adapter_options provider model featureTag (VNum 0) (VNum 0) VUndefined latency
    (VBool false) (error_type_of e).

(** A failed provider call, as the caller and the collector see it: the
    very value the provider threw is thrown on, and, telemetry being
    enabled, exactly one event was posted, with [success: false], zero
    counts and the error's class name. *)
Definition reports_failure {A} (w : world) (r : result A * world) (e : exn) : Prop :=
  fst r = Throw e /\
  (enabled w = true ->
   exists body,
     telemetry_events (config w) (sent_since w (snd r)) = [body] /\
     prop body "success" = VBool false /\
     prop body "input_tokens" = VNum 0 /\
     prop body "output_tokens" = VNum 0 /\
     prop body "error_type" = json (error_type_of e)) /\
  (enabled w = false -> net (snd r) = net w).

(** A call of one of the four tracked operations, with its arguments.
    OpenAI and Anthropic take a parameter object; Gemini takes a prompt
    (a string, an array of parts or a request object) and further
    arguments. *)
Inductive call :=
| OpenAI_create (params : obj)
| Anthropic_create (params : obj)
| Gemini_generateContent (modelName params : value) (rest : list value)
| Gemini_generateContentStream (modelName params : value) (rest : list value).

Definition invoke (c : call) (cx : ctx) : M adapter_result :=
  match c with
  | OpenAI_create params => OpenAI.create params cx
  | Anthropic_create params => Anthropic.create params cx
  | Gemini_generateContent modelName params rest =>
      let! r := Gemini.generateContent modelName params rest cx in
      ret (Passed r)
  | Gemini_generateContentStream modelName params rest =>
      let! g := Gemini.generateContentStream modelName params rest cx in
      ret (Wrapped g)
  end.

(** The call, and, when it resolves to a stream, the consumer reading
    it (at most [fuel] pulls). *)
Definition invoke_and_read (c : call) (cx : ctx) (fuel : nat)
    : M (option (list obj)) :=
  let! r := invoke c cx in
  match r with
  | Passed _ => ret (Some [])
  | Wrapped g => for_await fuel g cx []
  end.

(** The first argument of the call. *)
Definition params_of (c : call) : value :=
  match c with
  | OpenAI_create params | Anthropic_create params => VObj params
  | Gemini_generateContent _ params _ | Gemini_generateContentStream _ params _ =>
      params
  end.

Definition method_of (c : call) : string :=
  match c with
  | OpenAI_create _ => "chat.completions.create"
  | Anthropic_create _ => "messages.create"
  | Gemini_generateContent _ _ _ => "generateContent"
  | Gemini_generateContentStream _ _ _ => "generateContentStream"
  end.

(** The arguments after the first. *)
Definition rest_of (c : call) : list value :=
  match c with
  | OpenAI_create _ | Anthropic_create _ => []
  | Gemini_generateContent _ _ rest | Gemini_generateContentStream _ _ rest => rest
  end.

(** The arguments the real client is called with. *)
Definition forwarded_args (c : call) (cx : ctx) : list value :=
  match c with
  | OpenAI_create params => [VObj (openai_forwarded params)]
  | Anthropic_create params => [VObj (anthropic_forwarded params)]
  | Gemini_generateContent _ params rest
  | Gemini_generateContentStream _ params rest =>
      snd (Gemini.extractFeatureTag params cx) :: rest
  end.

(** The tag the call resolves. *)
Definition tag_of (c : call) (cx : ctx) : value :=
  match c with
  | OpenAI_create params | Anthropic_create params => resolved_tag params cx
  | Gemini_generateContent _ params _ | Gemini_generateContentStream _ params _ =>
      fst (Gemini.extractFeatureTag params cx)
  end.

(** Is this an OpenAI streaming call, the one whose [stream_options]
    the adapter rewrites? *)
Definition rewrites_stream_options (c : call) : bool :=
  match c with
  | OpenAI_create params => truthy (field params "stream")
  | _ => false
  end.

(** [fwd] is [params] less [feature_tag]; only an OpenAI streaming
    call may differ from [params] in one more place, [stream_options]. *)
Definition strips_only_tag (c : call) (params fwd : obj) : Prop :=
  fwd !! "feature_tag" = None /\
  forall k : string,
    k <> "feature_tag" ->
    (rewrites_stream_options c = true -> k <> "stream_options") ->
    fwd !! k = params !! k.

(** The call carries the non-empty string [s] as its [feature_tag]. *)
Definition tagged (c : call) (s : string) : Prop :=
  s <> EmptyString /\ exists p : obj, params_of c = VObj p /\ p !! "feature_tag" = Some (VStr s).

(** The call carries no [feature_tag]: its first argument is an object
    without that property, or no parameter object at all. *)
Definition untagged (c : call) : Prop :=
  (exists p : obj, params_of c = VObj p /\ p !! "feature_tag" = None) \/
  (forall o : obj, params_of c <> VObj o).

(** What reaches the real client is the first argument without its
    [feature_tag], and the further arguments as they are. *)
Definition forwards_stripped (c : call) (args : list value) : Prop :=
  match params_of c with
  | VObj p => exists fwd, args = VObj fwd :: rest_of c /\ strips_only_tag c p fwd
  | other => args = other :: rest_of c
  end.

(** ** The config store and runs *)

(** The world after a sequence of [init] calls. *)
Definition after_inits (l : list obj) (w : world) : world :=
  fold_left (fun w options => snd (init options w)) l w.

(** The values a sequence of calls supplied for the field [k], in call
    order. *)
Definition supplied (k : string) (l : list obj) : list value :=
  omap (fun options : obj => options !! k) l.

(** Two tracked calls, one after the other. *)
Definition two_calls (o1 o2 : TrackOptions) (cx : ctx) : M unit :=
  do! track o1 cx in track o2 cx.

(** [new AgentRun(options)] and then [run.execute] of two tracked
    calls. *)
Definition fresh_run_two_calls (options : obj) (o1 o2 : TrackOptions) (cx : ctx)
    : M unit :=
  let! run := new_AgentRun options in
  execute run (two_calls o1 o2) cx.

(** [const run = new AgentRun(options)] and then the same two tracked
    calls executed in it twice:
    [await run.execute(body); await run.execute(body)]. *)
Definition fresh_run_executed_twice (options : obj) (o1 o2 : TrackOptions) (cx : ctx)
    : M unit :=
  let! run := new_AgentRun options in
  do! execute run (two_calls o1 o2) cx in
  execute run (two_calls o1 o2) cx.

(** The signals and events of one run, read off the requests sent. *)
Record run_trace (c : obj) (sent : list request) (id : value) (first second : Z)
    : Prop := {
  trace_start :
    exists s, run_signals c "/api/runs/start" sent = [s] /\ prop s "run_id" = json id;
  trace_steps :
    exists s1 s2,
      run_signals c "/api/runs/step" sent = [s1; s2] /\
      prop s1 "run_id" = json id /\ prop s1 "step_index" = VNum first /\
      prop s2 "run_id" = json id /\ prop s2 "step_index" = VNum second;
  trace_events :
    exists b1 b2,
      telemetry_events c sent = [b1; b2] /\
      prop b1 "run_id" = json id /\ prop b1 "step_index" = VNum first /\
      prop b2 "run_id" = json id /\ prop b2 "step_index" = VNum second;
  trace_end :
    exists e,
      run_signals c "/api/runs/end" sent = [e] /\
      prop e "run_id" = json id /\ prop e "status" = VStr "completed"
}.

(** ** Concrete inputs *)

(** The chunks of the specification's example. *)
Definition example_chunks : list obj :=
  [ {[ "usage" := VNull ]};
    {[ "usage" := VNull ]};
    {[ "usage" := VObj (<["prompt_tokens" := VNum 15]>
                         {[ "completion_tokens" := VNum 25 ]}) ]} ].

(** The events of the specification's example. *)
Definition example_events : list obj :=
  [ <["type" := VStr "message_start"]>
      {[ "message" := VObj (<["id" := VStr "msg_1"]>
                              {[ "usage" := VObj {[ "input_tokens" := VNum 100 ]} ]}) ]};
    <["type" := VStr "content_block_delta"]>
      {[ "delta" := VObj (<["type" := VStr "text_delta"]> {[ "text" := VStr "Hello" ]}) ]};
    <["type" := VStr "content_block_delta"]>
      {[ "delta" := VObj (<["type" := VStr "text_delta"]> {[ "text" := VStr " world" ]}) ]};
    <["type" := VStr "message_delta"]>
      (<["usage" := VObj {[ "output_tokens" := VNum 40 ]}]>
         {[ "delta" := VObj {[ "stop_reason" := VStr "end_turn" ]} ]});
    {[ "type" := VStr "message_stop" ]} ].

(** The configuration the test suites install:
    [init({ trackerApiKey: "key", projectId: "proj-1", enabled: true })]. *)
Definition test_options : obj :=
  <["trackerApiKey" := VStr "key"]>
  (<["projectId" := VStr "proj-1"]> {[ "enabled" := VBool true ]}).

Definition test_config : obj := object_spread default_config test_options.

(** The same with [enabled: false]. *)
Definition disabled_config : obj :=
  object_spread default_config
    (<["trackerApiKey" := VStr "key"]>
    (<["projectId" := VStr "proj-1"]> {[ "enabled" := VBool false ]})).

(** A world with a mock client answering every call by [reply], a
    collector answering every POST by [outcome], and nothing sent yet. *)
Definition mock_world (c : obj) (reply : provider_reply) (outcome : fetch_outcome)
    : world :=
  World c ∅ [] [] [] 0 (fun _ => outcome)
    (fun n => 1700000000000 + 7 * Z.of_nat n)
    (fun n => "run-" +:+ pretty n)
    (fun _ _ => reply).

Definition streaming_params : obj :=
  <["model" := VStr "gpt-4"]> {[ "stream" := VBool true ]}.

Definition chat_response : obj :=
  <["choices" := VArr []]>
  {[ "usage" := VObj (<["prompt_tokens" := VNum 10]>
                       {[ "completion_tokens" := VNum 20 ]}) ]}.

Definition rate_limited : exn :=
  Exn (VStr "RateLimitError") (VStr "429 Too Many Requests").

Definition plain_params : obj :=
  <["model" := VStr "gpt-4"]> {[ "messages" := VArr [] ]}.

Definition tagged_params : obj :=
  <["model" := VStr "gpt-4"]>
  (<["messages" := VArr []]> {[ "feature_tag" := VStr "explicit-tag" ]}).

Definition tagged_streaming_params : obj :=
  <["model" := VStr "gpt-4"]>
  (<["stream" := VBool true]>
  (<["stream_options" := VObj {[ "some_other" := VBool true ]}]>
     {[ "feature_tag" := VStr "x" ]})).

Definition streaming_params_with_options : obj :=
  <["model" := VStr "gpt-4"]>
  (<["stream" := VBool true]>
     {[ "stream_options" := VObj {[ "some_other" := VBool true ]} ]}).

Definition quiet_chunks : list obj :=
  [ {[ "choices" := VArr [VStr "hel"] ]}; {[ "choices" := VArr [VStr "lo"] ]} ].

Definition manual_options : TrackOptions :=
  {| opt_model := VStr "gpt-4";
     opt_inputTokens := VNum 100;
     opt_outputTokens := VNum 50;
     opt_latencyMs := VNum 200;
     opt_featureTag := VStr "chat";
     opt_environment := VUndefined;
     opt_provider := VStr "openai";
     opt_cachedTokens := VUndefined;
     opt_success := VUndefined;
     opt_errorType := VUndefined;
     opt_endUserId := VUndefined;
     opt_runId := VUndefined;
     opt_stepIndex := VUndefined |}.

Definition staging_options : obj :=
  <["trackerApiKey" := VStr "k"]>
  (<["projectId" := VStr "p"]>
  (<["environment" := VStr "staging"]> {[ "debug" := VBool true ]})).

Definition anthropic_streaming_params : obj :=
  <["model" := VStr "claude-3-opus-20240229"]>
  (<["max_tokens" := VNum 100]> {[ "stream" := VBool true ]}).

Definition run_options : obj := {[ "featureTag" := VStr "agent" ]}.

(** ** Sequences of tracked calls *)

(** Tracked calls awaited one after the other:
    [for (const o of os) await track(o)]. *)
Fixpoint track_all (os : list TrackOptions) (cx : ctx) : M unit :=
  match os with
  | [] => ret tt
  | o :: rest => do! track o cx in track_all rest cx
  end.

(** The value a property of a posted body reads as when the payload
    held [v] under a key that is set only [if (v != null)]. *)
Definition when_present (v : value) : value :=
  if nullish v then VUndefined else json v.

(** The requests a sequence of tracked calls issues inside the run
    [r], none of them supplying a [runId], telemetry being enabled:
    for each call its step signal, then its event. *)
Fixpoint run_requests (c : obj) (tag : value) (r : AgentRun) (os : list TrackOptions)
    : list request :=
  match os with
  | [] => []
  | o :: rest =>
      run_request c "/api/runs/step"
        (VObj (step_payload c (runId r) (VNum (stepCounter r + 1)) o))
      :: ingest_request c
           (VObj (ingest_payload c tag o (runId r) (VNum (stepCounter r + 1))))
      :: run_requests c tag (stepped r) rest
  end.

(** [const run = new AgentRun(options); await run.execute(() => track(o))] *)
Definition fresh_run_one_call (options : obj) (o : TrackOptions) (cx : ctx) : M unit :=
  let! run := new_AgentRun options in
  execute run (track o) cx.

(** A tracked call, a second run executed to its end, and another
    tracked call, as the body of a run:
    [await track(o1); await inner.execute(() => track(o2)); await track(o3)]. *)
Definition around_inner_run (inner : nat) (o1 o2 o3 : TrackOptions) (cx : ctx)
    : M unit :=
  do! track o1 cx in
  do! execute inner (track o2) cx in
  track o3 cx.

(** What an event says of its run: [run_id] and [step_index]. *)
Definition step_of (body : value) : value * value :=
  (prop body "run_id", prop body "step_index").

(** A body that fails after its tracked calls:
    [for (const o of os) await track(o); throw e]. *)
Definition failing_after (os : list TrackOptions) (e : exn) (cx : ctx) : M unit :=
  do! track_all os cx in throw e.

(** ** Consumers of a stream *)

(** A consumer that reads a stream to its end and notes how it ended:
<<
      try { for await (const x of g) received.push(x); return [received, "end"]; }
      catch (e) { return [received, e]; }
>>
    at most [fuel] pulls; [None]: the pulls ran out first. *)
Fixpoint read_all (fuel : nat) (g : generator) (cx : ctx) (received : list obj)
    : M (option (list obj * stream_end)) :=
  match fuel with
  | O => ret None
  | S fuel' =>
      let! r := next g cx in
      match fst r with
      | Yielded x => read_all fuel' (snd r) cx (received ++ [x])
      | Returned => ret (Some (received, EndOfStream))
      | Raised e => ret (Some (received, StreamFails e))
      end
  end.

(** The wrapping generator [g] is transparent for a source that yields
    [items] and then ends as [fin]: its consumer receives exactly
    [items], in order, and sees the stream end as the source did; and
    when the source failed, nothing was sent, logged or counted. *)
Definition transparent (g : generator) (items : list obj) (fin : stream_end) : Prop :=
  forall (cx : ctx) (w : world),
    fst (read_all (S (length items)) g cx [] w) = Ok (Some (items, fin)) /\
    forall e : exn,
      fin = StreamFails e ->
      fst (for_await (S (length items)) g cx [] w) = Throw e /\
      snd (read_all (S (length items)) g cx [] w) = w /\
      snd (for_await (S (length items)) g cx [] w) = w.

(** A consumer that breaks out of its loop over [g] after [n] of the
    [items] has received just these, and nothing was sent, logged or
    counted; the generator is then closed, and stays so: whoever pulls
    again is told the stream is done, and again nothing happens. *)
Definition silent_when_abandoned (g : generator) (items : list obj) : Prop :=
  forall (n : nat) (cx : ctx) (w : world),
    (n <= length items)%nat ->
    take_then_break n g cx [] w = (Ok (take n items, return_ g), w) /\
    forall (cx' : ctx) (w' : world),
      next (return_ g) cx' w' = (Ok (Returned, return_ g), w').

(** Reading the generator [g] to its end hands on exactly [items], and
    with telemetry enabled posts exactly one event, which names the
    provider, the model and the tag, carries the counts [t], and as
    latency has the time between [start] and the moment the consumer
    reached the end of the stream; with telemetry disabled nothing is
    posted. *)
Definition stream_reports (g : generator) (items : list obj)
    (provider model tag : value) (t : tally) (start : Z) : Prop :=
  forall (cx : ctx) (w : world),
    let r := for_await (S (length items)) g cx [] w in
    fst r = Ok (Some items) /\
    (enabled w = true ->
     exists body,
       telemetry_events (config w) (sent_since w (snd r)) = [body] /\
       prop body "provider" = json provider /\
       prop body "model" = json model /\
       prop body "feature_tag" = json tag /\
       prop body "input_tokens" = json (inputTokens t) /\
       prop body "output_tokens" = json (outputTokens t) /\
       prop body "latency_ms" = VNum (env_clock w (ticks w) - start)) /\
    (enabled w = false -> net (snd r) = net w).


(** ** What a call reports *)

(** A successful provider call, as the caller and the collector see
    it: the caller gets the provider's result [r] as it is, and,
    telemetry being enabled, exactly one event was posted, which says
    [success: true], has no [error_type], and carries the provider's
    name, the model, the tag, the three token counts and the
    milliseconds between the two readings of the clock. *)
Definition reports_success {A} (w : world) (res : result A * world) (r : A)
    (provider model tag inTok outTok cached : value) : Prop :=
  fst res = Ok r /\
  (enabled w = true ->
   exists body,
     telemetry_events (config w) (sent_since w (snd res)) = [body] /\
     prop body "provider" = json provider /\
     prop body "model" = json model /\
     prop body "feature_tag" = json tag /\
     prop body "input_tokens" = json inTok /\
     prop body "output_tokens" = json outTok /\
     prop body "cached_tokens" = json cached /\
     prop body "success" = VBool true /\
     prop body "error_type" = VUndefined /\
     prop body "latency_ms" = VNum (env_clock w (S (ticks w)) - env_clock w (ticks w))) /\
  (enabled w = false -> net (snd res) = net w).

(** The call made in one context, and, when it resolves to a stream,
    the stream read in another. *)
Definition invoke_then_read_in (c : call) (cx_call cx_read : ctx) (fuel : nat)
    : M (option (list obj)) :=
  let! r := invoke c cx_call in
  match r with
  | Passed _ => ret (Some [])
  | Wrapped g => for_await fuel g cx_read []
  end.

(** ** Client getters *)

(** Successive calls of a client getter, each with its own argument:
    what each call returned, and the state they leave. *)
Fixpoint get_each (getter : value -> clients -> result client * clients)
    (l : list value) (s : clients) : list (result client) * clients :=
  match l with
  | [] => ([], s)
  | opts :: rest =>
      let r := getter opts s in
      let rs := get_each getter rest (snd r) in
      (fst r :: fst rs, snd rs)
  end.

(** A call [getClient(opts)] that asks for the default client:
    [opts] is falsy for openai.ts and anthropic.ts, [opts?.apiKey] is
    falsy for gemini.ts. *)
Definition asks_default (gemini : bool) (opts : value) : bool :=
  negb (truthy (if gemini then prop opts "apiKey" else opts)).

Definition getter_of (gemini : bool) : value -> clients -> result client * clients :=
  if gemini then GeminiClient.getClient else OpenAIClient.getClient.

(** ** Further concrete inputs *)

(** A run that has taken three steps. *)
Definition run_a : AgentRun :=
  {| runId := VStr "run-a"; runName := VUndefined; featureTag := VStr "agent";
     endUserId := VUndefined; stepCounter := 3 |}.

(** Another run, fresh. *)
Definition run_b : AgentRun :=
  {| runId := VStr "run-b"; runName := VStr "inner"; featureTag := VStr "tool";
     endUserId := VUndefined; stepCounter := 0 |}.

(** [track] options that name a run of the caller's. *)
Definition own_run_options : TrackOptions :=
  {| opt_model := VStr "gpt-4";
     opt_inputTokens := VNum 1;
     opt_outputTokens := VNum 2;
     opt_latencyMs := VNum 3;
     opt_featureTag := VUndefined;
     opt_environment := VUndefined;
     opt_provider := VUndefined;
     opt_cachedTokens := VUndefined;
     opt_success := VUndefined;
     opt_errorType := VUndefined;
     opt_endUserId := VUndefined;
     opt_runId := VStr "mine";
     opt_stepIndex := VUndefined |}.

Definition gemini_result : obj :=
  {[ "response" :=
       VObj {[ "usageMetadata" :=
                 VObj (<["promptTokenCount" := VNum 8]>
                       (<["candidatesTokenCount" := VNum 12]>
                          {[ "cachedContentTokenCount" := VNum 3 ]})) ]} ]}.

Definition claude_response : obj :=
  {[ "usage" := VObj (<["input_tokens" := VNum 30]>
                      (<["output_tokens" := VNum 40]>
                         {[ "cache_read_input_tokens" := VNum 5 ]})) ]}.

Definition gemini_chunks : list obj :=
  [ {[ "text" := VStr "Hel" ]};
    {[ "usageMetadata" := VObj (<["promptTokenCount" := VNum 8]>
                                  {[ "candidatesTokenCount" := VNum 2 ]}) ]};
    {[ "usageMetadata" := VObj (<["promptTokenCount" := VNum 8]>
                                  {[ "candidatesTokenCount" := VNum 12 ]}) ]} ].

(** The adapters' module state before first use: no client cached, no
    constructor called, every construction succeeding, and [env] as the
    process environment. *)
Definition no_client (env : obj) : clients :=
  Clients (Injected VNull) [] (fun _ _ => None) env.

(** The same where no construction succeeds. *)
Definition no_sdk (e : exn) (env : obj) : clients :=
  Clients (Injected VNull) [] (fun _ _ => Some e) env.

(** * Properties *)

(** ** The emitter *)

(** The payload builders and the string functions stay folded while
    the monadic code is run. *)
Arguments json : simpl never.
Arguments field : simpl never.
Arguments to_string : simpl never.
Arguments api_headers : simpl never.
Arguments ingest_payload : simpl never.
Arguments step_payload : simpl never.
Arguments String.append : simpl never.

Lemma sendTelemetry_eq payload w :
  sendTelemetry payload w =
  (Ok tt,
   if enabled w
   then push_request (ingest_request (config w) payload)
          (if debugging w then push_console payload w else w)
   else w).
Proof.
  unfold sendTelemetry, enabled, debugging, bind, get_config, try_catch. simpl.
  destruct (truthy (field (config w) "enabled")); simpl; [|reflexivity].
  destruct (truthy (field (config w) "debug")); simpl;
    unfold fetch; simpl; destruct (env_fetch w _); reflexivity.
Qed.

Lemma sendRunApi_eq path payload w :
  sendRunApi path payload w =
  (Ok tt,
   if enabled w then push_request (run_request (config w) path payload) w else w).
Proof.
  unfold sendRunApi, enabled, bind, get_config, try_catch. simpl.
  destruct (truthy (field (config w) "enabled")); simpl; [|reflexivity].
  unfold fetch; simpl; destruct (env_fetch w _); reflexivity.
Qed.

(** [track] outside a run, or with a [runId] of the caller's: one call
    of the emitter. *)
Lemma track_plain options cx w :
  ctx_run cx = None \/ nullish (opt_runId options) = false ->
  track options cx w =
  sendTelemetry
    (VObj (ingest_payload (config w) (ctx_tag cx) options
             (opt_runId options) (opt_stepIndex options))) w.
Proof.
  intros H. unfold track.
  destruct (ctx_run cx) as [l|] eqn:E.
  - destruct H as [H|H]; [discriminate|]. rewrite H. reflexivity.
  - reflexivity.
Qed.

(** [track] inside a run: the run takes its next step, the step is
    recorded, then the emitter is called. *)
Lemma track_in_run options cx w l :
  ctx_run cx = Some l -> nullish (opt_runId options) = true ->
  let r := deref (runs w) l in
  let w1 := put_runs (<[l := stepped r]> (runs w)) w in
  let w2 := snd (sendRunApi "/api/runs/step"
                   (VObj (step_payload (config w) (runId r)
                            (VNum (stepCounter r + 1)) options)) w1) in
  track options cx w =
  sendTelemetry
    (VObj (ingest_payload (config w) (ctx_tag cx) options
             (runId r) (VNum (stepCounter r + 1)))) w2.
Proof.
  intros E H. unfold track. rewrite E, H.
  cbv beta iota zeta delta
    [bind get_runs _nextStep get_config set_runs fire_and_forget ret fst snd].
  rewrite !sendRunApi_eq. unfold enabled. cbn [config put_runs].
  destruct (truthy (field (config w) "enabled")); reflexivity.
Qed.

Ltac by_flags w :=
  unfold enabled, debugging;
  let En := fresh "En" in
  let Db := fresh "Db" in
  destruct (truthy (field (config w) "enabled")) eqn:En;
  destruct (truthy (field (config w) "debug")) eqn:Db;
  repeat (progress
            (cbn [fst snd fold_right config put_runs push_request push_console id];
             rewrite ?En, ?Db));
  try reflexivity.

Lemma track_cases options cx w :
  track options cx w =
  (Ok tt,
   if enabled w
   then push_request (ingest_request (config w) (VObj (track_payload options cx w)))
          ((if debugging w
            then push_console (VObj (track_payload options cx w))
            else id)
             (fold_right push_request (put_runs (runs_after_track options cx w) w)
                (step_requests options cx w)))
   else put_runs (runs_after_track options cx w) w).
Proof.
  unfold track_payload, resolved_run, step_requests, runs_after_track.
  destruct (ctx_run cx) as [l|] eqn:E.
  - destruct (nullish (opt_runId options)) eqn:N.
    + rewrite (track_in_run _ _ _ _ E N). cbv zeta.
      rewrite sendRunApi_eq, sendTelemetry_eq. by_flags w.
    + rewrite track_plain by (right; exact N).
      rewrite sendTelemetry_eq. destruct w as [c h n co ca ti ef ec eu ep];
      by_flags (World c h n co ca ti ef ec eu ep).
  - rewrite track_plain by (left; exact E).
    rewrite sendTelemetry_eq. destruct w as [c h n co ca ti ef ec eu ep];
      by_flags (World c h n co ca ti ef ec eu ep).
Qed.

Ltac world_simpl :=
  cbn [fst snd fold_right id config runs net console calls ticks
       env_fetch env_clock env_uuid env_provider
       put_config put_runs push_request push_console push_call tick].

Lemma track_ok options cx w : fst (track options cx w) = Ok tt.
Proof. rewrite track_cases. reflexivity. Qed.

Lemma track_net options cx w :
  net (snd (track options cx w)) =
  net w ++
  (if enabled w
   then step_requests options cx w ++
        [ingest_request (config w) (VObj (track_payload options cx w))]
   else []).
Proof.
  rewrite track_cases. unfold step_requests.
  destruct (enabled w), (debugging w), (ctx_run cx), (nullish (opt_runId options));
    world_simpl; rewrite <- ?app_assoc, ?app_nil_r; reflexivity.
Qed.

Lemma track_frame options cx w :
  let w' := snd (track options cx w) in
  config w' = config w /\ runs w' = runs_after_track options cx w /\
  calls w' = calls w /\ ticks w' = ticks w /\
  env_fetch w' = env_fetch w /\ env_clock w' = env_clock w /\
  env_uuid w' = env_uuid w /\ env_provider w' = env_provider w.
Proof.
  cbv zeta. rewrite track_cases. unfold step_requests.
  destruct (enabled w), (debugging w), (ctx_run cx), (nullish (opt_runId options));
    world_simpl; repeat split; reflexivity.
Qed.

(** ** Consuming a wrapped stream *)

Lemma for_await_pull fuel code x rest fin t cx received w :
  for_await (S fuel) (Generator code (Suspended (x :: rest) fin t)) cx received w =
  for_await fuel (Generator code (Suspended rest fin (on_item code x t)))
    cx (received ++ [x]) w.
Proof. reflexivity. Qed.

Lemma take_then_break_pull n code x rest fin t cx received w :
  take_then_break (S n) (Generator code (Suspended (x :: rest) fin t)) cx received w =
  take_then_break n (Generator code (Suspended rest fin (on_item code x t)))
    cx (received ++ [x]) w.
Proof. reflexivity. Qed.

(** Read to its end, a wrapping generator over a source that ends
    normally hands on every item in order and then runs its tail once,
    on the counters folded over the items. *)
Lemma for_await_drain code chunks t cx received w :
  for_await (S (length chunks)) (Generator code (Suspended chunks EndOfStream t))
    cx received w =
  (do! at_end code (fold_left (fun t x => on_item code x t) chunks t) cx in
   ret (Some (received ++ chunks))) w.
Proof.
  revert t received w. induction chunks as [|x rest IH]; intros t received w.
  - cbn [length for_await next gen_state_of gen_code fold_left].
    unfold bind, ret. destruct (at_end code t cx w) as [[u|e] w']; cbn.
    + rewrite app_nil_r. reflexivity.
    + reflexivity.
  - change (length (x :: rest)) with (S (length rest)).
    rewrite for_await_pull, IH. cbn [fold_left]. rewrite <- app_assoc. reflexivity.
Qed.

(** A consumer that walks away, or a source that fails, leaves the
    tail of the generator unrun: nothing is sent. *)
Lemma take_then_break_silent code chunks fin t cx received n w :
  (n <= length chunks)%nat ->
  take_then_break n (Generator code (Suspended chunks fin t)) cx received w =
  (Ok (received ++ take n chunks,
       Generator code Finished), w).
Proof.
  revert chunks t received w. induction n as [|n IH]; intros chunks t received w Hn.
  - cbn. rewrite app_nil_r. reflexivity.
  - destruct chunks as [|x rest]; [cbn in Hn; lia|].
    rewrite take_then_break_pull, IH by (cbn in Hn; lia).
    cbn [take]. rewrite <- app_assoc. reflexivity.
Qed.

Lemma for_await_source_fails code chunks e t cx received fuel w :
  (length chunks < fuel)%nat ->
  for_await fuel (Generator code (Suspended chunks (StreamFails e) t)) cx received w =
  (Throw e, w).
Proof.
  revert chunks t received w. induction fuel as [|fuel IH]; intros chunks t received w Hn.
  - lia.
  - destruct chunks as [|x rest].
    + reflexivity.
    + rewrite for_await_pull. apply IH. cbn in Hn; lia.
Qed.

(** ** Reading requests and payloads *)

Lemma append_eqb_prefix a b c : String.eqb (a +:+ b) (a +:+ c) = String.eqb b c.
Proof.
  destruct (String.eqb b c) eqn:E.
  - apply String.eqb_eq in E. subst c. apply String.eqb_refl.
  - apply String.eqb_neq in E. apply String.eqb_neq. intros H. apply E.
    induction a as [|ch a IH]; [exact H|].
    injection H as H. exact (IH H).
Qed.

Lemma sent_since_app w w' l : net w' = net w ++ l -> sent_since w w' = l.
Proof. intros H. unfold sent_since. rewrite H. apply drop_app_length. Qed.

Lemma telemetry_events_app c l1 l2 :
  telemetry_events c (l1 ++ l2) = telemetry_events c l1 ++ telemetry_events c l2.
Proof. unfold telemetry_events. rewrite List.filter_app, map_app. reflexivity. Qed.

Lemma telemetry_events_ingest c payload :
  telemetry_events c [ingest_request c payload] = [json payload].
Proof.
  unfold telemetry_events, ingest_request, is_post_to. cbn [List.filter req_url req_method].
  rewrite String.eqb_refl. reflexivity.
Qed.

Lemma telemetry_events_run c path payload :
  path <> "/api/ingest" ->
  telemetry_events c [run_request c path payload] = [].
Proof.
  intros H. unfold telemetry_events, run_request, is_post_to.
  cbn [List.filter req_url req_method].
  rewrite append_eqb_prefix. apply String.eqb_neq in H. rewrite H. reflexivity.
Qed.

Lemma telemetry_events_steps c options cx w :
  config w = c -> telemetry_events c (step_requests options cx w) = [].
Proof.
  intros <-. unfold step_requests.
  destruct (ctx_run cx); [|reflexivity].
  destruct (nullish (opt_runId options)); [|reflexivity].
  apply telemetry_events_run. discriminate.
Qed.

(** What one [track] call emits. *)
Lemma track_events options cx w :
  telemetry_events (config w) (sent_since w (snd (track options cx w))) =
  if enabled w then [json (VObj (track_payload options cx w))] else [].
Proof.
  rewrite (sent_since_app _ _ _ (track_net options cx w)).
  destruct (enabled w); [|reflexivity].
  rewrite telemetry_events_app, telemetry_events_steps by reflexivity.
  apply telemetry_events_ingest.
Qed.

(** Reading a property of a serialised object. *)
Lemma prop_json (o : obj) k : prop (json (VObj o)) k = json (field o k).
Proof.
  unfold json at 1; fold json. unfold prop, field. rewrite lookup_omap.
  destruct (o !! k) as [[]|]; reflexivity.
Qed.

Lemma field_lookup (o : obj) k v : o !! k = Some v -> field o k = v.
Proof. unfold field. intros ->. reflexivity. Qed.

Lemma field_absent (o : obj) k : o !! k = None -> field o k = VUndefined.
Proof. unfold field. intros ->. reflexivity. Qed.

Ltac payload_lookup :=
  unfold track_payload, ingest_payload, set_if_present, base_payload, step_payload;
  repeat match goal with
         | |- context [if nullish ?v then _ else _] => destruct (nullish v) eqn:?
         end;
  repeat (rewrite lookup_insert_ne by discriminate);
  rewrite ?lookup_insert_eq, ?lookup_empty; try reflexivity.

Lemma ingest_payload_input c tag o rid st :
  ingest_payload c tag o rid st !! "input_tokens" = Some (opt_inputTokens o).
Proof. payload_lookup. Qed.

Lemma ingest_payload_output c tag o rid st :
  ingest_payload c tag o rid st !! "output_tokens" = Some (opt_outputTokens o).
Proof. payload_lookup. Qed.

Lemma ingest_payload_feature_tag c tag o rid st :
  ingest_payload c tag o rid st !! "feature_tag" =
  Some (opt_featureTag o ?? tag ?? VStr "unknown").
Proof. payload_lookup. Qed.

Lemma ingest_payload_success c tag o rid st :
  ingest_payload c tag o rid st !! "success" = Some (opt_success o ?? VBool true).
Proof. payload_lookup. Qed.

Lemma ingest_payload_cached c tag o rid st :
  ingest_payload c tag o rid st !! "cached_tokens" = Some (opt_cachedTokens o ?? VNum 0).
Proof. payload_lookup. Qed.

Lemma ingest_payload_provider c tag o rid st :
  ingest_payload c tag o rid st !! "provider" = Some (opt_provider o ?? VStr "custom").
Proof. payload_lookup. Qed.

Lemma ingest_payload_error_type c tag o rid st :
  ingest_payload c tag o rid st !! "error_type" =
  if nullish (opt_errorType o) then None else Some (opt_errorType o).
Proof. payload_lookup. Qed.

Lemma ingest_payload_end_user_id c tag o rid st :
  ingest_payload c tag o rid st !! "end_user_id" =
  if nullish (opt_endUserId o) then None else Some (opt_endUserId o).
Proof. payload_lookup. Qed.

Lemma ingest_payload_run_id c tag o rid st :
  ingest_payload c tag o rid st !! "run_id" =
  if nullish rid then None else Some rid.
Proof. payload_lookup. Qed.

Lemma ingest_payload_step_index c tag o rid st :
  ingest_payload c tag o rid st !! "step_index" =
  if nullish st then None else Some st.
Proof. payload_lookup. Qed.

(** ** OpenAI streams *)

Lemma openai_fold chunks t :
  fold_left (fun t x => OpenAI.observe_chunk x t) chunks t =
  match last (openai_usages chunks) with
  | Some u => Tally (prop u "prompt_tokens" ?? VNum 0)
                    (prop u "completion_tokens" ?? VNum 0)
  | None => t
  end.
Proof.
  revert t. induction chunks as [|x rest IH]; intros t; [reflexivity|].
  cbn [fold_left]. rewrite IH. unfold openai_usages, OpenAI.observe_chunk.
  cbn [map List.filter].
  destruct (truthy (field x "usage")) eqn:E; [|reflexivity].
  rewrite last_cons.
  destruct (last (List.filter truthy (map (fun chunk => field chunk "usage") rest)));
    reflexivity.
Qed.

(** The tail of every wrapper that reports through [track]. *)
Lemma send_usage_track provider model featureTag start t cx w :
  (let! now := Date_now in
   fire_and_forget
     (track (adapter_options provider model featureTag
               (inputTokens t) (outputTokens t) VUndefined
               (now - start) VUndefined VUndefined) cx)) w =
  (Ok tt,
   snd (track (adapter_options provider model featureTag
                 (inputTokens t) (outputTokens t) VUndefined
                 (env_clock w (ticks w) - start) VUndefined VUndefined) cx
          (tick w))).
Proof. reflexivity. Qed.

Lemma sent_since_tick w w' : sent_since (tick w) w' = sent_since w w'.
Proof. reflexivity. Qed.

Lemma sent_since_none w w' : net w' = net w -> sent_since w w' = [].
Proof. intros H. apply sent_since_app. rewrite app_nil_r. exact H. Qed.

(** Reading an OpenAI stream to its end: every chunk is handed on, and
    the world moves as by one [track] call on the final counts. *)
Lemma openai_stream_drain chunks model featureTag start cx w :
  for_await (S (length chunks))
    (OpenAI.wrapOpenAIStream (Stream chunks EndOfStream) model featureTag start)
    cx [] w =
  (Ok (Some chunks),
   snd (track (adapter_options (VStr "openai") model featureTag
                 (inputTokens (openai_counts chunks))
                 (outputTokens (openai_counts chunks)) VUndefined
                 (env_clock w (ticks w) - start) VUndefined VUndefined) cx
          (tick w))).
Proof.
  unfold OpenAI.wrapOpenAIStream, start_generator. cbn [iterate fst snd].
  rewrite for_await_drain. cbn [at_end on_item].
  rewrite openai_fold. fold (openai_counts chunks).
  unfold OpenAI.send_usage, bind at 1.
  rewrite send_usage_track. reflexivity.
Qed.

Lemma adapter_stream_events provider model featureTag inTok outTok start cx w :
  enabled w = true ->
  let o := adapter_options provider model featureTag inTok outTok VUndefined
             (env_clock w (ticks w) - start) VUndefined VUndefined in
  exists body,
    telemetry_events (config w) (sent_since w (snd (track o cx (tick w)))) = [body] /\
    prop body "input_tokens" = json inTok /\
    prop body "output_tokens" = json outTok /\
    prop body "feature_tag" = json (featureTag ?? ctx_tag cx ?? VStr "unknown") /\
    prop body "provider" = json (provider ?? VStr "custom").
Proof.
  intros En o. eexists. split.
  - rewrite <- sent_since_tick. change (config w) with (config (tick w)).
    rewrite track_events. change (enabled (tick w)) with (enabled w). rewrite En.
    reflexivity.
  - rewrite !prop_json. unfold track_payload.
    rewrite (field_lookup _ _ _ (ingest_payload_input _ _ _ _ _)),
      (field_lookup _ _ _ (ingest_payload_output _ _ _ _ _)),
      (field_lookup _ _ _ (ingest_payload_feature_tag _ _ _ _ _)),
      (field_lookup _ _ _ (ingest_payload_provider _ _ _ _ _)).
    repeat split; reflexivity.
Qed.

Lemma track_net_disabled options cx w :
  enabled w = false -> net (snd (track options cx w)) = net w.
Proof. intros En. rewrite track_net, En. apply app_nil_r. Qed.

Lemma openai_stream_reports chunks model featureTag start :
  read_to_end_reports
    (OpenAI.wrapOpenAIStream (Stream chunks EndOfStream) model featureTag start)
    chunks (openai_counts chunks).
Proof.
  intros cx w r. subst r. rewrite openai_stream_drain. cbn [fst snd].
  split; [reflexivity|]. split.
  - intros En.
    destruct (adapter_stream_events (VStr "openai") model featureTag
                (inputTokens (openai_counts chunks))
                (outputTokens (openai_counts chunks)) start cx w En)
      as (body & Hb & Hi & Ho & _).
    exists body. repeat split; assumption.
  - intros En. apply (track_net_disabled _ _ (tick w)). exact En.
Qed.

Lemma field_delete_ne (o : obj) k k' : k <> k' -> field (delete k o) k' = field o k'.
Proof. intros H. unfold field. rewrite lookup_delete_ne by exact H. reflexivity. Qed.

(** A streaming call: the real client is called once, nothing is sent
    yet, and the caller gets the wrapping generator. *)
Lemma openai_create_streaming params cx w r :
  truthy (field params "stream") = true ->
  env_provider w "chat.completions.create" [VObj (openai_forwarded params)] = Resolves r ->
  OpenAI.create params cx w =
  (Ok (Wrapped (OpenAI.wrapOpenAIStream r (field params "model")
                  (resolved_tag params cx) (env_clock w (ticks w)))),
   push_call "chat.completions.create" [VObj (openai_forwarded params)] (tick w)).
Proof.
  intros Hs Hp. unfold openai_forwarded in *. rewrite Hs in Hp.
  unfold OpenAI.create. rewrite field_delete_ne by discriminate. rewrite Hs.
  unfold bind, Date_now, call_provider, ret. world_simpl. rewrite Hp. reflexivity.
Qed.

Example example_counts : openai_counts example_chunks = Tally (VNum 15) (VNum 25).
Proof. reflexivity. Qed.

(** C1 (as amended): an OpenAI streaming call resolves to a generator
    that, read to its end, hands on every chunk of the provider's
    stream unchanged and in order; if telemetry is enabled when the
    stream is exhausted, exactly one telemetry event is then posted,
    whose [input_tokens] and [output_tokens] are the [prompt_tokens]
    and [completion_tokens] of the last chunk with a populated [usage];
    for the chunks of the specification's example these are 15 and
    25. *)
Theorem openai_stream_one_event :
  forall (params : obj) (cx : ctx) (w : world) (chunks : list obj),
    truthy (field params "stream") = true ->
    env_provider w "chat.completions.create" [VObj (openai_forwarded params)]
      = Resolves (Stream chunks EndOfStream) ->
    exists g w1,
      OpenAI.create params cx w = (Ok (Wrapped g), w1) /\
      sent_since w w1 = [] /\
      read_to_end_reports g chunks (openai_counts chunks) /\
      (chunks = example_chunks ->
       read_to_end_reports g chunks (Tally (VNum 15) (VNum 25))).
Proof.
  intros params cx w chunks Hs Hp.
  do 2 eexists. split; [exact (openai_create_streaming _ _ _ _ Hs Hp)|].
  split; [apply sent_since_none; reflexivity|].
  split; [apply openai_stream_reports|].
  intros ->. apply (openai_stream_reports example_chunks).
Qed.

Lemma openai_stream_one_event_witness :
  let w := mock_world test_config (Resolves (Stream example_chunks EndOfStream))
             (FetchResponse 200) in
  exists g w1,
    OpenAI.create streaming_params no_ctx w = (Ok (Wrapped g), w1) /\
    fst (for_await 4 g no_ctx [] w1) = Ok (Some example_chunks) /\
    exists body,
      telemetry_events (config w1)
        (sent_since w1 (snd (for_await 4 g no_ctx [] w1))) = [body] /\
      prop body "input_tokens" = VNum 15 /\
      prop body "output_tokens" = VNum 25.
Proof.
  intros w.
  destruct (openai_stream_one_event streaming_params no_ctx w example_chunks
              eq_refl eq_refl) as (g & w1 & Hc & _ & _ & Hex).
  exists g, w1. split; [exact Hc|].
  assert (Hw1 : enabled w1 = true).
  { assert (E : snd (OpenAI.create streaming_params no_ctx w) = w1)
      by (rewrite Hc; reflexivity).
    rewrite <- E. reflexivity. }
  destruct (Hex eq_refl no_ctx w1) as (Hy & Hsent & _).
  destruct (Hsent Hw1) as (body & Hb & Hi & Ho).
  split; [exact Hy|]. exists body. repeat split; assumption.
Defined.

(** With [enabled: false] the same call and the same stream post
    nothing at all. *)
Lemma openai_stream_disabled_no_event :
  let w := mock_world disabled_config (Resolves (Stream example_chunks EndOfStream))
             (FetchResponse 200) in
  exists g w1,
    OpenAI.create streaming_params no_ctx w = (Ok (Wrapped g), w1) /\
    fst (for_await 4 g no_ctx [] w1) = Ok (Some example_chunks) /\
    telemetry_events (config w1) (sent_since w1 (snd (for_await 4 g no_ctx [] w1))) = [] /\
    net (snd (for_await 4 g no_ctx [] w1)) = [].
Proof.
  do 2 eexists. split; [reflexivity|]. split; [reflexivity|].
  split; vm_compute; reflexivity.
Qed.

(** ** Anthropic streams *)

Lemma anthropic_fold events t :
  fold_left (fun t x => observe_event x t) events t =
  Tally
    (match last (anthropic_starts events) with
     | Some u => prop u "input_tokens" ?? VNum 0
     | None => inputTokens t
     end)
    (match last (anthropic_deltas events) with
     | Some u => prop u "output_tokens" ?? VNum 0
     | None => outputTokens t
     end).
Proof.
  revert t. induction events as [|x rest IH]; intros t; [destruct t; reflexivity|].
  cbn [fold_left]. rewrite IH. unfold anthropic_starts, anthropic_deltas, observe_event.
  cbn [List.filter].
  destruct (is_string (field x "type") "message_start"
            && truthy (prop (field x "message") "usage"));
    destruct (is_string (field x "type") "message_delta" && truthy (field x "usage"));
    cbn [map inputTokens outputTokens]; rewrite ?last_cons;
    repeat match goal with
           | |- context [last ?l] => destruct (last l)
           end;
    reflexivity.
Qed.

Lemma anthropic_stream_drain events model featureTag start cx w :
  for_await (S (length events))
    (Anthropic.wrapAnthropicStream (Stream events EndOfStream) model featureTag start)
    cx [] w =
  (Ok (Some events),
   snd (track (adapter_options (VStr "anthropic") model featureTag
                 (inputTokens (anthropic_counts events))
                 (outputTokens (anthropic_counts events)) VUndefined
                 (env_clock w (ticks w) - start) VUndefined VUndefined) cx
          (tick w))).
Proof.
  unfold Anthropic.wrapAnthropicStream, start_generator. cbn [iterate fst snd].
  rewrite for_await_drain. cbn [at_end on_item].
  rewrite anthropic_fold. cbn [inputTokens outputTokens].
  change (Tally _ _) with (anthropic_counts events).
  unfold Anthropic.send_usage, bind at 1.
  rewrite send_usage_track. reflexivity.
Qed.

Lemma anthropic_stream_reports events model featureTag start :
  read_to_end_reports
    (Anthropic.wrapAnthropicStream (Stream events EndOfStream) model featureTag start)
    events (anthropic_counts events).
Proof.
  intros cx w r. subst r. rewrite anthropic_stream_drain. cbn [fst snd].
  split; [reflexivity|]. split.
  - intros En.
    destruct (adapter_stream_events (VStr "anthropic") model featureTag
                (inputTokens (anthropic_counts events))
                (outputTokens (anthropic_counts events)) start cx w En)
      as (body & Hb & Hi & Ho & _).
    exists body. repeat split; assumption.
  - intros En. apply (track_net_disabled _ _ (tick w)). exact En.
Qed.

(** The earlier version of the file. *)
Lemma legacy_stream_drain events model featureTag start cx w :
  for_await (S (length events))
    (AnthropicLegacy.wrapAnthropicStream (Stream events EndOfStream) model
       featureTag start)
    cx [] w =
  (Ok (Some events),
   snd (sendTelemetry
          (VObj (AnthropicLegacy.usage_payload (config w) model featureTag
                   (anthropic_counts events) (env_clock w (ticks w) - start)))
          (tick w))).
Proof.
  unfold AnthropicLegacy.wrapAnthropicStream, start_generator. cbn [iterate fst snd].
  rewrite for_await_drain. cbn [at_end on_item].
  rewrite anthropic_fold. cbn [inputTokens outputTokens].
  change (Tally _ _) with (anthropic_counts events).
  reflexivity.
Qed.

Lemma sendTelemetry_net payload w :
  net (snd (sendTelemetry payload w)) =
  net w ++ (if enabled w then [ingest_request (config w) payload] else []).
Proof.
  rewrite sendTelemetry_eq.
  destruct (enabled w), (debugging w); world_simpl; rewrite ?app_nil_r; reflexivity.
Qed.

Lemma legacy_stream_reports events model featureTag start :
  read_to_end_reports
    (AnthropicLegacy.wrapAnthropicStream (Stream events EndOfStream) model
       featureTag start)
    events (anthropic_counts events).
Proof.
  intros cx w r. subst r. rewrite legacy_stream_drain. cbn [fst snd].
  split; [reflexivity|]. split.
  - intros En. eexists. split.
    + rewrite <- sent_since_tick.
      rewrite (sent_since_app _ _ _ (sendTelemetry_net _ (tick w))).
      change (enabled (tick w)) with (enabled w). rewrite En.
      apply (telemetry_events_ingest (config w)).
    + rewrite !prop_json. unfold AnthropicLegacy.usage_payload.
      split; apply f_equal, field_lookup;
        repeat (rewrite lookup_insert_ne by discriminate); apply lookup_insert_eq.
  - intros En. rewrite sendTelemetry_net. change (enabled (tick w)) with (enabled w).
    rewrite En. apply app_nil_r.
Qed.

Example example_event_counts :
  anthropic_counts example_events = Tally (VNum 100) (VNum 40).
Proof. reflexivity. Qed.

(** ** Calls that report through [track] *)

Lemma track_events_from options cx w0 w :
  net w = net w0 -> config w = config w0 ->
  telemetry_events (config w0) (sent_since w0 (snd (track options cx w))) =
  if enabled w0 then [event_of options cx w] else [].
Proof.
  intros Hn Hc.
  replace (sent_since w0 (snd (track options cx w)))
    with (sent_since w (snd (track options cx w)))
    by (unfold sent_since; rewrite Hn; reflexivity).
  rewrite <- Hc, track_events. unfold enabled. rewrite Hc. reflexivity.
Qed.

Lemma track_net_from options cx w0 w :
  net w = net w0 -> enabled w = false ->
  net (snd (track options cx w)) = net w0.
Proof. intros Hn En. rewrite track_net_disabled by exact En. exact Hn. Qed.

Lemma event_input o cx w : prop (event_of o cx w) "input_tokens" = json (opt_inputTokens o).
Proof.
  unfold event_of, track_payload. rewrite prop_json.
  rewrite (field_lookup _ _ _ (ingest_payload_input _ _ _ _ _)). reflexivity.
Qed.

Lemma event_output o cx w : prop (event_of o cx w) "output_tokens" = json (opt_outputTokens o).
Proof.
  unfold event_of, track_payload. rewrite prop_json.
  rewrite (field_lookup _ _ _ (ingest_payload_output _ _ _ _ _)). reflexivity.
Qed.

Lemma event_feature_tag o cx w :
  prop (event_of o cx w) "feature_tag" =
  json (opt_featureTag o ?? ctx_tag cx ?? VStr "unknown").
Proof.
  unfold event_of, track_payload. rewrite prop_json.
  rewrite (field_lookup _ _ _ (ingest_payload_feature_tag _ _ _ _ _)). reflexivity.
Qed.

Lemma event_success o cx w :
  prop (event_of o cx w) "success" = json (opt_success o ?? VBool true).
Proof.
  unfold event_of, track_payload. rewrite prop_json.
  rewrite (field_lookup _ _ _ (ingest_payload_success _ _ _ _ _)). reflexivity.
Qed.

Lemma event_error_type o cx w :
  nullish (opt_errorType o) = false ->
  prop (event_of o cx w) "error_type" = json (opt_errorType o).
Proof.
  intros H. unfold event_of, track_payload. rewrite prop_json.
  rewrite (field_lookup _ _ (opt_errorType o)); [reflexivity|].
  rewrite ingest_payload_error_type, H. reflexivity.
Qed.

Lemma nullish_coalesce a b : nullish b = false -> nullish (a ?? b) = false.
Proof. unfold coalesce. destruct a; cbn; auto. Qed.

Lemma error_type_of_defined e : nullish (error_type_of e) = false.
Proof. apply nullish_coalesce. reflexivity. Qed.

(** [error_type] is the class name of what was thrown, ["Error"] when
    the value has none. *)
Lemma error_type_of_named e name : exn_class e = VStr name -> error_type_of e = VStr name.
Proof. unfold error_type_of. intros ->. reflexivity. Qed.

Lemma error_type_of_fallback e : nullish (exn_class e) = true -> error_type_of e = VStr "Error".
Proof. unfold error_type_of, coalesce. intros ->. reflexivity. Qed.

Lemma failure_reported {A} provider model featureTag latency e cx w0 w :
  net w = net w0 -> config w = config w0 ->
  reports_failure (A := A) w0
    (Throw e, snd (track (failure_options provider model featureTag latency e) cx w)) e.
Proof.
  intros Hn Hc. unfold reports_failure. cbn [fst snd].
  split; [reflexivity|]. split.
  - intros En. eexists. split.
    + rewrite (track_events_from _ _ _ _ Hn Hc), En. reflexivity.
    + rewrite event_success, event_input, event_output.
      rewrite event_error_type by apply error_type_of_defined.
      repeat split; reflexivity.
  - intros En. apply track_net_from; [exact Hn|].
    unfold enabled in *. rewrite Hc. exact En.
Qed.

Lemma openai_create_rejects params cx w e :
  truthy (field params "stream") = false ->
  env_provider w "chat.completions.create" [VObj (openai_forwarded params)] = Rejects e ->
  OpenAI.create params cx w =
  (Throw e,
   snd (track (failure_options (VStr "openai") (field params "model")
                 (resolved_tag params cx)
                 (env_clock w (S (ticks w)) - env_clock w (ticks w)) e) cx
          (tick (push_call "chat.completions.create" [VObj (openai_forwarded params)]
                   (tick w))))).
Proof.
  intros Hs Hp. unfold openai_forwarded in *. rewrite Hs in Hp.
  unfold OpenAI.create. rewrite field_delete_ne by discriminate. rewrite Hs.
  unfold bind, try_catch, Date_now, call_provider, fire_and_forget, throw, ret.
  world_simpl. rewrite Hp. reflexivity.
Qed.

Lemma anthropic_create_rejects params cx w e :
  truthy (field params "stream") = false ->
  env_provider w "messages.create" [VObj (anthropic_forwarded params)] = Rejects e ->
  Anthropic.create params cx w =
  (Throw e,
   snd (track (failure_options (VStr "anthropic") (field params "model")
                 (resolved_tag params cx)
                 (env_clock w (S (ticks w)) - env_clock w (ticks w)) e) cx
          (tick (push_call "messages.create" [VObj (anthropic_forwarded params)]
                   (tick w))))).
Proof.
  intros Hs Hp. unfold anthropic_forwarded in *.
  unfold Anthropic.create. rewrite field_delete_ne by discriminate. rewrite Hs.
  unfold bind, try_catch, Date_now, call_provider, fire_and_forget, throw, ret.
  world_simpl. rewrite Hp. reflexivity.
Qed.

Lemma gemini_generate_rejects modelName params rest cx w e :
  env_provider w "generateContent" (snd (Gemini.extractFeatureTag params cx) :: rest)
    = Rejects e ->
  Gemini.generateContent modelName params rest cx w =
  (Throw e,
   snd (track (failure_options (VStr "gemini") modelName
                 (fst (Gemini.extractFeatureTag params cx))
                 (env_clock w (S (ticks w)) - env_clock w (ticks w)) e) cx
          (tick (push_call "generateContent"
                   (snd (Gemini.extractFeatureTag params cx) :: rest) (tick w))))).
Proof.
  intros Hp. unfold Gemini.generateContent.
  unfold bind, try_catch, Date_now, call_provider, fire_and_forget, throw, ret.
  world_simpl. rewrite Hp. reflexivity.
Qed.

(** C3 (as amended): when the wrapped client raises in a non-streaming
    call of any of the three adapters, the caller gets the very value
    that was raised, and, if telemetry is enabled, exactly one telemetry
    event was posted, with [success: false], [input_tokens: 0],
    [output_tokens: 0] and as [error_type] the class name of the raised
    value (["Error"] when it has none). *)
Theorem provider_failure_reported_and_rethrown :
  forall (w : world) (cx : ctx) (e : exn),
    (forall params : obj,
        truthy (field params "stream") = false ->
        env_provider w "chat.completions.create" [VObj (openai_forwarded params)]
          = Rejects e ->
        reports_failure w (OpenAI.create params cx w) e) /\
    (forall params : obj,
        truthy (field params "stream") = false ->
        env_provider w "messages.create" [VObj (anthropic_forwarded params)]
          = Rejects e ->
        reports_failure w (Anthropic.create params cx w) e) /\
    (forall (modelName params : value) (rest : list value),
        env_provider w "generateContent"
          (snd (Gemini.extractFeatureTag params cx) :: rest) = Rejects e ->
        reports_failure w (Gemini.generateContent modelName params rest cx w) e) /\
    (forall name, exn_class e = VStr name -> error_type_of e = VStr name) /\
    (nullish (exn_class e) = true -> error_type_of e = VStr "Error").
Proof.
  intros w cx e. split; [|split; [|split; [|split]]].
  - intros params Hs Hp. rewrite (openai_create_rejects _ _ _ _ Hs Hp).
    apply failure_reported; reflexivity.
  - intros params Hs Hp. rewrite (anthropic_create_rejects _ _ _ _ Hs Hp).
    apply failure_reported; reflexivity.
  - intros modelName params rest Hp.
    rewrite (gemini_generate_rejects _ _ _ _ _ _ Hp).
    apply failure_reported; reflexivity.
  - apply error_type_of_named.
  - apply error_type_of_fallback.
Qed.

(** ** Calls that succeed *)

Lemma openai_create_resolves params cx w r :
  truthy (field params "stream") = false ->
  env_provider w "chat.completions.create" [VObj (openai_forwarded params)] = Resolves r ->
  OpenAI.create params cx w =
  (Ok (Passed r),
   snd (track (openai_success_options params cx r
                 (env_clock w (S (ticks w)) - env_clock w (ticks w))) cx
          (tick (push_call "chat.completions.create" [VObj (openai_forwarded params)]
                   (tick w))))).
Proof.
  intros Hs Hp. unfold openai_forwarded in *. rewrite Hs in Hp.
  unfold OpenAI.create. rewrite field_delete_ne by discriminate. rewrite Hs.
  unfold bind, try_catch, Date_now, call_provider, fire_and_forget, throw, ret.
  world_simpl. rewrite Hp. reflexivity.
Qed.

Lemma anthropic_create_resolves params cx w r :
  truthy (field params "stream") = false ->
  env_provider w "messages.create" [VObj (anthropic_forwarded params)] = Resolves r ->
  Anthropic.create params cx w =
  (Ok (Passed r),
   snd (track (anthropic_success_options params cx r
                 (env_clock w (S (ticks w)) - env_clock w (ticks w))) cx
          (tick (push_call "messages.create" [VObj (anthropic_forwarded params)]
                   (tick w))))).
Proof.
  intros Hs Hp. unfold anthropic_forwarded in *.
  unfold Anthropic.create. rewrite field_delete_ne by discriminate. rewrite Hs.
  unfold bind, try_catch, Date_now, call_provider, fire_and_forget, throw, ret.
  world_simpl. rewrite Hp. reflexivity.
Qed.

Lemma gemini_generate_resolves modelName params rest cx w r :
  env_provider w "generateContent" (snd (Gemini.extractFeatureTag params cx) :: rest)
    = Resolves r ->
  Gemini.generateContent modelName params rest cx w =
  (Ok r,
   snd (track (gemini_success_options modelName params cx r
                 (env_clock w (S (ticks w)) - env_clock w (ticks w))) cx
          (tick (push_call "generateContent"
                   (snd (Gemini.extractFeatureTag params cx) :: rest) (tick w))))).
Proof.
  intros Hp. unfold Gemini.generateContent.
  unfold bind, try_catch, Date_now, call_provider, fire_and_forget, throw, ret.
  world_simpl. rewrite Hp. reflexivity.
Qed.

(** C4: however the POST settles (a response of any status, a network
    rejection, a timeout) [sendTelemetry] resolves, and issues the same
    request; with [enabled] false it changes nothing, so sends
    nothing; and a non-streaming call of any adapter whose provider
    call resolves returns the provider's result whatever the collector
    does, in particular when every POST is rejected. *)
Theorem telemetry_never_raises :
  (forall (payload : value) (w : world) (f : nat -> fetch_outcome),
      fst (sendTelemetry payload (with_collector f w)) = Ok tt /\
      net (snd (sendTelemetry payload (with_collector f w))) =
      net (snd (sendTelemetry payload w))) /\
  (forall (payload : value) (w : world),
      enabled w = false -> snd (sendTelemetry payload w) = w) /\
  (forall (w : world) (cx : ctx) (r : sdk_result) (f : nat -> fetch_outcome),
      (forall params : obj,
          truthy (field params "stream") = false ->
          env_provider w "chat.completions.create" [VObj (openai_forwarded params)]
            = Resolves r ->
          fst (OpenAI.create params cx (with_collector f w)) = Ok (Passed r)) /\
      (forall params : obj,
          truthy (field params "stream") = false ->
          env_provider w "messages.create" [VObj (anthropic_forwarded params)]
            = Resolves r ->
          fst (Anthropic.create params cx (with_collector f w)) = Ok (Passed r)) /\
      (forall (modelName params : value) (rest : list value),
          env_provider w "generateContent"
            (snd (Gemini.extractFeatureTag params cx) :: rest) = Resolves r ->
          fst (Gemini.generateContent modelName params rest cx (with_collector f w))
          = Ok r)).
Proof.
  split; [|split].
  - intros payload w f. rewrite !sendTelemetry_eq. split; [reflexivity|].
    change (enabled (with_collector f w)) with (enabled w).
    change (debugging (with_collector f w)) with (debugging w).
    destruct (enabled w), (debugging w); reflexivity.
  - intros payload w En. rewrite sendTelemetry_eq, En. reflexivity.
  - intros w cx r f. split; [|split].
    + intros params Hs Hp.
      rewrite (openai_create_resolves params cx (with_collector f w) r Hs Hp).
      reflexivity.
    + intros params Hs Hp.
      rewrite (anthropic_create_resolves params cx (with_collector f w) r Hs Hp).
      reflexivity.
    + intros modelName params rest Hp.
      rewrite (gemini_generate_resolves modelName params rest cx (with_collector f w) r Hp).
      reflexivity.
Qed.

(** ** What is forwarded to the provider *)

(** Every call of a tracked operation calls the real client exactly
    once, with [forwarded_args], whatever the client then does. *)
Lemma invoke_calls c cx w :
  calls (snd (invoke c cx w)) = calls w ++ [(method_of c, forwarded_args c cx)].
Proof.
  destruct c as [params|params|modelName params rest|modelName params rest];
    cbn [invoke method_of forwarded_args].
  - unfold OpenAI.create, openai_forwarded.
    rewrite field_delete_ne by discriminate.
    destruct (truthy (field params "stream"));
      unfold bind, try_catch, Date_now, call_provider, fire_and_forget, throw, ret;
      world_simpl;
      destruct (env_provider w _ _); world_simpl;
      rewrite ?(proj1 (proj2 (proj2 (track_frame _ _ _)))); reflexivity.
  - unfold Anthropic.create, anthropic_forwarded.
    rewrite field_delete_ne by discriminate.
    destruct (truthy (field params "stream"));
      unfold bind, try_catch, Date_now, call_provider, fire_and_forget, throw, ret;
      world_simpl;
      destruct (env_provider w _ _); world_simpl;
      rewrite ?(proj1 (proj2 (proj2 (track_frame _ _ _)))); reflexivity.
  - unfold Gemini.generateContent.
    unfold bind, try_catch, Date_now, call_provider, fire_and_forget, throw, ret;
      world_simpl;
      destruct (env_provider w _ _); world_simpl;
      rewrite ?(proj1 (proj2 (proj2 (track_frame _ _ _)))); reflexivity.
  - unfold Gemini.generateContentStream.
    unfold bind, try_catch, Date_now, call_provider, fire_and_forget, throw, ret;
      world_simpl;
      destruct (env_provider w _ _); world_simpl; reflexivity.
Qed.

Lemma with_include_usage_lookup (p : obj) k :
  k <> "stream_options" -> OpenAI.with_include_usage p !! k = p !! k.
Proof. intros H. unfold OpenAI.with_include_usage. apply lookup_insert_ne. congruence. Qed.

Lemma with_include_usage_flag (p : obj) :
  prop (field (OpenAI.with_include_usage p) "stream_options") "include_usage" = VBool true.
Proof.
  unfold OpenAI.with_include_usage.
  rewrite (field_lookup _ "stream_options" _ (lookup_insert_eq _ _ _)). cbn [prop].
  apply field_lookup, lookup_insert_eq.
Qed.

Lemma with_include_usage_keeps (p so : obj) k :
  p !! "stream_options" = Some (VObj so) -> k <> "include_usage" ->
  prop (field (OpenAI.with_include_usage p) "stream_options") k = field so k.
Proof.
  intros Hso Hk. unfold OpenAI.with_include_usage.
  rewrite (field_lookup _ "stream_options" _ (lookup_insert_eq _ _ _)). cbn [prop].
  rewrite (field_lookup p "stream_options" _ Hso). cbn [spread].
  unfold field. rewrite lookup_insert_ne by congruence. reflexivity.
Qed.

(** C7: an OpenAI streaming call hands the real client, in its one
    call, parameters whose [stream_options.include_usage] is [true];
    every other field of a [stream_options] object the caller supplied
    is kept, and so is every other parameter but [feature_tag]. *)
Theorem openai_stream_options_injected :
  forall (params : obj) (cx : ctx) (w : world),
    truthy (field params "stream") = true ->
    exists fwd : obj,
      calls (snd (OpenAI.create params cx w)) =
        calls w ++ [("chat.completions.create", [VObj fwd])] /\
      prop (field fwd "stream_options") "include_usage" = VBool true /\
      (forall (so : obj) (k : string),
          params !! "stream_options" = Some (VObj so) ->
          k <> "include_usage" ->
          prop (field fwd "stream_options") k = field so k) /\
      (params !! "stream_options" = None ->
       field fwd "stream_options" = VObj {[ "include_usage" := VBool true ]}) /\
      (forall k : string,
          k <> "stream_options" -> k <> "feature_tag" -> fwd !! k = params !! k).
Proof.
  intros params cx w Hs. exists (openai_forwarded params).
  split; [exact (invoke_calls (OpenAI_create params) cx w)|].
  unfold openai_forwarded. rewrite Hs.
  split; [apply with_include_usage_flag|]. split; [|split].
  - intros so k Hso Hk. apply with_include_usage_keeps; [|exact Hk].
    rewrite lookup_delete_ne by discriminate. exact Hso.
  - intros Hnone. unfold OpenAI.with_include_usage.
    rewrite (field_lookup _ "stream_options" _ (lookup_insert_eq _ _ _)).
    rewrite field_delete_ne by discriminate.
    rewrite (field_absent _ _ Hnone). reflexivity.
  - intros k Hk Hf. rewrite with_include_usage_lookup by exact Hk.
    apply lookup_delete_ne. congruence.
Qed.

(** ** Feature tags *)

(** However far the consumer gets, a wrapping generator changes the
    world either not at all or by running its tail once. *)
Lemma for_await_effect fuel code chunks fin t cx received w :
  snd (for_await fuel (Generator code (Suspended chunks fin t)) cx received w) = w \/
  snd (for_await fuel (Generator code (Suspended chunks fin t)) cx received w) =
  snd (at_end code (fold_left (fun t x => on_item code x t) chunks t) cx w).
Proof.
  revert chunks t received. induction fuel as [|fuel IH]; intros chunks t received.
  - left. reflexivity.
  - destruct chunks as [|x rest].
    + destruct fin as [|e].
      * right. cbn [for_await next gen_state_of gen_code fold_left].
        unfold bind, ret. destruct (at_end code t cx w) as [[u|e] w']; reflexivity.
      * left. reflexivity.
    + rewrite for_await_pull. cbn [fold_left]. apply IH.
Qed.

Lemma tracked_events_tagged w w' tag body :
  nullish tag = false ->
  tracked_at_most_once w w' tag ->
  In body (telemetry_events (config w) (sent_since w w')) ->
  prop body "feature_tag" = json tag.
Proof.
  intros Ht [Hn|(o & cx & w0 & Hn & Hc & Ho & ->)] Hin.
  - rewrite (sent_since_none _ _ Hn) in Hin. destruct Hin.
  - rewrite (track_events_from _ _ _ _ Hn Hc) in Hin.
    destruct (enabled w); [|destruct Hin].
    destruct Hin as [<-|[]]. rewrite event_feature_tag, Ho.
    unfold coalesce at 1. rewrite Ht. reflexivity.
Qed.

Lemma wrapper_tracked fuel code stream cx w w0 tag :
  net w0 = net w -> config w0 = config w ->
  (forall t cx w1, exists o,
      opt_featureTag o = tag /\ snd (at_end code t cx w1) = snd (track o cx (tick w1))) ->
  tracked_at_most_once w
    (snd (for_await fuel (start_generator code stream) cx [] w0)) tag.
Proof.
  intros Hn Hc Hend. unfold start_generator.
  destruct (for_await_effect fuel code (fst (iterate stream)) (snd (iterate stream))
              (Tally (VNum 0) (VNum 0)) cx [] w0) as [->| ->].
  - left. exact Hn.
  - destruct (Hend (fold_left (fun t x => on_item code x t) (fst (iterate stream))
                      (Tally (VNum 0) (VNum 0))) cx w0) as (o & Ho & ->).
    right. exists o, cx, (tick w0). repeat split; assumption.
Qed.

Ltac run_adapter :=
  unfold bind, try_catch, Date_now, call_provider, fire_and_forget, throw, ret;
  world_simpl.

Lemma invoke_tracked c cx fuel w :
  tracked_at_most_once w (snd (invoke_and_read c cx fuel w)) (tag_of c cx).
Proof.
  unfold invoke_and_read.
  destruct c as [params|params|modelName params rest|modelName params rest];
    cbn [invoke tag_of].
  - (* OpenAI *)
    destruct (truthy (field params "stream")) eqn:Hs;
      destruct (env_provider w "chat.completions.create"
                  [VObj (openai_forwarded params)]) as [r|e] eqn:Hp.
    + unfold bind at 1. rewrite (openai_create_streaming _ _ _ _ Hs Hp).
      apply wrapper_tracked; [reflexivity|reflexivity|].
      intros t cx1 w1. eexists. split; [|reflexivity]. reflexivity.
    + left. unfold bind at 1. unfold OpenAI.create.
      rewrite field_delete_ne by discriminate. rewrite Hs.
      unfold openai_forwarded in Hp. rewrite Hs in Hp.
      run_adapter. rewrite Hp. reflexivity.
    + unfold bind at 1. rewrite (openai_create_resolves _ _ _ _ Hs Hp).
      right. do 3 eexists. split; [|split; [|split; [|reflexivity]]]; reflexivity.
    + unfold bind at 1. rewrite (openai_create_rejects _ _ _ _ Hs Hp).
      right. do 3 eexists. split; [|split; [|split; [|reflexivity]]]; reflexivity.
  - (* Anthropic *)
    destruct (truthy (field params "stream")) eqn:Hs;
      destruct (env_provider w "messages.create"
                  [VObj (anthropic_forwarded params)]) as [r|e] eqn:Hp.
    + unfold bind at 1. unfold Anthropic.create.
      rewrite field_delete_ne by discriminate. rewrite Hs.
      unfold anthropic_forwarded in Hp. run_adapter. rewrite Hp.
      apply wrapper_tracked; [reflexivity|reflexivity|].
      intros t cx1 w1. eexists. split; [|reflexivity]. reflexivity.
    + left. unfold bind at 1. unfold Anthropic.create.
      rewrite field_delete_ne by discriminate. rewrite Hs.
      unfold anthropic_forwarded in Hp. run_adapter. rewrite Hp. reflexivity.
    + unfold bind at 1. rewrite (anthropic_create_resolves _ _ _ _ Hs Hp).
      right. do 3 eexists. split; [|split; [|split; [|reflexivity]]]; reflexivity.
    + unfold bind at 1. rewrite (anthropic_create_rejects _ _ _ _ Hs Hp).
      right. do 3 eexists. split; [|split; [|split; [|reflexivity]]]; reflexivity.
  - (* Gemini, generateContent *)
    destruct (env_provider w "generateContent"
                (snd (Gemini.extractFeatureTag params cx) :: rest))
      as [r|e] eqn:Hp.
    + unfold bind at 1 2. rewrite (gemini_generate_resolves _ _ _ _ _ _ Hp).
      right. do 3 eexists. split; [|split; [|split; [|reflexivity]]]; reflexivity.
    + unfold bind at 1 2. rewrite (gemini_generate_rejects _ _ _ _ _ _ Hp).
      right. do 3 eexists. split; [|split; [|split; [|reflexivity]]]; reflexivity.
  - (* Gemini, generateContentStream *)
    destruct (env_provider w "generateContentStream"
                (snd (Gemini.extractFeatureTag params cx) :: rest))
      as [r|e] eqn:Hp.
    + unfold bind at 1 2. unfold Gemini.generateContentStream.
      run_adapter. rewrite Hp.
      apply wrapper_tracked; [reflexivity|reflexivity|].
      intros t cx1 w1. eexists. split; [|reflexivity]. reflexivity.
    + left. unfold bind at 1 2. unfold Gemini.generateContentStream.
      run_adapter. rewrite Hp. reflexivity.
Qed.

Lemma openai_forwarded_strips params :
  strips_only_tag (OpenAI_create params) params (openai_forwarded params).
Proof.
  unfold strips_only_tag, openai_forwarded. cbn [rewrites_stream_options].
  destruct (truthy (field params "stream")).
  - split.
    + rewrite with_include_usage_lookup by discriminate. apply lookup_delete_eq.
    + intros k Hk Hso. rewrite with_include_usage_lookup by (apply Hso; reflexivity).
      apply lookup_delete_ne. congruence.
  - split; [apply lookup_delete_eq|].
    intros k Hk _. apply lookup_delete_ne. congruence.
Qed.

Lemma delete_strips c params :
  strips_only_tag c params (delete "feature_tag" params).
Proof.
  split; [apply lookup_delete_eq|].
  intros k Hk _. apply lookup_delete_ne. congruence.
Qed.

Lemma gemini_extract_tagged params cx s :
  s <> EmptyString -> params !! "feature_tag" = Some (VStr s) ->
  Gemini.extractFeatureTag (VObj params) cx =
  (VStr s, VObj (delete "feature_tag" params)).
Proof.
  intros Hs Hp. unfold Gemini.extractFeatureTag.
  cbn [truthy typeof_object isArray negb andb prop spread].
  rewrite (field_lookup _ _ _ Hp). cbn [truthy].
  apply String.eqb_neq in Hs. rewrite Hs. reflexivity.
Qed.

Lemma gemini_extract_untagged params cx :
  params !! "feature_tag" = None ->
  Gemini.extractFeatureTag (VObj params) cx = (ctx_tag cx ?? VStr "unknown", VObj params).
Proof.
  intros Hp. unfold Gemini.extractFeatureTag.
  cbn [truthy typeof_object isArray negb andb prop].
  rewrite (field_absent _ _ Hp). reflexivity.
Qed.

(** A prompt that is no parameter object (a string, an array of parts)
    goes through as it is. *)
Lemma gemini_extract_not_object params cx :
  (forall o, params <> VObj o) ->
  Gemini.extractFeatureTag params cx = (ctx_tag cx ?? VStr "unknown", params).
Proof.
  intros H. unfold Gemini.extractFeatureTag.
  destruct params as [| |b|n|s|o|l];
    try (exfalso; exact (H _ eq_refl));
    cbn [truthy typeof_object isArray negb andb prop];
    rewrite ?andb_false_r; reflexivity.
Qed.

Lemma tag_of_tagged c cx s : tagged c s -> tag_of c cx = VStr s.
Proof.
  intros (Hs & p & Hc & Hp).
  destruct c as [params|params|modelName params rest|modelName params rest];
    cbn [tag_of params_of] in *;
    try (injection Hc as ->; unfold resolved_tag;
         rewrite (field_lookup _ _ _ Hp); reflexivity);
    subst params; rewrite (gemini_extract_tagged _ _ _ Hs Hp); reflexivity.
Qed.

Lemma tag_of_untagged c cx : untagged c -> tag_of c cx = ctx_tag cx ?? VStr "unknown".
Proof.
  intros [(p & Hc & Hp)|Hn];
    destruct c as [params|params|modelName params rest|modelName params rest];
    cbn [tag_of params_of] in *;
    try (injection Hc as ->; unfold resolved_tag;
         rewrite (field_absent _ _ Hp); reflexivity);
    try (subst params; rewrite (gemini_extract_untagged _ _ Hp); reflexivity);
    try (exfalso; exact (Hn _ eq_refl));
    rewrite (gemini_extract_not_object _ _ Hn); reflexivity.
Qed.

Lemma forwarded_stripped c cx s :
  tagged c s \/ untagged c -> forwards_stripped c (forwarded_args c cx).
Proof.
  intros H. unfold forwards_stripped.
  destruct c as [params|params|modelName params rest|modelName params rest];
    cbn [forwarded_args params_of rest_of].
  - exists (openai_forwarded params). split; [reflexivity|].
    apply openai_forwarded_strips.
  - exists (anthropic_forwarded params). split; [reflexivity|].
    apply delete_strips.
  - destruct params as [| |b|n|s'|p|l];
      try (rewrite gemini_extract_not_object by discriminate; reflexivity).
    destruct H as [(Hs & p' & Hc & Hp)|[(p' & Hc & Hp)|Hn]];
      cbn [params_of] in *; try injection Hc as <-.
    + rewrite (gemini_extract_tagged _ _ _ Hs Hp).
      exists (delete "feature_tag" p). split; [reflexivity|]. apply delete_strips.
    + rewrite (gemini_extract_untagged _ _ Hp).
      exists p. split; [reflexivity|].
      split; [exact Hp|reflexivity].
    + exfalso. exact (Hn _ eq_refl).
  - destruct params as [| |b|n|s'|p|l];
      try (rewrite gemini_extract_not_object by discriminate; reflexivity).
    destruct H as [(Hs & p' & Hc & Hp)|[(p' & Hc & Hp)|Hn]];
      cbn [params_of] in *; try injection Hc as <-.
    + rewrite (gemini_extract_tagged _ _ _ Hs Hp).
      exists (delete "feature_tag" p). split; [reflexivity|]. apply delete_strips.
    + rewrite (gemini_extract_untagged _ _ Hp).
      exists p. split; [reflexivity|].
      split; [exact Hp|reflexivity].
    + exfalso. exact (Hn _ eq_refl).
Qed.

Lemma tag_of_defined c cx : nullish (tag_of c cx) = false.
Proof.
  destruct c as [params|params|modelName params rest|modelName params rest];
    cbn [tag_of];
    try (unfold resolved_tag; apply nullish_coalesce, nullish_coalesce; reflexivity);
    unfold Gemini.extractFeatureTag;
    (destruct (_ && _) eqn:E; cbn [fst];
     [ apply andb_prop in E; destruct E as [_ E];
       destruct (prop params "feature_tag"); try discriminate; reflexivity
     | apply nullish_coalesce; reflexivity ]).
Qed.

(** C2 (as amended): a call of a tracked operation that carries a
    non-empty string [feature_tag] hands the real client its
    parameters without [feature_tag] and otherwise unchanged (an OpenAI
    streaming call differs in [stream_options] too), and every
    telemetry event the call posts, at once or when its stream is
    read, carries that tag, whatever the ambient tag is.  A call
    without [feature_tag] forwards its parameters likewise, and its
    events carry the ambient tag if there is one, ["unknown"]
    otherwise. *)
Theorem feature_tag_stripped_and_reported :
  forall (c : call) (cx : ctx) (w : world) (fuel : nat),
    let sent := telemetry_events (config w)
                  (sent_since w (snd (invoke_and_read c cx fuel w))) in
    (forall s : string,
        tagged c s ->
        (exists args,
            calls (snd (invoke c cx w)) = calls w ++ [(method_of c, args)] /\
            forwards_stripped c args) /\
        (forall body, In body sent -> prop body "feature_tag" = VStr s)) /\
    (untagged c ->
     (exists args,
         calls (snd (invoke c cx w)) = calls w ++ [(method_of c, args)] /\
         forwards_stripped c args) /\
     (forall (y : string) body,
         ctx_tag cx = VStr y -> In body sent -> prop body "feature_tag" = VStr y) /\
     (forall body,
         nullish (ctx_tag cx) = true -> In body sent ->
         prop body "feature_tag" = VStr "unknown")).
Proof.
  intros c cx w fuel sent. split.
  - intros s Ht. split.
    + exists (forwarded_args c cx). split; [apply invoke_calls|].
      apply (forwarded_stripped c cx s). left. exact Ht.
    + intros body Hin.
      rewrite (tracked_events_tagged _ _ _ _ (tag_of_defined c cx)
                 (invoke_tracked c cx fuel w) Hin).
      rewrite (tag_of_tagged _ _ _ Ht). reflexivity.
  - intros Hu. split; [|split].
    + exists (forwarded_args c cx). split; [apply invoke_calls|].
      apply (forwarded_stripped c cx EmptyString). right. exact Hu.
    + intros y body Hy Hin.
      rewrite (tracked_events_tagged _ _ _ _ (tag_of_defined c cx)
                 (invoke_tracked c cx fuel w) Hin).
      rewrite (tag_of_untagged _ _ Hu), Hy. reflexivity.
    + intros body Hy Hin.
      rewrite (tracked_events_tagged _ _ _ _ (tag_of_defined c cx)
                 (invoke_tracked c cx fuel w) Hin).
      rewrite (tag_of_untagged _ _ Hu). unfold coalesce. rewrite Hy. reflexivity.
Qed.

(** ** The config store *)

Lemma init_config options w : config (snd (init options w)) = options ∪ config w.
Proof. reflexivity. Qed.

Lemma supplied_cons k (o : obj) l :
  supplied k (o :: l) =
  match o !! k with
  | Some v => v :: supplied k l
  | None => supplied k l
  end.
Proof. reflexivity. Qed.

Lemma after_inits_cons o l w : after_inits (o :: l) w = after_inits l (snd (init o w)).
Proof. reflexivity. Qed.

Lemma after_inits_lookup l w k :
  config (after_inits l w) !! k =
  match last (supplied k l) with
  | Some v => Some v
  | None => config w !! k
  end.
Proof.
  revert w. induction l as [|o l IH]; intros w; [reflexivity|].
  rewrite after_inits_cons, IH, init_config, supplied_cons.
  destruct (o !! k) as [v|] eqn:E.
  - rewrite last_cons. destruct (last _); [reflexivity|].
    apply lookup_union_Some_l. exact E.
  - destruct (last _); [reflexivity|]. apply lookup_union_r. exact E.
Qed.

Lemma after_inits_spread l w :
  config (after_inits l w) = fold_left object_spread l (config w).
Proof.
  revert w. induction l as [|o l IH]; intros w; [reflexivity|].
  unfold after_inits in *. cbn [fold_left]. rewrite IH. reflexivity.
Qed.

(** C9: after any sequence of [init] calls on the initial config, the
    config is the defaults overridden, left to right, by what each call
    supplied: a field holds the value of the last call that supplied
    it, and its default (environment "production", host
    "https://api.agentracer.dev", debug false, enabled true) when no
    call did; [getConfig] returns exactly that. *)
Theorem init_overrides_left_to_right :
  forall (l : list obj) (w : world),
    config w = default_config ->
    let c := config (after_inits l w) in
    c = fold_left (fun acc options => options ∪ acc) l default_config /\
    (forall k : string,
        c !! k = match last (supplied k l) with
                 | Some v => Some v
                 | None => default_config !! k
                 end) /\
    fst (getConfig (after_inits l w)) = Ok c /\
    default_config !! "environment" = Some (VStr "production") /\
    default_config !! "host" = Some (VStr "https://api.agentracer.dev") /\
    default_config !! "debug" = Some (VBool false) /\
    default_config !! "enabled" = Some (VBool true).
Proof.
  intros l w Hw c. subst c. split; [|split; [|split]].
  - rewrite after_inits_spread, Hw. reflexivity.
  - intros k. rewrite after_inits_lookup, Hw. reflexivity.
  - reflexivity.
  - repeat split; reflexivity.
Qed.

(** ** The payload of [track] *)

Lemma coalesce_defined a b : nullish b = false -> a ?? b <> VUndefined.
Proof. unfold coalesce. destruct a, b; cbn; congruence. Qed.

(** C10: the body [track] posts has no [error_type], [end_user_id],
    [run_id] or [step_index] property when no error type and no end
    user were supplied and no run and step were resolved (none
    supplied, no active run); it always has [cached_tokens] and
    [success], which are 0 and [true] when not supplied. *)
Theorem track_omits_absent_fields :
  forall (o : TrackOptions) (cx : ctx) (w : world) (body : value),
    In body (telemetry_events (config w) (sent_since w (snd (track o cx w)))) ->
    exists b : obj,
      body = VObj b /\
      (nullish (opt_errorType o) = true -> b !! "error_type" = None) /\
      (nullish (opt_endUserId o) = true -> b !! "end_user_id" = None) /\
      (ctx_run cx = None -> nullish (opt_runId o) = true -> b !! "run_id" = None) /\
      (ctx_run cx = None -> nullish (opt_stepIndex o) = true ->
       b !! "step_index" = None) /\
      b !! "cached_tokens" = Some (json (opt_cachedTokens o ?? VNum 0)) /\
      b !! "success" = Some (json (opt_success o ?? VBool true)) /\
      (nullish (opt_cachedTokens o) = true -> b !! "cached_tokens" = Some (VNum 0)) /\
      (nullish (opt_success o) = true -> b !! "success" = Some (VBool true)).
Proof.
  intros o cx w body Hin. rewrite track_events in Hin.
  destruct (enabled w); [|destruct Hin]. destruct Hin as [<-|[]].
  unfold track_payload, resolved_run.
  set (rid := fst _). set (st := snd _).
  assert (Hrid : ctx_run cx = None -> rid = opt_runId o)
    by (intros E; subst rid; rewrite E; reflexivity).
  assert (Hst : ctx_run cx = None -> st = opt_stepIndex o)
    by (intros E; subst st; rewrite E; reflexivity).
  eexists. split; [unfold json; fold json; reflexivity|].
  rewrite !lookup_omap.
  rewrite ingest_payload_error_type, ingest_payload_end_user_id,
    ingest_payload_run_id, ingest_payload_step_index,
    ingest_payload_cached, ingest_payload_success.
  cbn [option_bind mbind].
  assert (Hc : forall a b, nullish b = false ->
             match a ?? b with VUndefined => None | _ => Some (json (a ?? b)) end
             = Some (json (a ?? b))).
  { intros a b Hb. pose proof (coalesce_defined a b Hb).
    destruct (a ?? b); congruence. }
  rewrite !Hc by reflexivity.
  repeat split.
  - intros ->. reflexivity.
  - intros ->. reflexivity.
  - intros E N. rewrite (Hrid E), N. reflexivity.
  - intros E N. rewrite (Hst E), N. reflexivity.
  - intros N. unfold coalesce. rewrite N. reflexivity.
  - intros N. unfold coalesce. rewrite N. reflexivity.
Qed.

(** ** Runs *)

(** [execute], unfolded: the start signal, the body in its scopes, the
    end signal that fits how the body settled, and the body's own
    result or failure. *)
Lemma execute_eq {T} this (fn : ctx -> M T) cx w :
  let r := deref (runs w) this in
  let w1 := snd (sendRunApi "/api/runs/start"
                   (VObj (run_start_payload (config w) r)) w) in
  let res := fn (Ctx (featureTag r) (Some this)) w1 in
  let w2 := snd res in
  execute this fn cx w =
  match fst res with
  | Ok v =>
      (Ok v,
       snd (sendRunApi "/api/runs/end"
              (VObj (run_end_completed (config w2) (deref (runs w2) this))) w2))
  | Throw e =>
      (Throw e,
       snd (sendRunApi "/api/runs/end"
              (VObj (run_end_failed (config w2) (deref (runs w2) this) e)) w2))
  end.
Proof.
  cbv zeta. unfold execute.
  unfold bind, try_catch, get_config, get_runs, fire_and_forget, throw, ret,
    runStorage_run, featureTagStorage_run.
  cbn [fst snd ctx_tag ctx_run].
  rewrite !sendRunApi_eq. cbn [fst snd].
  assert (Hr : runs (if enabled w
                     then push_request
                            (run_request (config w) "/api/runs/start"
                               (VObj (run_start_payload (config w)
                                        (deref (runs w) this)))) w
                     else w) = runs w) by (destruct (enabled w); reflexivity).
  rewrite Hr.
  destruct (fn _ _) as [[v|e] w2]; cbn [fst snd]; rewrite !sendRunApi_eq; reflexivity.
Qed.

(** The two nestings of the scopes give the body the same context. *)
Lemma scopes_commute {A} this tag (fn : ctx -> A) cx :
  runStorage_run this (featureTagStorage_run tag fn) cx =
  featureTagStorage_run tag (runStorage_run this fn) cx.
Proof. reflexivity. Qed.

Lemma sendRunApi_net path payload w :
  net (snd (sendRunApi path payload w)) =
  net w ++ (if enabled w then [run_request (config w) path payload] else []).
Proof.
  rewrite sendRunApi_eq. destruct (enabled w); world_simpl;
    rewrite ?app_nil_r; reflexivity.
Qed.

Lemma run_signals_app c path l1 l2 :
  run_signals c path (l1 ++ l2) = run_signals c path l1 ++ run_signals c path l2.
Proof. unfold run_signals. rewrite List.filter_app, map_app. reflexivity. Qed.

Lemma run_signals_hit c path payload :
  run_signals c path [run_request c path payload] = [json payload].
Proof.
  unfold run_signals, run_request, is_post_to. cbn [List.filter req_url req_method].
  rewrite String.eqb_refl. reflexivity.
Qed.

Lemma run_signals_miss c path path' payload :
  path' <> path ->
  run_signals c path [run_request c path' payload] = [].
Proof.
  intros H. unfold run_signals, run_request, is_post_to.
  cbn [List.filter req_url req_method].
  rewrite append_eqb_prefix. apply String.eqb_neq in H. rewrite H. reflexivity.
Qed.

Lemma run_signals_ingest c path payload :
  path <> "/api/ingest" ->
  run_signals c path [ingest_request c payload] = [].
Proof.
  intros H. unfold run_signals, ingest_request, is_post_to.
  cbn [List.filter req_url req_method].
  rewrite append_eqb_prefix.
  assert (H' : "/api/ingest" <> path) by congruence.
  apply String.eqb_neq in H'. rewrite H'. reflexivity.
Qed.

Lemma deref_insert h l r : deref (<[l := r]> h) l = r.
Proof. unfold deref. rewrite lookup_insert_eq. reflexivity. Qed.

(** What [execute] of [two_calls] posts on a run whose counter stands
    at [n], telemetry being enabled: the start signal; for each call
    its step signal and its telemetry event, numbered [n + 1] and
    [n + 2]; the end signal. *)
Lemma execute_two_calls_net this o1 o2 cx w :
  enabled w = true ->
  nullish (opt_runId o1) = true -> nullish (opt_runId o2) = true ->
  let r := deref (runs w) this in
  let c := config w in
  let cx' := Ctx (featureTag r) (Some this) in
  let n := stepCounter r in
  fst (execute this (two_calls o1 o2) cx w) = Ok tt /\
  net (snd (execute this (two_calls o1 o2) cx w)) =
  net w ++
  [ run_request c "/api/runs/start" (VObj (run_start_payload c r));
    run_request c "/api/runs/step"
      (VObj (step_payload c (runId r) (VNum (n + 1)) o1));
    ingest_request c
      (VObj (ingest_payload c (featureTag r) o1 (runId r) (VNum (n + 1))));
    run_request c "/api/runs/step"
      (VObj (step_payload c (runId r) (VNum (n + 1 + 1)) o2));
    ingest_request c
      (VObj (ingest_payload c (featureTag r) o2 (runId r) (VNum (n + 1 + 1))));
    run_request c "/api/runs/end"
      (VObj (run_end_completed c (stepped (stepped r)))) ].
Proof.
  intros En N1 N2. cbv zeta. rewrite execute_eq. cbv zeta.
  set (r := deref (runs w) this).
  set (w1 := snd (sendRunApi _ _ w)).
  assert (Hw1 : config w1 = config w /\ runs w1 = runs w /\
                net w1 = net w ++ [run_request (config w) "/api/runs/start"
                                     (VObj (run_start_payload (config w) r))]).
  { subst w1. rewrite sendRunApi_eq, En. repeat split. }
  destruct Hw1 as (Hc1 & Hr1 & Hn1).
  unfold two_calls, bind. rewrite (surjective_pairing (track o1 _ w1)), track_ok.
  set (w2 := snd (track o1 _ w1)).
  rewrite (surjective_pairing (track o2 _ w2)), track_ok. cbn [fst snd].
  set (w3 := snd (track o2 _ w2)).
  pose proof (track_frame o1 (Ctx (featureTag r) (Some this)) w1) as F1.
  pose proof (track_net o1 (Ctx (featureTag r) (Some this)) w1) as T1.
  fold w2 in F1, T1. cbv zeta in F1. destruct F1 as (Hc2 & Hr2 & _).
  pose proof (track_frame o2 (Ctx (featureTag r) (Some this)) w2) as F2.
  pose proof (track_net o2 (Ctx (featureTag r) (Some this)) w2) as T2.
  fold w3 in F2, T2. cbv zeta in F2. destruct F2 as (Hc3 & Hr3 & _).
  assert (E1 : enabled w1 = true) by (unfold enabled; rewrite Hc1; exact En).
  assert (E2 : enabled w2 = true) by (unfold enabled; rewrite Hc2, Hc1; exact En).
  assert (E3 : enabled w3 = true) by (unfold enabled; rewrite Hc3, Hc2, Hc1; exact En).
  rewrite E1 in T1. rewrite E2 in T2.
  unfold step_requests, track_payload, resolved_run, runs_after_track in *.
  cbn [ctx_run ctx_tag] in *. rewrite N1 in *. rewrite N2 in *. cbn [fst snd] in *.
  rewrite Hr1 in *. fold r in Hr2, T1. rewrite Hr2 in *.
  rewrite deref_insert in *. cbn [stepped runId stepCounter featureTag] in *.
  rewrite Hc1 in *. rewrite Hc2 in *.
  split; [reflexivity|].
  rewrite sendRunApi_net, E3, Hc3, Hr3, deref_insert, T2, T1, Hn1.
  rewrite <- !app_assoc. reflexivity.
Qed.

Lemma step_payload_run_id c rid st o : step_payload c rid st o !! "run_id" = Some rid.
Proof. payload_lookup. Qed.

Lemma step_payload_step_index c rid st o : step_payload c rid st o !! "step_index" = Some st.
Proof. payload_lookup. Qed.

Lemma new_AgentRun_eq options w :
  let l := fresh (dom (runs w)) in
  let id := field options "runId" ?? VStr (env_uuid w (size (runs w))) in
  new_AgentRun options w =
  (Ok l,
   put_runs (<[l := {| runId := id;
                       runName := field options "runName";
                       featureTag := field options "featureTag" ?? VStr "unknown";
                       endUserId := field options "endUserId";
                       stepCounter := 0 |}]> (runs w)) w).
Proof.
  cbv zeta. unfold new_AgentRun, bind, get_runs, set_runs, randomUUID, ret, coalesce.
  cbn [fst snd]. destruct (nullish (field options "runId")); reflexivity.
Qed.

Lemma two_calls_trace c r o1 o2 n :
  nullish (runId r) = false ->
  run_trace c
    [ run_request c "/api/runs/start" (VObj (run_start_payload c r));
      run_request c "/api/runs/step"
        (VObj (step_payload c (runId r) (VNum (n + 1)) o1));
      ingest_request c
        (VObj (ingest_payload c (featureTag r) o1 (runId r) (VNum (n + 1))));
      run_request c "/api/runs/step"
        (VObj (step_payload c (runId r) (VNum (n + 1 + 1)) o2));
      ingest_request c
        (VObj (ingest_payload c (featureTag r) o2 (runId r) (VNum (n + 1 + 1))));
      run_request c "/api/runs/end"
        (VObj (run_end_completed c (stepped (stepped r)))) ]
    (runId r) (n + 1) (n + 1 + 1).
Proof.
  intros Hid.
  set (a1 := run_request c "/api/runs/start" _).
  set (a2 := run_request c "/api/runs/step" _).
  set (a3 := ingest_request c _).
  set (a4 := run_request c "/api/runs/step" _).
  set (a5 := ingest_request c _).
  set (a6 := run_request c "/api/runs/end" _).
  change [a1; a2; a3; a4; a5; a6]
    with ([a1] ++ [a2] ++ [a3] ++ [a4] ++ [a5] ++ [a6]).
  subst a1 a2 a3 a4 a5 a6.
  split.
  - rewrite !run_signals_app, run_signals_hit, !run_signals_ingest by discriminate.
    rewrite !run_signals_miss by discriminate.
    eexists. split; [reflexivity|].
    rewrite prop_json. apply f_equal, field_lookup.
    unfold run_start_payload. rewrite lookup_insert_ne by discriminate.
    apply lookup_insert_eq.
  - rewrite !run_signals_app, !run_signals_hit, !run_signals_ingest by discriminate.
    rewrite !run_signals_miss by discriminate.
    do 2 eexists. split; [reflexivity|].
    rewrite !prop_json.
    rewrite !(field_lookup _ _ _ (step_payload_run_id _ _ _ _)).
    rewrite !(field_lookup _ _ _ (step_payload_step_index _ _ _ _)).
    repeat split; reflexivity.
  - rewrite !telemetry_events_app, !telemetry_events_ingest.
    rewrite !telemetry_events_run by discriminate.
    do 2 eexists. split; [reflexivity|].
    rewrite !prop_json.
    assert (Hrid : forall tag o st,
               field (ingest_payload c tag o (runId r) st) "run_id" = runId r).
    { intros. apply field_lookup. rewrite ingest_payload_run_id, Hid. reflexivity. }
    assert (Hst : forall tag o rid m,
               field (ingest_payload c tag o rid (VNum m)) "step_index" = VNum m).
    { intros. apply field_lookup. rewrite ingest_payload_step_index. reflexivity. }
    rewrite !Hrid, !Hst. repeat split; reflexivity.
  - rewrite !run_signals_app, !run_signals_hit, !run_signals_ingest by discriminate.
    rewrite !run_signals_miss by discriminate.
    eexists. split; [reflexivity|].
    rewrite !prop_json. unfold run_end_completed. cbn [stepped runId].
    split; apply f_equal || idtac.
    + apply field_lookup. rewrite lookup_insert_ne by discriminate.
      apply lookup_insert_eq.
    + rewrite (field_lookup _ "status" (VStr "completed")); [reflexivity|].
      repeat (rewrite lookup_insert_ne by discriminate). apply lookup_insert_eq.
Qed.

(** C8 (as amended): [execute] runs its body with the run active and
    the run's feature tag ambient (the two scopes nest either way round
    to the same context); when the body returns, [execute] returns its
    value, and when the body fails, [execute] throws the same value.
    Telemetry being enabled, [execute] posts the run-start signal
    before the body, and after it run-end with status "completed", or
    with status "failed" and the class name of the failure.  A new run
    that executes two tracked calls in sequence, neither of them
    supplying a [runId] of its own, posts them as steps 1 and 2: both
    telemetry events and both step signals carry the run's id and
    these indices, and the run ends "completed". *)
Theorem agent_run_execute :
  (forall (T : Type) (this : nat) (fn : ctx -> M T) (cx : ctx) (w : world),
      let r := deref (runs w) this in
      let inside := Ctx (featureTag r) (Some this) in
      let w1 := snd (sendRunApi "/api/runs/start"
                       (VObj (run_start_payload (config w) r)) w) in
      let w2 := snd (fn inside w1) in
      runStorage_run this (featureTagStorage_run (featureTag r) fn) cx = fn inside /\
      featureTagStorage_run (featureTag r) (runStorage_run this fn) cx = fn inside /\
      (enabled w = true ->
       w1 = push_request
              (run_request (config w) "/api/runs/start"
                 (VObj (run_start_payload (config w) r))) w) /\
      (forall v, fst (fn inside w1) = Ok v ->
                 fst (execute this fn cx w) = Ok v /\
                 (enabled w2 = true ->
                  snd (execute this fn cx w) =
                  push_request
                    (run_request (config w2) "/api/runs/end"
                       (VObj (run_end_completed (config w2) (deref (runs w2) this))))
                    w2)) /\
      (forall e, fst (fn inside w1) = Throw e ->
                 fst (execute this fn cx w) = Throw e /\
                 (enabled w2 = true ->
                  snd (execute this fn cx w) =
                  push_request
                    (run_request (config w2) "/api/runs/end"
                       (VObj (run_end_failed (config w2) (deref (runs w2) this) e)))
                    w2) /\
                 run_end_failed (config w2) (deref (runs w2) this) e !! "status"
                   = Some (VStr "failed") /\
                 run_end_failed (config w2) (deref (runs w2) this) e !! "error_type"
                   = Some (error_type_of e))) /\
  (forall (options : obj) (o1 o2 : TrackOptions) (cx : ctx) (w : world),
      enabled w = true ->
      nullish (opt_runId o1) = true -> nullish (opt_runId o2) = true ->
      let id := field options "runId" ?? VStr (env_uuid w (size (runs w))) in
      let r := fresh_run_two_calls options o1 o2 cx w in
      fst r = Ok tt /\
      run_trace (config w) (sent_since w (snd r)) id 1 2).
Proof.
  split.
  - intros T this fn cx w r inside w1 w2.
    split; [reflexivity|]. split; [reflexivity|].
    pose proof (execute_eq this fn cx w) as E. cbv zeta in E.
    fold r in E. fold inside in E. fold w1 in E. fold w2 in E.
    split; [|split].
    + intros En. subst w1. rewrite sendRunApi_eq, En. reflexivity.
    + intros v Hv. rewrite E, Hv. split; [reflexivity|].
      intros En2. cbn [snd]. rewrite sendRunApi_eq, En2. reflexivity.
    + intros e He. rewrite E, He. split; [reflexivity|]. split; [|split].
      * intros En2. cbn [snd]. rewrite sendRunApi_eq, En2. reflexivity.
      * unfold run_end_failed. repeat (rewrite lookup_insert_ne by discriminate).
        apply lookup_insert_eq.
      * unfold run_end_failed. repeat (rewrite lookup_insert_ne by discriminate).
        apply lookup_insert_eq.
  - intros options o1 o2 cx w En N1 N2 id r. subst r.
    unfold fresh_run_two_calls, bind.
    pose proof (new_AgentRun_eq options w) as E. cbv zeta in E. rewrite E. clear E.
    set (l := fresh (dom (runs w))).
    set (new := {| runId := _ |}).
    set (w0 := put_runs _ w).
    destruct (execute_two_calls_net l o1 o2 cx w0 En N1 N2) as (Hok & Hnet).
    split; [exact Hok|].
    rewrite (sent_since_app w _ _ Hnet).
    change (runs w0) with (<[l := new]> (runs w)). rewrite deref_insert.
    change (config w0) with (config w).
    apply (two_calls_trace (config w) new o1 o2 0).
    apply nullish_coalesce. reflexivity.
Qed.

(** ** Gemini streams *)

Lemma gemini_fold chunks t :
  fold_left (fun t x => Gemini.observe_chunk x t) chunks t =
  match last (gemini_usages chunks) with
  | Some u => Tally (prop u "promptTokenCount" ?? VNum 0)
                    (prop u "candidatesTokenCount" ?? VNum 0)
  | None => t
  end.
Proof.
  revert t. induction chunks as [|x rest IH]; intros t; [reflexivity|].
  cbn [fold_left]. rewrite IH. unfold gemini_usages, Gemini.observe_chunk.
  cbn [map List.filter].
  destruct (truthy (field x "usageMetadata")) eqn:E; [|reflexivity].
  rewrite last_cons.
  destruct (last (List.filter truthy
                    (map (fun chunk => field chunk "usageMetadata") rest)));
    reflexivity.
Qed.

Lemma gemini_stream_reports chunks modelName featureTag start :
  read_to_end_reports
    (Gemini.wrapGeminiStream (Stream chunks EndOfStream) modelName featureTag start)
    chunks (gemini_counts chunks).
Proof.
  intros cx w r. subst r.
  unfold Gemini.wrapGeminiStream, start_generator. cbn [iterate fst snd].
  rewrite for_await_drain. cbn [at_end on_item].
  rewrite gemini_fold. fold (gemini_counts chunks).
  unfold Gemini.send_usage, bind at 1. rewrite send_usage_track. cbn [fst snd].
  split; [reflexivity|]. split.
  - intros En.
    destruct (adapter_stream_events (VStr "gemini") modelName featureTag
                (inputTokens (gemini_counts chunks))
                (outputTokens (gemini_counts chunks)) start cx w En)
      as (body & Hb & Hi & Ho & _).
    exists body. repeat split; assumption.
  - intros En. apply (track_net_disabled _ _ (tick w)). exact En.
Qed.

(** ** Streams: the statements *)

Lemma anthropic_create_streaming params cx w r :
  truthy (field params "stream") = true ->
  env_provider w "messages.create" [VObj (anthropic_forwarded params)] = Resolves r ->
  Anthropic.create params cx w =
  (Ok (Wrapped (Anthropic.wrapAnthropicStream r (field params "model")
                  (resolved_tag params cx) (env_clock w (ticks w)))),
   push_call "messages.create" [VObj (anthropic_forwarded params)] (tick w)).
Proof.
  intros Hs Hp. unfold anthropic_forwarded in *.
  unfold Anthropic.create. rewrite field_delete_ne by discriminate. rewrite Hs.
  unfold bind, Date_now, call_provider, ret. world_simpl. rewrite Hp. reflexivity.
Qed.

Lemma legacy_create_streaming params cx w r :
  truthy (field params "stream") = true ->
  env_provider w "messages.create" [VObj (anthropic_forwarded params)] = Resolves r ->
  AnthropicLegacy.create params cx w =
  (Ok (Wrapped (AnthropicLegacy.wrapAnthropicStream r (field params "model")
                  (resolved_tag params cx) (env_clock w (ticks w)))),
   push_call "messages.create" [VObj (anthropic_forwarded params)] (tick w)).
Proof.
  intros Hs Hp. unfold anthropic_forwarded in *.
  unfold AnthropicLegacy.create. rewrite field_delete_ne by discriminate. rewrite Hs.
  unfold bind, Date_now, call_provider, ret. world_simpl. rewrite Hp. reflexivity.
Qed.

(** C6 (as amended): an Anthropic streaming call, in the current and
    in the earlier version of the adapter, resolves to a generator
    that, read to its end, hands on every event unchanged and in
    order; if telemetry is enabled when the stream is exhausted,
    exactly one telemetry event is then posted, whose [input_tokens] is
    the [message.usage.input_tokens] of the last [message_start] event
    and whose [output_tokens] is the [usage.output_tokens] of the last
    [message_delta] event; for the five events of the specification's
    example these are 100 and 40. *)
Theorem anthropic_stream_one_event :
  forall (params : obj) (cx : ctx) (w : world) (events : list obj),
    truthy (field params "stream") = true ->
    env_provider w "messages.create" [VObj (anthropic_forwarded params)]
      = Resolves (Stream events EndOfStream) ->
    (exists g w1,
        Anthropic.create params cx w = (Ok (Wrapped g), w1) /\
        sent_since w w1 = [] /\
        read_to_end_reports g events (anthropic_counts events) /\
        (events = example_events ->
         length events = 5%nat /\
         read_to_end_reports g events (Tally (VNum 100) (VNum 40)))) /\
    (exists g w1,
        AnthropicLegacy.create params cx w = (Ok (Wrapped g), w1) /\
        sent_since w w1 = [] /\
        read_to_end_reports g events (anthropic_counts events) /\
        (events = example_events ->
         length events = 5%nat /\
         read_to_end_reports g events (Tally (VNum 100) (VNum 40)))).
Proof.
  intros params cx w events Hs Hp. split.
  - do 2 eexists. split; [exact (anthropic_create_streaming _ _ _ _ Hs Hp)|].
    split; [apply sent_since_none; reflexivity|].
    split; [apply anthropic_stream_reports|].
    intros ->. split; [reflexivity|]. apply (anthropic_stream_reports example_events).
  - do 2 eexists. split; [exact (legacy_create_streaming _ _ _ _ Hs Hp)|].
    split; [apply sent_since_none; reflexivity|].
    split; [apply legacy_stream_reports|].
    intros ->. split; [reflexivity|]. apply (legacy_stream_reports example_events).
Qed.

Lemma no_usage_counts chunks :
  openai_usages chunks = [] -> openai_counts chunks = Tally (VNum 0) (VNum 0).
Proof. unfold openai_counts. intros ->. reflexivity. Qed.

Lemma no_metadata_counts chunks :
  gemini_usages chunks = [] -> gemini_counts chunks = Tally (VNum 0) (VNum 0).
Proof. unfold gemini_counts. intros ->. reflexivity. Qed.

(** C5 (as amended): a provider stream that ends without ever having
    reported usage, read to its end while telemetry is enabled, still
    gets exactly one telemetry event, with both counts 0; more
    generally each count is the last value reported, and 0 when that
    count was never reported. *)
Theorem stream_without_usage_reported :
  forall (items : list obj) (model featureTag : value) (start : Z),
    (openai_usages items = [] ->
     read_to_end_reports
       (OpenAI.wrapOpenAIStream (Stream items EndOfStream) model featureTag start)
       items (Tally (VNum 0) (VNum 0))) /\
    (gemini_usages items = [] ->
     read_to_end_reports
       (Gemini.wrapGeminiStream (Stream items EndOfStream) model featureTag start)
       items (Tally (VNum 0) (VNum 0))) /\
    read_to_end_reports
      (Anthropic.wrapAnthropicStream (Stream items EndOfStream) model featureTag start)
      items (anthropic_counts items) /\
    read_to_end_reports
      (AnthropicLegacy.wrapAnthropicStream (Stream items EndOfStream) model
         featureTag start)
      items (anthropic_counts items) /\
    (anthropic_starts items = [] -> inputTokens (anthropic_counts items) = VNum 0) /\
    (anthropic_deltas items = [] -> outputTokens (anthropic_counts items) = VNum 0).
Proof.
  intros items model featureTag start.
  split; [|split; [|split; [|split; [|split]]]].
  - intros Hu. rewrite <- (no_usage_counts items Hu). apply openai_stream_reports.
  - intros Hu. rewrite <- (no_metadata_counts items Hu). apply gemini_stream_reports.
  - apply anthropic_stream_reports.
  - apply legacy_stream_reports.
  - unfold anthropic_counts. intros ->. reflexivity.
  - unfold anthropic_counts. intros ->. reflexivity.
Qed.

(** ** The statements at concrete inputs *)

Lemma feature_tag_stripped_and_reported_witness :
  let c := OpenAI_create tagged_params in
  let cx := Ctx (VStr "context-tag") None in
  let w := mock_world test_config (Resolves (Response chat_response))
             (FetchResponse 200) in
  let sent := telemetry_events (config w)
                (sent_since w (snd (invoke_and_read c cx 0 w))) in
  tagged c "explicit-tag" /\
  In (hd VUndefined sent) sent /\
  prop (hd VUndefined sent) "feature_tag" = VStr "explicit-tag" /\
  exists args,
    calls (snd (invoke c cx w)) = calls w ++ [(method_of c, args)] /\
    forwards_stripped c args.
Proof.
  intros c cx w sent.
  assert (Ht : tagged c "explicit-tag").
  { split; [discriminate|]. exists tagged_params. split; reflexivity. }
  assert (Hin : In (hd VUndefined sent) sent) by (left; reflexivity).
  destruct (feature_tag_stripped_and_reported c cx w 0) as [Htag _].
  destruct (Htag "explicit-tag" Ht) as [Hf He].
  split; [exact Ht|]. split; [exact Hin|]. split; [exact (He _ Hin)|exact Hf].
Defined.

(** The claim as stated fails where the adapter rewrites a parameter
    by design: an OpenAI streaming call with a [feature_tag] forwards a
    [stream_options] other than the one the caller passed. *)
Lemma openai_streaming_forwards_changed_params :
  let w := mock_world test_config (Resolves (Stream example_chunks EndOfStream))
             (FetchResponse 200) in
  exists fwd : obj,
    calls (snd (OpenAI.create tagged_streaming_params no_ctx w)) =
      [("chat.completions.create", [VObj fwd])] /\
    fwd !! "feature_tag" = None /\
    tagged_streaming_params !! "stream_options" =
      Some (VObj {[ "some_other" := VBool true ]}) /\
    fwd !! "stream_options" =
      Some (VObj (<["some_other" := VBool true]> {[ "include_usage" := VBool true ]})) /\
    ~ (forall k : string,
          k <> "feature_tag" -> fwd !! k = tagged_streaming_params !! k).
Proof.
  eexists. split; [reflexivity|]. split; [reflexivity|]. split; [reflexivity|].
  split; [reflexivity|].
  intros H. specialize (H "stream_options"). discriminate H. discriminate.
Qed.

(** Gemini tests the tag for truthiness: an empty [feature_tag] stays
    in the forwarded parameters, and the ambient tag is used. *)
Remark gemini_empty_tag_is_forwarded :
  Gemini.extractFeatureTag (VObj {[ "feature_tag" := VStr EmptyString ]}) no_ctx =
  (VStr "unknown", VObj {[ "feature_tag" := VStr EmptyString ]}).
Proof. reflexivity. Qed.

Lemma provider_failure_reported_and_rethrown_witness :
  let w := mock_world test_config (Rejects rate_limited) (FetchResponse 200) in
  fst (OpenAI.create plain_params no_ctx w) = Throw rate_limited /\
  exists body,
    telemetry_events (config w)
      (sent_since w (snd (OpenAI.create plain_params no_ctx w))) = [body] /\
    prop body "success" = VBool false /\
    prop body "input_tokens" = VNum 0 /\
    prop body "output_tokens" = VNum 0 /\
    prop body "error_type" = VStr "RateLimitError".
Proof.
  intros w.
  destruct (provider_failure_reported_and_rethrown w no_ctx rate_limited)
    as (Hopenai & _).
  destruct (Hopenai plain_params eq_refl eq_refl) as (Hthrow & Hsent & _).
  split; [exact Hthrow|].
  destruct (Hsent eq_refl) as (body & Hb & Hs & Hi & Ho & He).
  exists body. repeat split; assumption.
Defined.

(** With [enabled: false] the failure is thrown on, and no telemetry
    event is sent. *)
Lemma provider_failure_disabled_no_event :
  let w := mock_world disabled_config (Rejects rate_limited) (FetchResponse 200) in
  fst (OpenAI.create plain_params no_ctx w) = Throw rate_limited /\
  telemetry_events (config w)
    (sent_since w (snd (OpenAI.create plain_params no_ctx w))) = [] /\
  net (snd (OpenAI.create plain_params no_ctx w)) = [].
Proof. repeat split; vm_compute; reflexivity. Qed.

(** The earlier version of the Anthropic adapter has no [try] around
    the provider call: there a failure is thrown on unreported. *)
Remark legacy_failure_unreported :
  let w := mock_world test_config (Rejects rate_limited) (FetchResponse 200) in
  enabled w = true /\
  fst (AnthropicLegacy.create plain_params no_ctx w) = Throw rate_limited /\
  net (snd (AnthropicLegacy.create plain_params no_ctx w)) = [].
Proof. repeat split; vm_compute; reflexivity. Qed.

Lemma telemetry_never_raises_witness :
  let w := mock_world test_config (Resolves (Response chat_response))
             (FetchResponse 200) in
  fst (sendTelemetry (VObj {[ "model" := VStr "gpt-4" ]}) (with_collector unreachable w))
    = Ok tt /\
  fst (OpenAI.create plain_params no_ctx (with_collector unreachable w))
    = Ok (Passed (Response chat_response)).
Proof.
  intros w. split.
  - apply (proj1 telemetry_never_raises).
  - apply (proj1 (proj2 (proj2 telemetry_never_raises) w no_ctx
                    (Response chat_response) unreachable)); reflexivity.
Defined.

Lemma stream_without_usage_reported_witness :
  let w := mock_world test_config (Resolves (Stream quiet_chunks EndOfStream))
             (FetchResponse 200) in
  let g := OpenAI.wrapOpenAIStream (Stream quiet_chunks EndOfStream) (VStr "gpt-4")
             (VStr "unknown") 1700000000000 in
  fst (for_await 3 g no_ctx [] w) = Ok (Some quiet_chunks) /\
  exists body,
    telemetry_events (config w) (sent_since w (snd (for_await 3 g no_ctx [] w)))
      = [body] /\
    prop body "input_tokens" = VNum 0 /\
    prop body "output_tokens" = VNum 0.
Proof.
  intros w g.
  destruct (proj1 (stream_without_usage_reported quiet_chunks (VStr "gpt-4")
                     (VStr "unknown") 1700000000000) eq_refl no_ctx w)
    as (Hy & Hsent & _).
  split; [exact Hy|exact (Hsent eq_refl)].
Defined.

(** Nothing is sent when the consumer stops reading before the end of
    the stream, nor when telemetry is disabled. *)
Lemma abandoned_stream_no_event :
  let g := OpenAI.wrapOpenAIStream (Stream quiet_chunks EndOfStream) (VStr "gpt-4")
             (VStr "unknown") 1700000000000 in
  let w := mock_world test_config (Resolves (Stream quiet_chunks EndOfStream))
             (FetchResponse 200) in
  let w' := mock_world disabled_config (Resolves (Stream quiet_chunks EndOfStream))
              (FetchResponse 200) in
  enabled w = true /\
  fst (take_then_break 1 g no_ctx [] w) =
    Ok (take 1 quiet_chunks, Generator (gen_code g) Finished) /\
  net (snd (take_then_break 1 g no_ctx [] w)) = [] /\
  fst (for_await 3 g no_ctx [] w') = Ok (Some quiet_chunks) /\
  net (snd (for_await 3 g no_ctx [] w')) = [].
Proof. repeat split. Qed.

Lemma anthropic_stream_one_event_witness :
  let w := mock_world test_config (Resolves (Stream example_events EndOfStream))
             (FetchResponse 200) in
  exists g w1,
    AnthropicLegacy.create anthropic_streaming_params no_ctx w = (Ok (Wrapped g), w1) /\
    fst (for_await 6 g no_ctx [] w1) = Ok (Some example_events) /\
    length example_events = 5%nat /\
    exists body,
      telemetry_events (config w1)
        (sent_since w1 (snd (for_await 6 g no_ctx [] w1))) = [body] /\
      prop body "input_tokens" = VNum 100 /\
      prop body "output_tokens" = VNum 40.
Proof.
  intros w.
  destruct (anthropic_stream_one_event anthropic_streaming_params no_ctx w
              example_events eq_refl eq_refl)
    as (_ & g & w1 & Hc & _ & _ & Hex).
  exists g, w1. split; [exact Hc|].
  assert (Hw1 : enabled w1 = true).
  { assert (E : snd (AnthropicLegacy.create anthropic_streaming_params no_ctx w) = w1)
      by (rewrite Hc; reflexivity).
    rewrite <- E. reflexivity. }
  destruct (Hex eq_refl) as (Hlen & Hrep).
  destruct (Hrep no_ctx w1) as (Hy & Hsent & _).
  destruct (Hsent Hw1) as (body & Hb & Hi & Ho).
  split; [exact Hy|]. split; [exact Hlen|]. exists body. repeat split; assumption.
Defined.

(** With [enabled: false] the five events are handed on and no
    telemetry event is posted. *)
Lemma anthropic_stream_disabled_no_event :
  let w := mock_world disabled_config (Resolves (Stream example_events EndOfStream))
             (FetchResponse 200) in
  exists g w1,
    AnthropicLegacy.create anthropic_streaming_params no_ctx w = (Ok (Wrapped g), w1) /\
    fst (for_await 6 g no_ctx [] w1) = Ok (Some example_events) /\
    telemetry_events (config w1)
      (sent_since w1 (snd (for_await 6 g no_ctx [] w1))) = [] /\
    net (snd (for_await 6 g no_ctx [] w1)) = [].
Proof.
  do 2 eexists. split; [reflexivity|]. split; [reflexivity|].
  split; vm_compute; reflexivity.
Qed.

Lemma openai_stream_options_injected_witness :
  let w := mock_world test_config (Resolves (Stream example_chunks EndOfStream))
             (FetchResponse 200) in
  exists fwd : obj,
    calls (snd (OpenAI.create streaming_params_with_options no_ctx w)) =
      calls w ++ [("chat.completions.create", [VObj fwd])] /\
    prop (field fwd "stream_options") "include_usage" = VBool true /\
    (forall (so : obj) (k : string),
        streaming_params_with_options !! "stream_options" = Some (VObj so) ->
        k <> "include_usage" ->
        prop (field fwd "stream_options") k = field so k) /\
    (streaming_params_with_options !! "stream_options" = None ->
     field fwd "stream_options" = VObj {[ "include_usage" := VBool true ]}) /\
    (forall k : string,
        k <> "stream_options" -> k <> "feature_tag" ->
        fwd !! k = streaming_params_with_options !! k).
Proof.
  intros w.
  apply (openai_stream_options_injected streaming_params_with_options no_ctx w).
  reflexivity.
Defined.

Lemma agent_run_execute_witness :
  let w := mock_world test_config (Resolves (Response chat_response))
             (FetchResponse 200) in
  let r := fresh_run_two_calls run_options manual_options manual_options no_ctx w in
  fst r = Ok tt /\
  run_trace (config w) (sent_since w (snd r)) (VStr (env_uuid w 0)) 1 2.
Proof.
  intros w r.
  apply (proj2 agent_run_execute run_options manual_options manual_options no_ctx w);
    reflexivity.
Defined.

(** Three runs of two tracked calls that do not post steps 1 and 2 of
    the run.  With [enabled: false] the run executes and no signal
    leaves the process: no run-start, no step, no run-end.  With
    telemetry enabled, a call that names a run of its own takes no
    step: its event carries that [run_id] and no [step_index], only
    the other call sends a step signal, and that one is step 1.  And a
    run that is executed a second time goes on counting: the calls of
    the second [execute] are steps 3 and 4. *)
Lemma agent_run_steps_need_conditions :
  let w := mock_world test_config (Resolves (Response chat_response))
             (FetchResponse 200) in
  let off := mock_world disabled_config (Resolves (Response chat_response))
               (FetchResponse 200) in
  let disabled :=
    fresh_run_two_calls run_options manual_options manual_options no_ctx off in
  let named :=
    fresh_run_two_calls run_options own_run_options manual_options no_ctx w in
  let twice :=
    fresh_run_executed_twice run_options manual_options manual_options no_ctx w in
  (fst disabled = Ok tt /\
   run_signals (config off) "/api/runs/start" (sent_since off (snd disabled)) = [] /\
   run_signals (config off) "/api/runs/end" (sent_since off (snd disabled)) = [] /\
   net (snd disabled) = []) /\
  (fst named = Ok tt /\
   map step_of (telemetry_events (config w) (sent_since w (snd named))) =
     [ (VStr "mine", VUndefined); (VStr (env_uuid w 0), VNum 1) ] /\
   map step_of (run_signals (config w) "/api/runs/step" (sent_since w (snd named))) =
     [ (VStr (env_uuid w 0), VNum 1) ]) /\
  (fst twice = Ok tt /\
   map step_of (telemetry_events (config w) (sent_since w (snd twice))) =
     [ (VStr (env_uuid w 0), VNum 1); (VStr (env_uuid w 0), VNum 2);
       (VStr (env_uuid w 0), VNum 3); (VStr (env_uuid w 0), VNum 4) ] /\
   map step_of (run_signals (config w) "/api/runs/step" (sent_since w (snd twice))) =
     [ (VStr (env_uuid w 0), VNum 1); (VStr (env_uuid w 0), VNum 2);
       (VStr (env_uuid w 0), VNum 3); (VStr (env_uuid w 0), VNum 4) ]).
Proof. repeat split; vm_compute; reflexivity. Qed.

Lemma init_overrides_left_to_right_witness :
  let w := mock_world default_config (Resolves (Response chat_response))
             (FetchResponse 200) in
  let c := config (after_inits [test_options; staging_options] w) in
  c = fold_left (fun acc options => options ∪ acc)
        [test_options; staging_options] default_config /\
  (forall k : string,
      c !! k = match last (supplied k [test_options; staging_options]) with
               | Some v => Some v
               | None => default_config !! k
               end) /\
  fst (getConfig (after_inits [test_options; staging_options] w)) = Ok c /\
  default_config !! "environment" = Some (VStr "production") /\
  default_config !! "host" = Some (VStr "https://api.agentracer.dev") /\
  default_config !! "debug" = Some (VBool false) /\
  default_config !! "enabled" = Some (VBool true).
Proof.
  intros w.
  apply (init_overrides_left_to_right [test_options; staging_options] w).
  reflexivity.
Defined.

Lemma track_omits_absent_fields_witness :
  let w := mock_world test_config (Resolves (Response chat_response))
             (FetchResponse 200) in
  let sent := telemetry_events (config w)
                (sent_since w (snd (track manual_options no_ctx w))) in
  In (hd VUndefined sent) sent /\
  exists b : obj,
    hd VUndefined sent = VObj b /\
    b !! "error_type" = None /\ b !! "end_user_id" = None /\
    b !! "run_id" = None /\ b !! "step_index" = None /\
    b !! "cached_tokens" = Some (VNum 0) /\ b !! "success" = Some (VBool true).
Proof.
  intros w sent.
  assert (Hin : In (hd VUndefined sent) sent) by (left; reflexivity).
  split; [exact Hin|].
  destruct (track_omits_absent_fields manual_options no_ctx w _ Hin)
    as (b & Hb & He & Hu & Hr & Hs & _ & _ & Hc & Hok).
  exists b. split; [exact Hb|].
  split; [apply He; reflexivity|]. split; [apply Hu; reflexivity|].
  split; [apply Hr; reflexivity|]. split; [apply Hs; reflexivity|].
  split; [apply Hc; reflexivity|apply Hok; reflexivity].
Defined.

(** ** More on [track] *)

Lemma track_collector o cx f w :
  track o cx (with_collector f w) = (Ok tt, with_collector f (snd (track o cx w))).
Proof.
  rewrite !track_cases. cbn [snd]. f_equal.
  unfold step_requests, runs_after_track, track_payload, resolved_run, enabled, debugging.
  destruct w as [c h n co ca ti ef ec eu ep]. cbn [config runs with_collector].
  destruct (truthy (field c "enabled")), (truthy (field c "debug")),
    (ctx_run cx), (nullish (opt_runId o)); reflexivity.
Qed.

Lemma track_console o cx w :
  console (snd (track o cx w)) =
  console w ++
  (if enabled w && debugging w then [VObj (track_payload o cx w)] else []).
Proof.
  rewrite track_cases. unfold step_requests.
  destruct (enabled w), (debugging w), (ctx_run cx), (nullish (opt_runId o));
    world_simpl; rewrite ?app_nil_r; reflexivity.
Qed.

Lemma ingest_payload_project_id c tag o rid st :
  ingest_payload c tag o rid st !! "project_id" = Some (field c "projectId").
Proof. payload_lookup. Qed.

Lemma step_payload_project_id c rid st o :
  step_payload c rid st o !! "project_id" = Some (field c "projectId").
Proof. payload_lookup. Qed.

Lemma track_sent o cx w :
  sent_since w (snd (track o cx w)) =
  if enabled w
  then step_requests o cx w ++ [ingest_request (config w) (VObj (track_payload o cx w))]
  else [].
Proof. apply sent_since_app, track_net. Qed.

(** The requests of one [track] call: its event, and inside a run its
    step signal. *)
Lemma track_request_cases o cx w r :
  In r (sent_since w (snd (track o cx w))) ->
  r = ingest_request (config w) (VObj (track_payload o cx w)) \/
  exists rid st,
    r = run_request (config w) "/api/runs/step"
          (VObj (step_payload (config w) rid st o)).
Proof.
  intros Hin. rewrite track_sent in Hin.
  destruct (enabled w); [|destruct Hin].
  apply in_app_or in Hin. destruct Hin as [Hin|[<-|[]]]; [|left; reflexivity].
  unfold step_requests in Hin.
  destruct (ctx_run cx); [|destruct Hin].
  destruct (nullish (opt_runId o)); [|destruct Hin].
  destruct Hin as [<-|[]]. right. do 2 eexists. reflexivity.
Qed.

Lemma api_headers_key c : api_headers c !! "x-api-key" = Some (field c "trackerApiKey").
Proof. unfold api_headers. rewrite lookup_insert_ne by discriminate. apply lookup_insert_eq. Qed.

Lemma api_headers_type c : api_headers c !! "Content-Type" = Some (VStr "application/json").
Proof. apply lookup_insert_eq. Qed.

Lemma api_headers_dom c : dom (api_headers c) = {[ "x-api-key"; "Content-Type" ]}.
Proof. unfold api_headers. rewrite !dom_insert_L, dom_empty_L. set_solver. Qed.

Lemma track_request_shape o cx w r :
  In r (sent_since w (snd (track o cx w))) ->
  req_method r = "POST" /\
  req_timeout r = 2000 /\
  req_headers r = api_headers (config w) /\
  (req_url r = to_string (field (config w) "host") +:+ "/api/ingest" \/
   req_url r = to_string (field (config w) "host") +:+ "/api/runs/step") /\
  prop (req_body r) "project_id" = json (field (config w) "projectId").
Proof.
  intros Hin. destruct (track_request_cases o cx w r Hin) as [->|(rid & st & ->)].
  - cbn [ingest_request req_method req_timeout req_headers req_url req_body].
    repeat split; try reflexivity; [left; reflexivity|].
    unfold track_payload.
    rewrite prop_json, (field_lookup _ _ _ (ingest_payload_project_id _ _ _ _ _)).
    reflexivity.
  - cbn [run_request req_method req_timeout req_headers req_url req_body].
    repeat split; try reflexivity; [right; reflexivity|].
    rewrite prop_json, (field_lookup _ _ _ (step_payload_project_id _ _ _ _)).
    reflexivity.
Qed.

(** X1: every request a [track] call issues is a POST with a two second
    timeout, whose headers are exactly [Content-Type: application/json]
    and [x-api-key], the configured tracker key; it goes to the
    configured host, path [/api/ingest] or [/api/runs/step]; and its
    body is an object carrying the configured project id. *)
Theorem track_requests_wellformed :
  forall (o : TrackOptions) (cx : ctx) (w : world) (r : request),
    In r (sent_since w (snd (track o cx w))) ->
    req_method r = "POST" /\
    req_timeout r = 2000 /\
    req_headers r = api_headers (config w) /\
    req_headers r !! "x-api-key" = Some (field (config w) "trackerApiKey") /\
    req_headers r !! "Content-Type" = Some (VStr "application/json") /\
    dom (req_headers r) = {[ "x-api-key"; "Content-Type" ]} /\
    (req_url r = to_string (field (config w) "host") +:+ "/api/ingest" \/
     req_url r = to_string (field (config w) "host") +:+ "/api/runs/step") /\
    prop (req_body r) "project_id" = json (field (config w) "projectId").
Proof.
  intros o cx w r Hin.
  destruct (track_request_shape o cx w r Hin) as (Hm & Ht & Hh & Hu & Hp).
  split; [exact Hm|]. split; [exact Ht|]. split; [exact Hh|].
  rewrite Hh. split; [apply api_headers_key|]. split; [apply api_headers_type|].
  split; [apply api_headers_dom|]. split; [exact Hu|exact Hp].
Qed.

Lemma track_requests_wellformed_witness :
  let w := mock_world test_config (Resolves (Response chat_response))
             (FetchResponse 200) in
  let sent := sent_since w (snd (track manual_options no_ctx w)) in
  let r := hd (Request EmptyString EmptyString ∅ VUndefined 0) sent in
  In r sent /\
  req_url r = "https://api.agentracer.dev/api/ingest" /\
  req_method r = "POST" /\
  req_headers r !! "x-api-key" = Some (VStr "key") /\
  prop (req_body r) "project_id" = VStr "proj-1".
Proof.
  intros w sent r.
  assert (Hin : In r sent) by (left; reflexivity).
  destruct (track_requests_wellformed manual_options no_ctx w r Hin)
    as (Hm & _ & _ & Hk & _ & _ & _ & Hp).
  split; [exact Hin|]. split; [reflexivity|]. split; [exact Hm|].
  split; [exact Hk|exact Hp].
Defined.

Lemma prop_when_present (p : obj) k v :
  p !! k = (if nullish v then None else Some v) ->
  prop (json (VObj p)) k = when_present v.
Proof.
  intros H. rewrite prop_json. unfold when_present, field. rewrite H.
  destruct (nullish v); reflexivity.
Qed.

Lemma event_run_id c tag o rid st :
  prop (json (VObj (ingest_payload c tag o rid st))) "run_id" = when_present rid.
Proof. apply prop_when_present, ingest_payload_run_id. Qed.

Lemma event_step_index c tag o rid st :
  prop (json (VObj (ingest_payload c tag o rid st))) "step_index" = when_present st.
Proof. apply prop_when_present, ingest_payload_step_index. Qed.

Lemma when_present_defined v : nullish v = false -> when_present v = json v.
Proof. unfold when_present. intros ->. reflexivity. Qed.

Lemma telemetry_events_cons_run c path payload l :
  path <> "/api/ingest" ->
  telemetry_events c (run_request c path payload :: l) = telemetry_events c l.
Proof.
  intros H. change (run_request c path payload :: l)
    with ([run_request c path payload] ++ l).
  rewrite telemetry_events_app, telemetry_events_run by exact H. reflexivity.
Qed.

Lemma telemetry_events_cons_ingest c payload l :
  telemetry_events c (ingest_request c payload :: l) = json payload :: telemetry_events c l.
Proof.
  change (ingest_request c payload :: l) with ([ingest_request c payload] ++ l).
  rewrite telemetry_events_app, telemetry_events_ingest. reflexivity.
Qed.

Lemma run_signals_cons_hit c path payload l :
  run_signals c path (run_request c path payload :: l) = json payload :: run_signals c path l.
Proof.
  change (run_request c path payload :: l) with ([run_request c path payload] ++ l).
  rewrite run_signals_app, run_signals_hit. reflexivity.
Qed.

Lemma run_signals_cons_miss c path path' payload l :
  path' <> path ->
  run_signals c path (run_request c path' payload :: l) = run_signals c path l.
Proof.
  intros H. change (run_request c path' payload :: l)
    with ([run_request c path' payload] ++ l).
  rewrite run_signals_app, run_signals_miss by exact H. reflexivity.
Qed.

Lemma run_signals_cons_ingest c path payload l :
  path <> "/api/ingest" ->
  run_signals c path (ingest_request c payload :: l) = run_signals c path l.
Proof.
  intros H. change (ingest_request c payload :: l) with ([ingest_request c payload] ++ l).
  rewrite run_signals_app, run_signals_ingest by exact H. reflexivity.
Qed.

(** X2: a [track] call that supplies a [runId] of its own takes no step
    of the active run, whether there is one or not: no run object
    changes, no step signal is sent, and the event carries the caller's
    [runId], and the caller's [stepIndex] if one was supplied. *)
Theorem track_explicit_run_id :
  forall (o : TrackOptions) (cx : ctx) (w : world),
    nullish (opt_runId o) = false ->
    let w' := snd (track o cx w) in
    runs w' = runs w /\
    run_signals (config w) "/api/runs/step" (sent_since w w') = [] /\
    length (telemetry_events (config w) (sent_since w w')) = (if enabled w then 1 else 0)%nat /\
    (forall body,
        In body (telemetry_events (config w) (sent_since w w')) ->
        prop body "run_id" = json (opt_runId o) /\
        prop body "step_index" = when_present (opt_stepIndex o)).
Proof.
  intros o cx w N w'. subst w'.
  pose proof (track_frame o cx w) as F. cbv zeta in F. destruct F as (_ & Hr & _).
  assert (Hs : step_requests o cx w = []).
  { unfold step_requests. rewrite N. destruct (ctx_run cx); reflexivity. }
  assert (Hp : track_payload o cx w =
               ingest_payload (config w) (ctx_tag cx) o (opt_runId o) (opt_stepIndex o)).
  { unfold track_payload, resolved_run. rewrite N. destruct (ctx_run cx); reflexivity. }
  split; [|split; [|split]].
  - rewrite Hr. unfold runs_after_track. rewrite N. destruct (ctx_run cx); reflexivity.
  - rewrite track_sent, Hs. destruct (enabled w); [|reflexivity].
    apply run_signals_ingest. discriminate.
  - rewrite track_events. destruct (enabled w); reflexivity.
  - intros body Hin. rewrite track_events in Hin.
    destruct (enabled w); [|destruct Hin]. destruct Hin as [<-|[]].
    rewrite Hp, event_run_id, event_step_index, when_present_defined by exact N.
    split; reflexivity.
Qed.

Lemma track_explicit_run_id_witness :
  let w := put_runs {[ 0%nat := run_a ]}
             (mock_world test_config (Resolves (Response chat_response))
                (FetchResponse 200)) in
  let o := own_run_options in
  let cx := Ctx (VStr "agent") (Some 0%nat) in
  let sent := telemetry_events (config w) (sent_since w (snd (track o cx w))) in
  runs (snd (track o cx w)) = runs w /\
  In (hd VUndefined sent) sent /\
  prop (hd VUndefined sent) "run_id" = VStr "mine" /\
  prop (hd VUndefined sent) "step_index" = VUndefined.
Proof.
  intros w o cx sent.
  assert (Hin : In (hd VUndefined sent) sent) by (left; reflexivity).
  destruct (track_explicit_run_id o cx w eq_refl) as (Hr & _ & _ & Hb).
  destruct (Hb _ Hin) as (Hid & Hst).
  split; [exact Hr|]. split; [exact Hin|]. split; [exact Hid|exact Hst].
Defined.

Lemma track_step_sent o cx w l :
  ctx_run cx = Some l -> nullish (opt_runId o) = true ->
  let r := deref (runs w) l in
  sent_since w (snd (track o cx w)) =
  if enabled w
  then [ run_request (config w) "/api/runs/step"
           (VObj (step_payload (config w) (runId r) (VNum (stepCounter r + 1)) o));
         ingest_request (config w)
           (VObj (ingest_payload (config w) (ctx_tag cx) o (runId r)
                    (VNum (stepCounter r + 1)))) ]
  else [].
Proof.
  intros E N. cbv zeta. rewrite track_sent.
  unfold step_requests, track_payload, resolved_run. rewrite E, N. reflexivity.
Qed.

Lemma track_step_runs o cx w l :
  ctx_run cx = Some l -> nullish (opt_runId o) = true ->
  runs (snd (track o cx w)) = <[l := stepped (deref (runs w) l)]> (runs w).
Proof.
  intros E N. pose proof (track_frame o cx w) as F. cbv zeta in F.
  destruct F as (_ & Hr & _). rewrite Hr. unfold runs_after_track.
  rewrite E, N. reflexivity.
Qed.

(** X3: inside an active run a [track] call without a [runId] of its
    own advances the run's step counter by one, whether or not
    telemetry is enabled, and touches nothing else of that run and no
    other run; with telemetry disabled nothing is sent all the same. *)
Theorem step_counter_advances :
  forall (o : TrackOptions) (cx : ctx) (w : world) (l : nat),
    ctx_run cx = Some l ->
    nullish (opt_runId o) = true ->
    let r := deref (runs w) l in
    let w' := snd (track o cx w) in
    let r' := deref (runs w') l in
    stepCounter r' = stepCounter r + 1 /\
    runId r' = runId r /\ runName r' = runName r /\
    featureTag r' = featureTag r /\ endUserId r' = endUserId r /\
    (forall l' : nat, l' <> l -> runs w' !! l' = runs w !! l') /\
    (enabled w = false -> net w' = net w /\ console w' = console w).
Proof.
  intros o cx w l E N r w' r'. subst r' w'.
  rewrite (track_step_runs o cx w l E N), deref_insert.
  do 5 (split; [reflexivity|]). split.
  - intros l' Hl. apply lookup_insert_ne. congruence.
  - intros En. split.
    + apply track_net_disabled. exact En.
    + rewrite track_console, En. apply app_nil_r.
Qed.

Lemma step_counter_advances_witness :
  let w := put_runs {[ 0%nat := run_a ]}
             (mock_world disabled_config (Resolves (Response chat_response))
                (FetchResponse 200)) in
  let cx := Ctx (VStr "agent") (Some 0%nat) in
  let w' := snd (track manual_options cx w) in
  stepCounter (deref (runs w') 0%nat) = 4 /\
  runId (deref (runs w') 0%nat) = VStr "run-a" /\
  net w' = [].
Proof.
  intros w cx w'.
  destruct (step_counter_advances manual_options cx w 0%nat eq_refl eq_refl)
    as (Hc & Hid & _ & _ & _ & _ & Hoff).
  split; [exact Hc|]. split; [exact Hid|]. exact (proj1 (Hoff eq_refl)).
Defined.

Lemma ingest_payload_base c tag o rid st k :
  k <> "step_index" -> k <> "run_id" -> k <> "end_user_id" -> k <> "error_type" ->
  ingest_payload c tag o rid st !! k = base_payload c tag o !! k.
Proof.
  intros H1 H2 H3 H4. unfold ingest_payload, set_if_present.
  destruct (nullish st), (nullish rid), (nullish (opt_endUserId o)),
    (nullish (opt_errorType o));
    rewrite ?lookup_insert_ne by congruence; reflexivity.
Qed.

Ltac same_field :=
  rewrite !prop_json; apply f_equal;
  unfold field; apply f_equal;
  rewrite ingest_payload_base by discriminate;
  unfold base_payload, step_payload;
  repeat (rewrite lookup_insert_ne by discriminate);
  rewrite ?lookup_insert_eq; reflexivity.

Lemma step_payload_field c rid st o k v :
  step_payload c rid st o !! k = Some v ->
  prop (json (VObj (step_payload c rid st o))) k = json v.
Proof. intros H. rewrite prop_json, (field_lookup _ _ _ H). reflexivity. Qed.

(** X4: inside an active run, telemetry being enabled, a [track] call
    without a [runId] of its own posts two requests, the step signal
    first and the event second; the two bodies agree on project,
    model, provider, the three token counts, latency, success and the
    step index, which is the run's counter plus one.  The signal
    moreover says [step_type: "llm_call"] and [cost_usd: 0], and always
    has an [error_type] ([null] when none was given), which the event
    leaves out. *)
Theorem step_signal_mirrors_event :
  forall (o : TrackOptions) (cx : ctx) (w : world) (l : nat),
    ctx_run cx = Some l ->
    nullish (opt_runId o) = true ->
    enabled w = true ->
    let r := deref (runs w) l in
    let sent := sent_since w (snd (track o cx w)) in
    exists s b : value,
      map req_body sent = [s; b] /\
      run_signals (config w) "/api/runs/step" sent = [s] /\
      telemetry_events (config w) sent = [b] /\
      (forall k : string,
          In k ["project_id"; "model"; "provider"; "input_tokens"; "output_tokens";
                "cached_tokens"; "latency_ms"; "success"; "step_index"] ->
          prop s k = prop b k) /\
      prop s "step_index" = VNum (stepCounter r + 1) /\
      prop s "run_id" = json (runId r) /\
      prop b "run_id" = when_present (runId r) /\
      prop s "step_type" = VStr "llm_call" /\
      prop s "cost_usd" = VNum 0 /\
      prop s "error_type" = json (opt_errorType o ?? VNull) /\
      prop b "error_type" = when_present (opt_errorType o).
Proof.
  intros o cx w l E N En r sent. subst sent.
  pose proof (track_step_sent o cx w l E N) as Hs. cbv zeta in Hs. fold r in Hs.
  rewrite Hs, En. clear Hs.
  cbn [map req_body run_request ingest_request].
  do 2 eexists. split; [reflexivity|]. split; [|split].
  - rewrite run_signals_cons_hit, run_signals_ingest by discriminate. reflexivity.
  - rewrite telemetry_events_cons_run by discriminate. apply telemetry_events_ingest.
  - split; [|repeat split].
    + intros k Hk. cbn [In] in Hk.
      do 8 (destruct Hk as [<-|Hk]; [same_field|]).
      destruct Hk as [<-|[]].
      rewrite event_step_index.
      apply (step_payload_field _ _ _ _ _ (VNum (stepCounter r + 1))). payload_lookup.
    + apply (step_payload_field _ _ _ _ _ (VNum (stepCounter r + 1))). payload_lookup.
    + apply step_payload_field. payload_lookup.
    + apply event_run_id.
    + apply (step_payload_field _ _ _ _ _ (VStr "llm_call")). payload_lookup.
    + apply (step_payload_field _ _ _ _ _ (VNum 0)). payload_lookup.
    + apply step_payload_field. payload_lookup.
    + apply prop_when_present, ingest_payload_error_type.
Qed.

Lemma step_signal_mirrors_event_witness :
  let w := put_runs {[ 0%nat := run_a ]}
             (mock_world test_config (Resolves (Response chat_response))
                (FetchResponse 200)) in
  let cx := Ctx (VStr "agent") (Some 0%nat) in
  let sent := sent_since w (snd (track manual_options cx w)) in
  exists s b : value,
    map req_body sent = [s; b] /\
    prop s "step_index" = VNum 4 /\ prop b "step_index" = VNum 4 /\
    prop s "run_id" = VStr "run-a" /\ prop b "run_id" = VStr "run-a" /\
    prop s "error_type" = VNull /\ prop b "error_type" = VUndefined.
Proof.
  intros w cx sent.
  destruct (step_signal_mirrors_event manual_options cx w 0%nat eq_refl eq_refl eq_refl)
    as (s & b & Hsb & _ & _ & Hk & Hi & Hrs & Hrb & _ & _ & Hes & Heb).
  exists s, b. split; [exact Hsb|]. split; [exact Hi|].
  split; [rewrite <- (Hk "step_index") by (cbn; tauto); exact Hi|].
  split; [exact Hrs|]. split; [exact Hrb|]. split; [exact Hes|exact Heb].
Defined.

Lemma sent_since_same w w' : net w' = net w -> sent_since w w' = [].
Proof. apply sent_since_none. Qed.

(** X5: with [debug] on, what a [track] call logs to the console is
    exactly what it posts as telemetry events, before serialisation:
    one payload when telemetry is enabled, none when it is disabled;
    step signals are not logged, and neither is anything [sendRunApi]
    sends.  With [debug] off nothing is logged.  How the POST settles
    changes nothing of this. *)
Theorem debug_logs_what_is_posted :
  forall (o : TrackOptions) (cx : ctx) (w : world),
    let w' := snd (track o cx w) in
    let logged := drop (length (console w)) (console w') in
    (debugging w = true ->
     map json logged = telemetry_events (config w) (sent_since w w')) /\
    (debugging w = false -> logged = []) /\
    (enabled w = false -> logged = []) /\
    (forall f : nat -> fetch_outcome,
        console (snd (track o cx (with_collector f w))) = console w') /\
    (forall (path : string) (payload : value),
        console (snd (sendRunApi path payload w)) = console w).
Proof.
  intros o cx w w' logged. subst logged w'.
  rewrite track_console, drop_app_length, track_events.
  split; [|split; [|split; [|split]]].
  - intros ->. rewrite andb_true_r. destruct (enabled w); reflexivity.
  - intros ->. rewrite andb_false_r. reflexivity.
  - intros ->. reflexivity.
  - intros f. rewrite track_collector. cbn [snd with_collector console].
    apply track_console.
  - intros path payload. rewrite sendRunApi_eq. destruct (enabled w); reflexivity.
Qed.

(** ** Sequences of tracked calls in a run *)

Lemma iter_stepped_counter n r :
  stepCounter (Nat.iter n stepped r) = stepCounter r + Z.of_nat n.
Proof.
  induction n as [|n IH]; [cbn; lia|].
  rewrite Nat.iter_succ. unfold stepped at 1. cbn [stepCounter]. rewrite IH. lia.
Qed.

Lemma iter_stepped_id n r : runId (Nat.iter n stepped r) = runId r.
Proof. induction n as [|n IH]; [reflexivity|]. rewrite Nat.iter_succ. exact IH. Qed.

Lemma track_all_cons o os cx w :
  track_all (o :: os) cx w = track_all os cx (snd (track o cx w)).
Proof.
  cbn [track_all]. unfold bind.
  rewrite (surjective_pairing (track o cx w)), track_ok. reflexivity.
Qed.

Lemma track_all_in_run os : forall cx w l,
  ctx_run cx = Some l ->
  Forall (fun o => nullish (opt_runId o) = true) os ->
  let r := deref (runs w) l in
  let w' := snd (track_all os cx w) in
  fst (track_all os cx w) = Ok tt /\
  config w' = config w /\
  deref (runs w') l = Nat.iter (length os) stepped r /\
  net w' = net w ++ (if enabled w then run_requests (config w) (ctx_tag cx) r os else []).
Proof.
  induction os as [|o os IH]; intros cx w l E Hall; cbv zeta.
  - cbn [track_all ret fst snd length run_requests Nat.iter].
    repeat split. destruct (enabled w); rewrite app_nil_r; reflexivity.
  - inversion Hall as [|? ? N Hrest]; subst.
    rewrite track_all_cons.
    set (w1 := snd (track o cx w)).
    pose proof (track_frame o cx w) as F. cbv zeta in F. fold w1 in F.
    destruct F as (Hc & _).
    pose proof (track_step_runs o cx w l E N) as Hr. fold w1 in Hr.
    pose proof (track_step_sent o cx w l E N) as Hs. cbv zeta in Hs. fold w1 in Hs.
    destruct (IH cx w1 l E Hrest) as (Hok & Hc' & Hr' & Hn').
    assert (Hd : deref (runs w1) l = stepped (deref (runs w) l))
      by (rewrite Hr; apply deref_insert).
    assert (En1 : enabled w1 = enabled w) by (unfold enabled; rewrite Hc; reflexivity).
    split; [exact Hok|]. split; [rewrite Hc'; exact Hc|]. split.
    + rewrite Hr', Hd. cbn [length]. rewrite Nat.iter_succ_r. reflexivity.
    + rewrite Hn', En1, Hc, Hd.
      assert (Hn1 : net w1 = net w ++ sent_since w w1).
      { unfold sent_since.
        pose proof (track_net o cx w) as T. fold w1 in T. rewrite T.
        rewrite drop_app_length. reflexivity. }
      rewrite Hn1, Hs. destruct (enabled w).
      * cbn [run_requests]. rewrite <- app_assoc. reflexivity.
      * rewrite !app_nil_r. reflexivity.
Qed.

Lemma run_requests_events c tag os : forall r,
  telemetry_events c (run_requests c tag r os) =
  imap (fun i o => json (VObj (ingest_payload c tag o (runId r)
                                 (VNum (stepCounter r + 1 + Z.of_nat i))))) os.
Proof.
  induction os as [|o os IH]; intros r; [reflexivity|].
  cbn [run_requests imap].
  rewrite telemetry_events_cons_run by discriminate.
  rewrite telemetry_events_cons_ingest, IH.
  f_equal.
  - rewrite Z.add_0_r. reflexivity.
  - apply imap_ext. intros i x _. cbn [stepped runId stepCounter compose].
    do 4 f_equal. lia.
Qed.

Lemma run_requests_signals c tag os : forall r,
  run_signals c "/api/runs/step" (run_requests c tag r os) =
  imap (fun i o => json (VObj (step_payload c (runId r)
                                 (VNum (stepCounter r + 1 + Z.of_nat i)) o))) os.
Proof.
  induction os as [|o os IH]; intros r; [reflexivity|].
  cbn [run_requests imap].
  rewrite run_signals_cons_hit.
  rewrite run_signals_cons_ingest by discriminate. rewrite IH.
  f_equal.
  - rewrite Z.add_0_r. reflexivity.
  - apply imap_ext. intros i x _. cbn [stepped runId stepCounter compose].
    do 4 f_equal. lia.
Qed.

(** X6: tracked calls awaited one after the other inside an active run,
    none naming a run of its own, take consecutive steps: the run's
    counter ends higher by the number of calls, and, telemetry being
    enabled, the i-th call (from 0) posts the i-th event and the i-th
    step signal, both with [step_index] the counter's starting value
    plus i + 1, the run's id, and the call's own model. *)
Theorem run_steps_are_consecutive :
  forall (os : list TrackOptions) (cx : ctx) (w : world) (l : nat),
    ctx_run cx = Some l ->
    Forall (fun o => nullish (opt_runId o) = true) os ->
    let r := deref (runs w) l in
    let w' := snd (track_all os cx w) in
    let events := telemetry_events (config w) (sent_since w w') in
    let signals := run_signals (config w) "/api/runs/step" (sent_since w w') in
    fst (track_all os cx w) = Ok tt /\
    stepCounter (deref (runs w') l) = stepCounter r + Z.of_nat (length os) /\
    (enabled w = false -> net w' = net w) /\
    (enabled w = true ->
     length events = length os /\ length signals = length os /\
     forall (i : nat) (o : TrackOptions),
       os !! i = Some o ->
       exists b s : value,
         events !! i = Some b /\ signals !! i = Some s /\
         prop b "step_index" = VNum (stepCounter r + 1 + Z.of_nat i) /\
         prop s "step_index" = VNum (stepCounter r + 1 + Z.of_nat i) /\
         prop b "run_id" = when_present (runId r) /\
         prop s "run_id" = json (runId r) /\
         prop b "model" = json (opt_model o) /\
         prop s "model" = json (opt_model o)).
Proof.
  intros os cx w l E Hall r w' events signals. subst events signals w'.
  destruct (track_all_in_run os cx w l E Hall) as (Hok & _ & Hr & Hn).
  fold r in Hr, Hn.
  split; [exact Hok|]. split; [rewrite Hr; apply iter_stepped_counter|]. split.
  - intros En. rewrite Hn, En. apply app_nil_r.
  - intros En. rewrite En in Hn. rewrite (sent_since_app _ _ _ Hn).
    rewrite run_requests_events, run_requests_signals, !length_imap.
    split; [reflexivity|]. split; [reflexivity|].
    intros i o Hi. do 2 eexists.
    rewrite !list_lookup_imap, Hi. cbn [fmap option_fmap option_map].
    split; [reflexivity|]. split; [reflexivity|].
    split; [apply event_step_index|].
    split; [apply (step_payload_field _ _ _ _ _ (VNum (stepCounter r + 1 + Z.of_nat i)));
            payload_lookup|].
    split; [apply event_run_id|].
    split; [apply step_payload_field; payload_lookup|].
    split; [|apply step_payload_field; payload_lookup].
    rewrite prop_json. apply f_equal, field_lookup. payload_lookup; discriminate.
Qed.

Lemma run_steps_are_consecutive_witness :
  let w := put_runs {[ 0%nat := run_a ]}
             (mock_world test_config (Resolves (Response chat_response))
                (FetchResponse 200)) in
  let cx := Ctx (VStr "agent") (Some 0%nat) in
  let os := [manual_options; manual_options; manual_options] in
  let w' := snd (track_all os cx w) in
  stepCounter (deref (runs w') 0%nat) = 6 /\
  map (fun b => prop b "step_index")
    (telemetry_events (config w) (sent_since w w')) = [VNum 4; VNum 5; VNum 6] /\
  exists b s : value,
    telemetry_events (config w) (sent_since w w') !! 2%nat = Some b /\
    run_signals (config w) "/api/runs/step" (sent_since w w') !! 2%nat = Some s /\
    prop b "step_index" = VNum 6 /\ prop s "step_index" = VNum 6 /\
    prop b "run_id" = VStr "run-a" /\ prop s "run_id" = VStr "run-a".
Proof.
  intros w cx os w'.
  assert (Hall : Forall (fun o => nullish (opt_runId o) = true) os)
    by (repeat constructor).
  destruct (run_steps_are_consecutive os cx w 0%nat eq_refl Hall)
    as (_ & Hc & _ & Hon).
  destruct (Hon eq_refl) as (_ & _ & Hi).
  destruct (Hi 2%nat manual_options eq_refl) as (b & s & Hb & Hs & Hbi & Hsi & Hbr & Hsr & _).
  split; [exact Hc|]. split; [vm_compute; reflexivity|].
  exists b, s. repeat split; assumption.
Defined.

(** ** [init] and what follows it *)

Lemma init_eq options w : init options w = (Ok tt, put_config (options ∪ config w) w).
Proof. reflexivity. Qed.

Lemma field_union_l (a b : obj) k v : a !! k = Some v -> field (a ∪ b) k = v.
Proof. intros H. apply field_lookup, lookup_union_Some_l, H. Qed.

Lemma field_union_r (a b : obj) k : a !! k = None -> field (a ∪ b) k = field b k.
Proof. intros H. unfold field. rewrite lookup_union_r by exact H. reflexivity. Qed.

(** X7: [init] copies every property its argument holds, one holding
    [undefined] included.  So the [enabled] flag after [init(options)]
    is the truthiness of [options.enabled] whenever [options] has that
    property, and the flag as it was otherwise; [init] itself sends
    nothing; and once the flag is falsy (say after
    [init({..., enabled: undefined})]) [sendTelemetry], [sendRunApi]
    and [track] neither send nor log anything. *)
Theorem init_falsy_enabled_silences :
  forall (options : obj) (w : world),
    let w1 := snd (init options w) in
    fst (init options w) = Ok tt /\
    net w1 = net w /\ console w1 = console w /\ runs w1 = runs w /\
    enabled w1 = match options !! "enabled" with
                 | Some v => truthy v
                 | None => enabled w
                 end /\
    (enabled w1 = false ->
     (forall payload, snd (sendTelemetry payload w1) = w1) /\
     (forall path payload, snd (sendRunApi path payload w1) = w1) /\
     (forall o cx, net (snd (track o cx w1)) = net w /\
                   console (snd (track o cx w1)) = console w)).
Proof.
  intros options w w1. subst w1. rewrite init_eq. cbn [fst snd].
  split; [reflexivity|]. split; [reflexivity|]. split; [reflexivity|].
  split; [reflexivity|]. split.
  - unfold enabled. cbn [config put_config].
    destruct (options !! "enabled") as [v|] eqn:E.
    + rewrite (field_union_l _ _ _ _ E). reflexivity.
    + rewrite (field_union_r _ _ _ E). reflexivity.
  - intros En. split; [|split].
    + intros payload. rewrite sendTelemetry_eq, En. reflexivity.
    + intros path payload. rewrite sendRunApi_eq, En. reflexivity.
    + intros o cx. rewrite track_net_disabled by exact En.
      rewrite track_console, En. cbn [andb]. rewrite app_nil_r. split; reflexivity.
Qed.

Lemma init_falsy_enabled_silences_witness :
  let w := mock_world test_config (Resolves (Response chat_response))
             (FetchResponse 200) in
  let w1 := snd (init {[ "enabled" := VUndefined ]} w) in
  enabled w = true /\ enabled w1 = false /\
  net (snd (track manual_options no_ctx w1)) = [].
Proof.
  intros w w1.
  destruct (init_falsy_enabled_silences {[ "enabled" := VUndefined ]} w)
    as (_ & _ & _ & _ & He & Hoff).
  split; [reflexivity|]. split; [exact He|].
  destruct (Hoff He) as (_ & _ & Ht). exact (proj1 (Ht manual_options no_ctx)).
Defined.

Lemma event_environment o cx w :
  prop (event_of o cx w) "environment" =
  json (opt_environment o ?? field (config w) "environment").
Proof.
  unfold event_of, track_payload. rewrite prop_json.
  apply f_equal, field_lookup. payload_lookup.
Qed.

(** X8: what [init] stores is what the next [track] call uses: every
    request that call issues goes to the host just supplied, with the
    tracker key just supplied in [x-api-key] and the project id just
    supplied in its body; the event carries the environment just
    supplied unless the call names one; a setting [init] was not given
    stays as it was. *)
Theorem init_then_track :
  forall (options : obj) (o : TrackOptions) (cx : ctx) (w : world),
    let w1 := snd (init options w) in
    let sent := sent_since w1 (snd (track o cx w1)) in
    (forall h : string,
        options !! "host" = Some (VStr h) ->
        forall r, In r sent ->
                  req_url r = h +:+ "/api/ingest" \/ req_url r = h +:+ "/api/runs/step") /\
    (forall key : value,
        options !! "trackerApiKey" = Some key ->
        forall r, In r sent -> req_headers r !! "x-api-key" = Some key) /\
    (forall p : value,
        options !! "projectId" = Some p ->
        forall r, In r sent -> prop (req_body r) "project_id" = json p) /\
    (forall e : value,
        options !! "environment" = Some e ->
        forall body, In body (telemetry_events (config w1) sent) ->
                     prop body "environment" = json (opt_environment o ?? e)) /\
    (forall k : string,
        options !! k = None -> field (config w1) k = field (config w) k).
Proof.
  intros options o cx w w1 sent. subst sent.
  assert (Hc : config w1 = options ∪ config w) by reflexivity.
  split; [|split; [|split; [|split]]].
  - intros h Hh r Hin.
    destruct (track_request_shape o cx w1 r Hin) as (_ & _ & _ & Hu & _).
    rewrite Hc, (field_union_l _ _ _ _ Hh) in Hu. exact Hu.
  - intros key Hkey r Hin.
    destruct (track_request_shape o cx w1 r Hin) as (_ & _ & Hh & _).
    rewrite Hh, api_headers_key, Hc, (field_union_l _ _ _ _ Hkey). reflexivity.
  - intros p Hpr r Hin.
    destruct (track_request_shape o cx w1 r Hin) as (_ & _ & _ & _ & Hp).
    rewrite Hp, Hc, (field_union_l _ _ _ _ Hpr). reflexivity.
  - intros e Hen body Hin. rewrite track_events in Hin.
    destruct (enabled w1); [|destruct Hin]. destruct Hin as [<-|[]].
    fold (event_of o cx w1).
    rewrite event_environment, Hc, (field_union_l _ _ _ _ Hen). reflexivity.
  - intros k Hk. rewrite Hc. apply field_union_r. exact Hk.
Qed.

Lemma init_then_track_witness :
  let w := mock_world default_config (Resolves (Response chat_response))
             (FetchResponse 200) in
  let options := <["host" := VStr "http://localhost:8080"]> staging_options in
  let w1 := snd (init options w) in
  let sent := sent_since w1 (snd (track manual_options no_ctx w1)) in
  let r := hd (Request EmptyString EmptyString ∅ VUndefined 0) sent in
  In r sent /\
  req_url r = "http://localhost:8080/api/ingest" /\
  req_headers r !! "x-api-key" = Some (VStr "k") /\
  prop (req_body r) "project_id" = VStr "p" /\
  prop (req_body r) "environment" = VStr "staging".
Proof.
  intros w options w1 sent r.
  assert (Hin : In r sent) by (left; reflexivity).
  destruct (init_then_track options manual_options no_ctx w)
    as (_ & Hk & Hp & He & _).
  split; [exact Hin|]. split; [reflexivity|].
  split; [exact (Hk (VStr "k") eq_refl r Hin)|].
  split; [exact (Hp (VStr "p") eq_refl r Hin)|].
  apply (He (VStr "staging") eq_refl). left. reflexivity.
Defined.

(** ** [observe] and runs *)

(** X9: inside [observe(fn, { featureTag: t })] a [track] call reports
    its own [featureTag] if it has one, else [t], else ["unknown"];
    the tag around the [observe] call plays no part, so an [observe]
    nested in another replaces the outer tag, and one given no tag
    resets it to ["unknown"].  The active run is left as it is: the
    call takes the same step and sends the same step signal as
    without [observe]. *)
Theorem observe_sets_ambient_tag :
  forall (t : value) (o : TrackOptions) (cx : ctx) (w : world),
    let inner := observe (track o) t in
    (forall body,
        In body (telemetry_events (config w) (sent_since w (snd (inner cx w)))) ->
        prop body "feature_tag" = json (opt_featureTag o ?? t ?? VStr "unknown")) /\
    length (telemetry_events (config w) (sent_since w (snd (inner cx w)))) =
      (if enabled w then 1 else 0)%nat /\
    (forall t' : value, observe inner t' cx w = inner cx w) /\
    runs (snd (inner cx w)) = runs (snd (track o cx w)) /\
    run_signals (config w) "/api/runs/step" (sent_since w (snd (inner cx w))) =
    run_signals (config w) "/api/runs/step" (sent_since w (snd (track o cx w))).
Proof.
  intros t o cx w inner. subst inner.
  unfold observe, featureTagStorage_run.
  split; [|split; [|split; [|split]]].
  - intros body Hin. rewrite track_events in Hin.
    destruct (enabled w); [|destruct Hin]. destruct Hin as [<-|[]].
    apply (event_feature_tag o (Ctx t (ctx_run cx)) w).
  - rewrite track_events. destruct (enabled w); reflexivity.
  - reflexivity.
  - pose proof (track_frame o (Ctx t (ctx_run cx)) w) as F1.
    pose proof (track_frame o cx w) as F2. cbv zeta in F1, F2.
    destruct F1 as (_ & -> & _). destruct F2 as (_ & -> & _). reflexivity.
  - rewrite !track_sent. destruct (enabled w); [|reflexivity].
    rewrite !run_signals_app, !run_signals_ingest by discriminate.
    reflexivity.
Qed.

Lemma observe_sets_ambient_tag_witness :
  let w := mock_world test_config (Resolves (Response chat_response))
             (FetchResponse 200) in
  let o := own_run_options in
  let cx := Ctx (VStr "outer") None in
  let sent := telemetry_events (config w)
                (sent_since w (snd (observe (track o) (VStr "chat") cx w))) in
  let reset := telemetry_events (config w)
                 (sent_since w (snd (observe (track o) VUndefined cx w))) in
  In (hd VUndefined sent) sent /\
  prop (hd VUndefined sent) "feature_tag" = VStr "chat" /\
  In (hd VUndefined reset) reset /\
  prop (hd VUndefined reset) "feature_tag" = VStr "unknown".
Proof.
  intros w o cx sent reset.
  assert (H1 : In (hd VUndefined sent) sent) by (left; reflexivity).
  assert (H2 : In (hd VUndefined reset) reset) by (left; reflexivity).
  split; [exact H1|].
  split; [exact (proj1 (observe_sets_ambient_tag (VStr "chat") o cx w) _ H1)|].
  split; [exact H2|].
  exact (proj1 (observe_sets_ambient_tag VUndefined o cx w) _ H2).
Defined.

(** X10: [new AgentRun(options)] sends nothing and logs nothing; the
    run it makes is a new object, so every run that existed stays as
    it was; the new run has taken no step, its id is [options.runId]
    or else a fresh UUID, its tag [options.featureTag] or else
    ["unknown"], and neither is ever [null] or [undefined]. *)
Theorem new_run_is_fresh :
  forall (options : obj) (w : world),
    exists l : nat,
      fst (new_AgentRun options w) = Ok l /\
      runs w !! l = None /\
      let w' := snd (new_AgentRun options w) in
      let r := deref (runs w') l in
      net w' = net w /\ console w' = console w /\ config w' = config w /\
      (forall l' : nat, l' <> l -> runs w' !! l' = runs w !! l') /\
      stepCounter r = 0 /\
      runId r = field options "runId" ?? VStr (env_uuid w (size (runs w))) /\
      featureTag r = field options "featureTag" ?? VStr "unknown" /\
      runName r = field options "runName" /\
      endUserId r = field options "endUserId" /\
      nullish (runId r) = false /\ nullish (featureTag r) = false.
Proof.
  intros options w. exists (fresh (dom (runs w))).
  pose proof (new_AgentRun_eq options w) as E. cbv zeta in E. rewrite E. clear E.
  cbn [fst snd]. split; [reflexivity|]. split.
  - apply not_elem_of_dom, is_fresh.
  - cbn [runs net console config put_runs]. rewrite deref_insert.
    cbn [stepCounter runId featureTag runName endUserId].
    do 3 (split; [reflexivity|]). split.
    + intros l' Hl. apply lookup_insert_ne. congruence.
    + do 5 (split; [reflexivity|]).
      split; apply nullish_coalesce; reflexivity.
Qed.

Lemma sent_since_trans w w1 w2 a b :
  net w1 = net w ++ a -> net w2 = net w1 ++ b -> sent_since w w2 = a ++ b.
Proof.
  intros H1 H2. apply sent_since_app. rewrite H2, H1, <- app_assoc. reflexivity.
Qed.

Lemma sendRunApi_frame path payload w :
  let w' := snd (sendRunApi path payload w) in
  config w' = config w /\ runs w' = runs w /\ console w' = console w /\
  enabled w' = enabled w.
Proof.
  cbv zeta. rewrite sendRunApi_eq. destruct (enabled w) eqn:E; repeat split; exact E.
Qed.

Lemma execute_track this o cx w :
  let r := deref (runs w) this in
  let w1 := snd (sendRunApi "/api/runs/start"
                   (VObj (run_start_payload (config w) r)) w) in
  let w2 := snd (track o (Ctx (featureTag r) (Some this)) w1) in
  execute this (track o) cx w =
  (Ok tt,
   snd (sendRunApi "/api/runs/end"
          (VObj (run_end_completed (config w2) (deref (runs w2) this))) w2)).
Proof.
  cbv zeta. pose proof (execute_eq this (track o) cx w) as E. cbv zeta in E.
  rewrite E, track_ok. reflexivity.
Qed.

(** The telemetry events of a run that makes one tracked call. *)
Lemma execute_track_events this o cx w :
  let r := deref (runs w) this in
  let w1 := snd (sendRunApi "/api/runs/start"
                   (VObj (run_start_payload (config w) r)) w) in
  telemetry_events (config w) (sent_since w (snd (execute this (track o) cx w))) =
  if enabled w then [event_of o (Ctx (featureTag r) (Some this)) w1] else [].
Proof.
  cbv zeta. pose proof (execute_track this o cx w) as E. cbv zeta in E. rewrite E.
  cbn [snd]. clear E.
  set (r := deref (runs w) this).
  set (w1 := snd (sendRunApi "/api/runs/start" _ w)).
  set (inside := Ctx (featureTag r) (Some this)).
  set (w2 := snd (track o inside w1)).
  pose proof (sendRunApi_frame "/api/runs/start"
                (VObj (run_start_payload (config w) r)) w) as F1.
  cbv zeta in F1. fold w1 in F1. destruct F1 as (Hc1 & _ & _ & He1).
  pose proof (track_frame o inside w1) as F2. cbv zeta in F2. fold w2 in F2.
  destruct F2 as (Hc2 & _).
  assert (He2 : enabled w2 = enabled w)
    by (unfold enabled; rewrite Hc2, Hc1; reflexivity).
  pose proof (sendRunApi_net "/api/runs/start"
                (VObj (run_start_payload (config w) r)) w) as N1. fold w1 in N1.
  pose proof (track_net o inside w1) as N2. fold w2 in N2. rewrite He1, Hc1 in N2.
  set (w3 := snd (sendRunApi "/api/runs/end" _ w2)).
  pose proof (sendRunApi_net "/api/runs/end"
                (VObj (run_end_completed (config w2) (deref (runs w2) this))) w2) as N3.
  fold w3 in N3. rewrite He2, Hc2, Hc1 in N3.
  rewrite N1, <- app_assoc in N2.
  rewrite (sent_since_trans w w2 w3 _ _ N2 N3).
  destruct (enabled w); [|reflexivity].
  rewrite !telemetry_events_app.
  rewrite !telemetry_events_run by discriminate.
  rewrite telemetry_events_steps by exact Hc1.
  rewrite telemetry_events_ingest. reflexivity.
Qed.

(** X11: the tag a run was created with replaces the ambient tag for
    everything its body does: a tracked call made in
    [run.execute(...)] without a [featureTag] of its own reports the
    run's tag, which is ["unknown"] for a run created without one,
    whatever [observe] scope the run is created and executed in. *)
Theorem run_tag_replaces_ambient_tag :
  forall (options : obj) (o : TrackOptions) (t : value) (cx : ctx) (w : world)
         (body : value),
    In body (telemetry_events (config w)
               (sent_since w (snd (observe (fresh_run_one_call options o) t cx w)))) ->
    prop body "feature_tag" =
      json (opt_featureTag o ?? field options "featureTag" ?? VStr "unknown") /\
    (nullish (opt_featureTag o) = true -> nullish (field options "featureTag") = true ->
     prop body "feature_tag" = VStr "unknown").
Proof.
  intros options o t cx w body Hin.
  assert (Ht : prop body "feature_tag" =
               json (opt_featureTag o ?? field options "featureTag" ?? VStr "unknown")).
  { unfold observe, featureTagStorage_run, fresh_run_one_call, bind in Hin.
    pose proof (new_AgentRun_eq options w) as E. cbv zeta in E. rewrite E in Hin.
    clear E. set (l := fresh (dom (runs w))) in Hin.
    set (w0 := put_runs _ w) in Hin.
    change (config w) with (config w0) in Hin.
    replace (sent_since w) with (sent_since w0) in Hin by reflexivity.
    pose proof (execute_track_events l o (Ctx t (ctx_run cx)) w0) as Ev.
    cbv zeta in Ev. rewrite Ev in Hin. clear Ev.
    destruct (enabled w0); [|destruct Hin]. destruct Hin as [<-|[]].
    rewrite event_feature_tag. cbn [ctx_tag].
    subst w0. cbn [runs put_runs]. rewrite deref_insert. cbn [featureTag].
    apply f_equal. unfold coalesce.
    destruct (nullish (opt_featureTag o)); [|reflexivity].
    destruct (nullish (field options "featureTag")) eqn:N; [reflexivity|].
    rewrite N. reflexivity. }
  split; [exact Ht|].
  intros N1 N2. rewrite Ht. unfold coalesce. rewrite N1, N2. reflexivity.
Qed.

Lemma run_tag_replaces_ambient_tag_witness :
  let w := mock_world test_config (Resolves (Response chat_response))
             (FetchResponse 200) in
  let sent := telemetry_events (config w)
                (sent_since w
                   (snd (observe (fresh_run_one_call ∅ own_run_options) (VStr "chat")
                           no_ctx w))) in
  In (hd VUndefined sent) sent /\
  prop (hd VUndefined sent) "feature_tag" = VStr "unknown".
Proof.
  intros w sent.
  assert (Hin : In (hd VUndefined sent) sent) by (left; reflexivity).
  split; [exact Hin|].
  apply (proj2 (run_tag_replaces_ambient_tag ∅ own_run_options (VStr "chat") no_ctx w
                  _ Hin)); reflexivity.
Defined.

Lemma deref_insert_ne h l l' r : l <> l' -> deref (<[l := r]> h) l' = deref h l'.
Proof. intros H. unfold deref. rewrite lookup_insert_ne by exact H. reflexivity. Qed.

Lemma sendRunApi_enabled path payload w :
  enabled w = true ->
  let w' := snd (sendRunApi path payload w) in
  config w' = config w /\ runs w' = runs w /\
  net w' = net w ++ [run_request (config w) path payload].
Proof. intros En. cbv zeta. rewrite sendRunApi_eq, En. repeat split. Qed.

Lemma track_in_run_enabled o cx w l :
  ctx_run cx = Some l -> nullish (opt_runId o) = true -> enabled w = true ->
  let r := deref (runs w) l in
  let w' := snd (track o cx w) in
  config w' = config w /\
  runs w' = <[l := stepped r]> (runs w) /\
  net w' = net w ++
           [ run_request (config w) "/api/runs/step"
               (VObj (step_payload (config w) (runId r) (VNum (stepCounter r + 1)) o));
             ingest_request (config w)
               (VObj (ingest_payload (config w) (ctx_tag cx) o (runId r)
                        (VNum (stepCounter r + 1)))) ].
Proof.
  intros E N En. cbv zeta.
  pose proof (track_frame o cx w) as F. cbv zeta in F. destruct F as (Hc & _).
  split; [exact Hc|]. split; [apply (track_step_runs o cx w l E N)|].
  rewrite track_net, En. unfold step_requests, track_payload, resolved_run.
  rewrite E, N. reflexivity.
Qed.

(** A run that makes one tracked call, telemetry being enabled: start
    signal, step signal, event, end signal. *)
Lemma execute_one_call_enabled this o cx w :
  nullish (opt_runId o) = true -> enabled w = true ->
  let r := deref (runs w) this in
  let w' := snd (execute this (track o) cx w) in
  fst (execute this (track o) cx w) = Ok tt /\
  config w' = config w /\
  runs w' = <[this := stepped r]> (runs w) /\
  net w' = net w ++
           [ run_request (config w) "/api/runs/start"
               (VObj (run_start_payload (config w) r));
             run_request (config w) "/api/runs/step"
               (VObj (step_payload (config w) (runId r) (VNum (stepCounter r + 1)) o));
             ingest_request (config w)
               (VObj (ingest_payload (config w) (featureTag r) o (runId r)
                        (VNum (stepCounter r + 1))));
             run_request (config w) "/api/runs/end"
               (VObj (run_end_completed (config w) (stepped r))) ].
Proof.
  intros N En. cbv zeta.
  pose proof (execute_track this o cx w) as E. cbv zeta in E. rewrite E. clear E.
  cbn [fst snd].
  set (r := deref (runs w) this).
  set (w1 := snd (sendRunApi "/api/runs/start" _ w)).
  destruct (sendRunApi_enabled "/api/runs/start"
              (VObj (run_start_payload (config w) r)) w En) as (Hc1 & Hr1 & Hn1).
  fold w1 in Hc1, Hr1, Hn1.
  assert (En1 : enabled w1 = true) by (unfold enabled; rewrite Hc1; exact En).
  set (inside := Ctx (featureTag r) (Some this)).
  destruct (track_in_run_enabled o inside w1 this eq_refl N En1) as (Hc2 & Hr2 & Hn2).
  set (w2 := snd (track o inside w1)) in *.
  assert (En2 : enabled w2 = true) by (unfold enabled; rewrite Hc2; exact En1).
  rewrite Hr1 in Hr2, Hn2. fold r in Hr2, Hn2. rewrite Hc1 in Hn2.
  destruct (sendRunApi_enabled "/api/runs/end"
              (VObj (run_end_completed (config w2) (deref (runs w2) this))) w2 En2)
    as (Hc3 & Hr3 & Hn3).
  split; [reflexivity|]. split; [rewrite Hc3, Hc2; exact Hc1|].
  split; [rewrite Hr3; exact Hr2|].
  rewrite Hn3, Hn2, Hn1, Hr2, deref_insert, Hc2, Hc1, <- !app_assoc. reflexivity.
Qed.

Lemma run_start_payload_run_id c r : run_start_payload c r !! "run_id" = Some (runId r).
Proof. unfold run_start_payload. rewrite lookup_insert_ne by discriminate. apply lookup_insert_eq. Qed.

Lemma run_end_completed_run_id c r : run_end_completed c r !! "run_id" = Some (runId r).
Proof. unfold run_end_completed. rewrite lookup_insert_ne by discriminate. apply lookup_insert_eq. Qed.

Lemma payload_field (p : obj) k v : p !! k = Some v -> prop (json (VObj p)) k = json v.
Proof. intros H. rewrite prop_json, (field_lookup _ _ _ H). reflexivity. Qed.

(** X12: a run executed inside the body of a different run counts its
    own steps.  Telemetry being enabled, with a tracked call before it
    and one after it in the outer body, and none of the three tracked
    calls supplying a [runId] of its own, the three events carry, in
    order, the outer run's id with its next step, the inner run's id
    with the inner run's next step, and the outer run's id with the
    step after; the inner run starts after the outer one and ends
    before it; the outer counter ends two higher, the inner one
    higher. *)
Theorem nested_runs_step_separately :
  forall (outer inner : nat) (o1 o2 o3 : TrackOptions) (cx : ctx) (w : world),
    outer <> inner ->
    enabled w = true ->
    nullish (opt_runId o1) = true ->
    nullish (opt_runId o2) = true ->
    nullish (opt_runId o3) = true ->
    let a := deref (runs w) outer in
    let b := deref (runs w) inner in
    let w' := snd (execute outer (around_inner_run inner o1 o2 o3) cx w) in
    let sent := sent_since w w' in
    fst (execute outer (around_inner_run inner o1 o2 o3) cx w) = Ok tt /\
    map step_of (telemetry_events (config w) sent) =
      [ (when_present (runId a), VNum (stepCounter a + 1));
        (when_present (runId b), VNum (stepCounter b + 1));
        (when_present (runId a), VNum (stepCounter a + 2)) ] /\
    map (fun s => prop s "run_id") (run_signals (config w) "/api/runs/start" sent) =
      [ json (runId a); json (runId b) ] /\
    map (fun s => prop s "run_id") (run_signals (config w) "/api/runs/end" sent) =
      [ json (runId b); json (runId a) ] /\
    stepCounter (deref (runs w') outer) = stepCounter a + 2 /\
    stepCounter (deref (runs w') inner) = stepCounter b + 1.
Proof.
  intros outer inner o1 o2 o3 cx w Hne En N1 N2 N3 a b w' sent. subst sent w'.
  pose proof (execute_eq outer (around_inner_run inner o1 o2 o3) cx w) as E.
  cbv zeta in E. fold a in E.
  set (inside := Ctx (featureTag a) (Some outer)) in E.
  set (w1 := snd (sendRunApi "/api/runs/start" _ w)) in E.
  destruct (sendRunApi_enabled "/api/runs/start"
              (VObj (run_start_payload (config w) a)) w En) as (Hc1 & Hr1 & Hn1).
  fold w1 in Hc1, Hr1, Hn1.
  assert (En1 : enabled w1 = true) by (unfold enabled; rewrite Hc1; exact En).
  (* the first call *)
  destruct (track_in_run_enabled o1 inside w1 outer eq_refl N1 En1) as (Hc2 & Hr2 & Hn2).
  set (w2 := snd (track o1 inside w1)) in *.
  assert (En2 : enabled w2 = true) by (unfold enabled; rewrite Hc2; exact En1).
  rewrite Hr1 in Hr2, Hn2. fold a in Hr2, Hn2. rewrite Hc1 in Hn2.
  (* the inner run *)
  destruct (execute_one_call_enabled inner o2 inside w2 N2 En2)
    as (Hok3 & Hc3 & Hr3 & Hn3).
  set (w3 := snd (execute inner (track o2) inside w2)) in *.
  assert (En3 : enabled w3 = true) by (unfold enabled; rewrite Hc3; exact En2).
  assert (Hb : deref (runs w2) inner = b)
    by (rewrite Hr2; apply deref_insert_ne; exact Hne).
  rewrite Hb in Hr3. rewrite Hb, Hc2, Hc1 in Hn3.
  (* the last call *)
  destruct (track_in_run_enabled o3 inside w3 outer eq_refl N3 En3) as (Hc4 & Hr4 & Hn4).
  set (w4 := snd (track o3 inside w3)) in *.
  assert (En4 : enabled w4 = true) by (unfold enabled; rewrite Hc4; exact En3).
  assert (Ha3 : deref (runs w3) outer = stepped a).
  { rewrite Hr3. rewrite deref_insert_ne by congruence. rewrite Hr2. apply deref_insert. }
  rewrite Ha3 in Hr4. rewrite Ha3, Hc3, Hc2, Hc1 in Hn4.
  cbn [stepped runId stepCounter featureTag] in Hn4.
  (* the body as a whole *)
  assert (Hbody : around_inner_run inner o1 o2 o3 inside w1 = (Ok tt, w4)).
  { unfold around_inner_run, bind.
    rewrite (surjective_pairing (track o1 inside w1)), track_ok. fold w2.
    rewrite (surjective_pairing (execute inner (track o2) inside w2)), Hok3. fold w3.
    rewrite (surjective_pairing (track o3 inside w3)), track_ok. reflexivity. }
  rewrite Hbody in E. cbn [fst snd] in E. rewrite E. clear E. cbn [fst snd].
  destruct (sendRunApi_enabled "/api/runs/end"
              (VObj (run_end_completed (config w4) (deref (runs w4) outer))) w4 En4)
    as (Hc5 & Hr5 & Hn5).
  set (w5 := snd (sendRunApi "/api/runs/end" _ w4)) in *.
  assert (Ha4 : deref (runs w4) outer = stepped (stepped a))
    by (rewrite Hr4; apply deref_insert).
  assert (Hb4 : deref (runs w4) inner = stepped b).
  { rewrite Hr4. rewrite deref_insert_ne by exact Hne. rewrite Hr3. apply deref_insert. }
  rewrite Ha4, Hc4, Hc3, Hc2, Hc1 in Hn5.
  assert (Hnet : net w5 = net w ++
            [ run_request (config w) "/api/runs/start"
                (VObj (run_start_payload (config w) a));
              run_request (config w) "/api/runs/step"
                (VObj (step_payload (config w) (runId a) (VNum (stepCounter a + 1)) o1));
              ingest_request (config w)
                (VObj (ingest_payload (config w) (featureTag a) o1 (runId a)
                         (VNum (stepCounter a + 1))));
              run_request (config w) "/api/runs/start"
                (VObj (run_start_payload (config w) b));
              run_request (config w) "/api/runs/step"
                (VObj (step_payload (config w) (runId b) (VNum (stepCounter b + 1)) o2));
              ingest_request (config w)
                (VObj (ingest_payload (config w) (featureTag b) o2 (runId b)
                         (VNum (stepCounter b + 1))));
              run_request (config w) "/api/runs/end"
                (VObj (run_end_completed (config w) (stepped b)));
              run_request (config w) "/api/runs/step"
                (VObj (step_payload (config w) (runId a)
                         (VNum (stepCounter a + 1 + 1)) o3));
              ingest_request (config w)
                (VObj (ingest_payload (config w) (featureTag a) o3 (runId a)
                         (VNum (stepCounter a + 1 + 1))));
              run_request (config w) "/api/runs/end"
                (VObj (run_end_completed (config w) (stepped (stepped a)))) ]).
  { rewrite Hn5, Hn4, Hn3, Hn2, Hn1, <- !app_assoc. reflexivity. }
  rewrite (sent_since_app _ _ _ Hnet).
  split; [reflexivity|]. split; [|split; [|split; [|split]]].
  - rewrite !telemetry_events_cons_run by discriminate.
    rewrite telemetry_events_cons_ingest.
    rewrite !telemetry_events_cons_run by discriminate.
    rewrite telemetry_events_cons_ingest.
    rewrite !telemetry_events_cons_run by discriminate.
    rewrite telemetry_events_cons_ingest.
    rewrite !telemetry_events_cons_run by discriminate.
    cbn [map telemetry_events List.filter]. unfold step_of.
    rewrite !event_run_id, !event_step_index.
    replace (stepCounter a + 1 + 1) with (stepCounter a + 2) by lia. reflexivity.
  - rewrite run_signals_cons_hit.
    rewrite !run_signals_cons_miss by discriminate.
    rewrite run_signals_cons_ingest by discriminate.
    rewrite run_signals_cons_hit.
    rewrite !run_signals_cons_miss by discriminate.
    rewrite run_signals_cons_ingest by discriminate.
    rewrite !run_signals_cons_miss by discriminate.
    rewrite run_signals_cons_ingest by discriminate.
    rewrite !run_signals_cons_miss by discriminate.
    cbn [map run_signals List.filter].
    rewrite !(payload_field _ _ _ (run_start_payload_run_id _ _)). reflexivity.
  - rewrite !run_signals_cons_miss by discriminate.
    rewrite run_signals_cons_ingest by discriminate.
    rewrite !run_signals_cons_miss by discriminate.
    rewrite run_signals_cons_ingest by discriminate.
    rewrite run_signals_cons_hit.
    rewrite !run_signals_cons_miss by discriminate.
    rewrite run_signals_cons_ingest by discriminate.
    rewrite run_signals_cons_hit.
    cbn [map run_signals List.filter].
    rewrite !(payload_field _ _ _ (run_end_completed_run_id _ _)). reflexivity.
  - rewrite Hr5, Ha4. cbn [stepped stepCounter]. lia.
  - rewrite Hr5, Hb4. reflexivity.
Qed.

Lemma nested_runs_step_separately_witness :
  let w := put_runs (<[0%nat := run_a]> {[ 1%nat := run_b ]})
             (mock_world test_config (Resolves (Response chat_response))
                (FetchResponse 200)) in
  let w' := snd (execute 0%nat
                   (around_inner_run 1%nat manual_options manual_options manual_options)
                   no_ctx w) in
  map step_of (telemetry_events (config w) (sent_since w w')) =
    [ (VStr "run-a", VNum 4); (VStr "run-b", VNum 1); (VStr "run-a", VNum 5) ] /\
  stepCounter (deref (runs w') 0%nat) = 5 /\
  stepCounter (deref (runs w') 1%nat) = 1.
Proof.
  intros w w'.
  assert (Hne : 0%nat <> 1%nat) by discriminate.
  destruct (nested_runs_step_separately 0%nat 1%nat manual_options manual_options
              manual_options no_ctx w Hne eq_refl eq_refl eq_refl eq_refl)
    as (_ & Hev & _ & _ & Ha & Hb).
  split; [exact Hev|]. split; [exact Ha|exact Hb].
Defined.

(** ** The collector cannot fail a run *)

Lemma sendRunApi_collector path payload f w :
  sendRunApi path payload (with_collector f w) =
  (Ok tt, with_collector f (snd (sendRunApi path payload w))).
Proof.
  rewrite !sendRunApi_eq. cbn [snd].
  change (enabled (with_collector f w)) with (enabled w).
  destruct (enabled w); reflexivity.
Qed.

Lemma track_all_collector os cx f : forall w,
  track_all os cx (with_collector f w) =
  (Ok tt, with_collector f (snd (track_all os cx w))).
Proof.
  induction os as [|o os IH]; intros w; [reflexivity|].
  rewrite !track_all_cons, track_collector. cbn [snd]. apply IH.
Qed.

Lemma track_all_ok os cx : forall w, fst (track_all os cx w) = Ok tt.
Proof.
  induction os as [|o os IH]; intros w; [reflexivity|].
  rewrite track_all_cons. apply IH.
Qed.

Lemma failing_after_eq os e cx w :
  failing_after os e cx w = (Throw e, snd (track_all os cx w)).
Proof.
  unfold failing_after, bind, throw.
  rewrite (surjective_pairing (track_all os cx w)), track_all_ok. reflexivity.
Qed.

(** A body whose requests and result do not depend on how the
    collector answers makes a run that does not depend on it either. *)
Lemma execute_collector {T} this (fn : ctx -> M T) cx f w :
  (forall c w0, fn c (with_collector f w0) =
                (fst (fn c w0), with_collector f (snd (fn c w0)))) ->
  execute this fn cx (with_collector f w) =
  (fst (execute this fn cx w), with_collector f (snd (execute this fn cx w))).
Proof.
  intros Hfn.
  pose proof (execute_eq this fn cx (with_collector f w)) as E1.
  pose proof (execute_eq this fn cx w) as E2. cbv zeta in E1, E2.
  rewrite E1, E2. clear E1 E2.
  change (config (with_collector f w)) with (config w).
  change (runs (with_collector f w)) with (runs w).
  rewrite sendRunApi_collector. cbn [snd]. rewrite Hfn. cbn [fst snd].
  destruct (fst (fn _ _)) as [v|e]; cbn [fst snd];
    change (config (with_collector f ?x)) with (config x);
    change (runs (with_collector f ?x)) with (runs x);
    rewrite sendRunApi_collector; reflexivity.
Qed.

(** X13: however the collector answers, or fails to answer, the POSTs
    of tracked calls and of a run, the calls resolve, [execute] returns
    when its body returns and throws what its body throws, and
    everything proceeds as it would with any other collector: the same
    requests are attempted in the same order (none retried, none
    dropped) and the runs end in the same state. *)
Theorem run_survives_collector_failure :
  forall (this : nat) (os : list TrackOptions) (e : exn) (cx : ctx) (w : world)
         (f : nat -> fetch_outcome),
    let calls_only := track_all os cx in
    let ok := execute this (track_all os) cx in
    let ko := execute this (failing_after os e) cx in
    fst (calls_only (with_collector f w)) = Ok tt /\
    net (snd (calls_only (with_collector f w))) = net (snd (calls_only w)) /\
    runs (snd (calls_only (with_collector f w))) = runs (snd (calls_only w)) /\
    fst (ok (with_collector f w)) = Ok tt /\
    net (snd (ok (with_collector f w))) = net (snd (ok w)) /\
    runs (snd (ok (with_collector f w))) = runs (snd (ok w)) /\
    fst (ko (with_collector f w)) = Throw e /\
    net (snd (ko (with_collector f w))) = net (snd (ko w)) /\
    runs (snd (ko (with_collector f w))) = runs (snd (ko w)).
Proof.
  intros this os e cx w f calls_only ok ko. subst calls_only ok ko.
  assert (H1 : forall c w0, track_all os c (with_collector f w0) =
                            (fst (track_all os c w0),
                             with_collector f (snd (track_all os c w0)))).
  { intros c w0. rewrite track_all_collector, track_all_ok. reflexivity. }
  assert (H2 : forall c w0, failing_after os e c (with_collector f w0) =
                            (fst (failing_after os e c w0),
                             with_collector f (snd (failing_after os e c w0)))).
  { intros c w0. rewrite !failing_after_eq, track_all_collector. reflexivity. }
  rewrite (execute_collector this _ cx f w H1), (execute_collector this _ cx f w H2).
  rewrite track_all_collector. cbn [fst snd].
  pose proof (execute_eq this (track_all os) cx w) as E1.
  pose proof (execute_eq this (failing_after os e) cx w) as E2. cbv zeta in E1, E2.
  rewrite track_all_ok in E1. rewrite failing_after_eq in E2. cbn [fst] in E2.
  rewrite E1, E2. repeat split.
Qed.

Lemma run_survives_collector_failure_witness :
  let w := put_runs {[ 0%nat := run_a ]}
             (mock_world test_config (Resolves (Response chat_response))
                (FetchResponse 200)) in
  let down := with_collector unreachable w in
  fst (execute 0%nat (track_all [manual_options]) no_ctx down) = Ok tt /\
  fst (execute 0%nat (failing_after [manual_options] rate_limited) no_ctx down)
    = Throw rate_limited /\
  length (net (snd (execute 0%nat (track_all [manual_options]) no_ctx down))) = 4%nat.
Proof.
  intros w down.
  destruct (run_survives_collector_failure 0%nat [manual_options] rate_limited no_ctx w
              unreachable) as (_ & _ & _ & Hok & Hn & _ & Hko & _).
  split; [exact Hok|]. split; [exact Hko|].
  unfold down. rewrite Hn. reflexivity.
Defined.

(** ** Streams that fail, and streams that are abandoned *)

Lemma read_all_pull fuel code x rest fin t cx received w :
  read_all (S fuel) (Generator code (Suspended (x :: rest) fin t)) cx received w =
  read_all fuel (Generator code (Suspended rest fin (on_item code x t)))
    cx (received ++ [x]) w.
Proof. reflexivity. Qed.

Lemma read_all_fails code items e : forall t cx received w,
  read_all (S (length items)) (Generator code (Suspended items (StreamFails e) t))
    cx received w =
  (Ok (Some (received ++ items, StreamFails e)), w).
Proof.
  induction items as [|x rest IH]; intros t cx received w.
  - cbn. rewrite app_nil_r. reflexivity.
  - change (length (x :: rest)) with (S (length rest)).
    rewrite read_all_pull, IH, <- app_assoc. reflexivity.
Qed.

Lemma read_all_ends code items : forall t cx received w,
  fst (at_end code (fold_left (fun t x => on_item code x t) items t) cx w) = Ok tt ->
  fst (read_all (S (length items)) (Generator code (Suspended items EndOfStream t))
         cx received w) =
  Ok (Some (received ++ items, EndOfStream)).
Proof.
  induction items as [|x rest IH]; intros t cx received w Hend.
  - cbn [length read_all next gen_state_of gen_code fold_left] in *.
    unfold bind, ret.
    destruct (at_end code t cx w) as [[u|e] w']; [|discriminate Hend].
    cbn. rewrite app_nil_r. reflexivity.
  - change (length (x :: rest)) with (S (length rest)).
    rewrite read_all_pull, IH, <- ?app_assoc; [reflexivity|exact Hend].
Qed.

(** Any wrapper whose tail always resolves is transparent. *)
Lemma wrapper_transparent code items fin :
  (forall t cx w, fst (at_end code t cx w) = Ok tt) ->
  transparent (start_generator code (Stream items fin)) items fin.
Proof.
  intros Hend cx w. unfold start_generator. cbn [iterate fst snd]. split.
  - destruct fin as [|e].
    + apply (read_all_ends code items _ cx [] w), Hend.
    + rewrite read_all_fails. reflexivity.
  - intros e ->. rewrite read_all_fails.
    rewrite for_await_source_fails by lia. repeat split.
Qed.

Lemma wrapper_silent code items fin :
  silent_when_abandoned (start_generator code (Stream items fin)) items.
Proof.
  intros n cx w Hn. unfold start_generator. cbn [iterate fst snd]. split.
  - apply (take_then_break_silent code items fin _ cx [] n w Hn).
  - reflexivity.
Qed.

Lemma fire_and_forget_ok {A} (m : M A) w : fst (fire_and_forget m w) = Ok tt.
Proof. reflexivity. Qed.

(** X14: the wrapping generators are transparent also for a source
    that fails part-way: the consumer receives every chunk the source
    yielded before failing, in order, and then the very failure of the
    source; no telemetry is sent for such a stream, the counts read so
    far are dropped.  (For a source that ends normally the consumer
    receives all chunks and a normal end.) *)
Theorem wrapped_stream_is_transparent :
  forall (items : list obj) (fin : stream_end) (model featureTag : value) (start : Z),
    transparent
      (OpenAI.wrapOpenAIStream (Stream items fin) model featureTag start) items fin /\
    transparent
      (Anthropic.wrapAnthropicStream (Stream items fin) model featureTag start)
      items fin /\
    transparent
      (AnthropicLegacy.wrapAnthropicStream (Stream items fin) model featureTag start)
      items fin /\
    transparent
      (Gemini.wrapGeminiStream (Stream items fin) model featureTag start) items fin.
Proof.
  intros items fin model featureTag start.
  split; [|split; [|split]]; apply wrapper_transparent; intros t cx w; reflexivity.
Qed.

Lemma wrapped_stream_is_transparent_witness :
  let w := mock_world test_config (Resolves (Response chat_response))
             (FetchResponse 200) in
  let g := OpenAI.wrapOpenAIStream (Stream example_chunks (StreamFails rate_limited))
             (VStr "gpt-4") (VStr "chat") 0 in
  fst (read_all 4 g no_ctx [] w) = Ok (Some (example_chunks, StreamFails rate_limited)) /\
  fst (for_await 4 g no_ctx [] w) = Throw rate_limited /\
  snd (for_await 4 g no_ctx [] w) = w.
Proof.
  intros w g.
  destruct (proj1 (wrapped_stream_is_transparent example_chunks
                     (StreamFails rate_limited) (VStr "gpt-4") (VStr "chat") 0)
              no_ctx w) as (Hr & Hf).
  destruct (Hf rate_limited eq_refl) as (Ht & _ & Hw).
  split; [exact Hr|]. split; [exact Ht|exact Hw].
Defined.

(** X15: a consumer that stops reading a wrapped stream early, even
    right after the last chunk, gets the chunks it read and causes no
    telemetry: the code after the generator's loop never runs.  The
    generator is closed by the [break] and stays closed, so pulling it
    again reports the end and still sends nothing. *)
Theorem abandoned_stream_is_silent :
  forall (items : list obj) (fin : stream_end) (model featureTag : value) (start : Z),
    silent_when_abandoned
      (OpenAI.wrapOpenAIStream (Stream items fin) model featureTag start) items /\
    silent_when_abandoned
      (Anthropic.wrapAnthropicStream (Stream items fin) model featureTag start) items /\
    silent_when_abandoned
      (AnthropicLegacy.wrapAnthropicStream (Stream items fin) model featureTag start)
      items /\
    silent_when_abandoned
      (Gemini.wrapGeminiStream (Stream items fin) model featureTag start) items.
Proof.
  intros items fin model featureTag start.
  split; [|split; [|split]]; apply wrapper_silent.
Qed.

Lemma abandoned_stream_is_silent_witness :
  let w := mock_world test_config (Resolves (Response chat_response))
             (FetchResponse 200) in
  let g := Gemini.wrapGeminiStream (Stream example_chunks EndOfStream)
             (VStr "gemini-pro") (VStr "chat") 0 in
  enabled w = true /\
  take_then_break 3 g no_ctx [] w = (Ok (example_chunks, return_ g), w) /\
  next (return_ g) no_ctx w = (Ok (Returned, return_ g), w).
Proof.
  intros w g.
  assert (Hn : (3 <= length example_chunks)%nat) by (cbn; lia).
  destruct (proj2 (proj2 (proj2 (abandoned_stream_is_silent example_chunks EndOfStream
                                   (VStr "gemini-pro") (VStr "chat") 0)))
              3%nat no_ctx w Hn) as (Ht & Hc).
  split; [reflexivity|]. split; [exact Ht|exact (Hc no_ctx w)].
Defined.

(** ** Calls that succeed: what is reported *)

Lemma event_field o cx w k v :
  track_payload o cx w !! k = Some v -> prop (event_of o cx w) k = json v.
Proof. intros H. unfold event_of. apply payload_field, H. Qed.

Lemma event_provider o cx w :
  prop (event_of o cx w) "provider" = json (opt_provider o ?? VStr "custom").
Proof. apply event_field, ingest_payload_provider. Qed.

Lemma event_cached o cx w :
  prop (event_of o cx w) "cached_tokens" = json (opt_cachedTokens o ?? VNum 0).
Proof. apply event_field, ingest_payload_cached. Qed.

Lemma event_model o cx w : prop (event_of o cx w) "model" = json (opt_model o).
Proof. apply event_field. payload_lookup; discriminate. Qed.

Lemma event_latency o cx w : prop (event_of o cx w) "latency_ms" = json (opt_latencyMs o).
Proof. apply event_field. payload_lookup; discriminate. Qed.

Lemma event_no_error_type o cx w :
  nullish (opt_errorType o) = true -> prop (event_of o cx w) "error_type" = VUndefined.
Proof.
  intros H. unfold event_of, track_payload.
  rewrite (prop_when_present _ _ _ (ingest_payload_error_type _ _ _ _ _)).
  unfold when_present. rewrite H. reflexivity.
Qed.

Lemma coalesce_defined_l a b : nullish a = false -> a ?? b = a.
Proof. unfold coalesce. intros ->. reflexivity. Qed.

Lemma success_reported {A} (r : A) provider model tag inTok outTok cached cx w0 w :
  net w = net w0 -> config w = config w0 ->
  nullish provider = false -> nullish tag = false -> nullish cached = false ->
  reports_success w0
    (Ok r,
     snd (track (adapter_options provider model tag inTok outTok cached
                   (env_clock w0 (S (ticks w0)) - env_clock w0 (ticks w0))
                   VUndefined VUndefined) cx w))
    r provider model tag inTok outTok cached.
Proof.
  intros Hn Hc Np Nt Nc. unfold reports_success. cbn [fst snd].
  split; [reflexivity|]. split.
  - intros En. eexists. split.
    + rewrite (track_events_from _ _ _ _ Hn Hc), En. reflexivity.
    + rewrite event_provider, event_model, event_feature_tag, event_input,
        event_output, event_cached, event_success, event_latency,
        event_no_error_type by reflexivity.
      cbn [adapter_options opt_provider opt_model opt_featureTag opt_inputTokens
             opt_outputTokens opt_cachedTokens opt_success opt_latencyMs].
      rewrite !coalesce_defined_l by assumption.
      repeat split; reflexivity.
  - intros En. apply track_net_from; [exact Hn|].
    unfold enabled in *. rewrite Hc. exact En.
Qed.

Lemma resolved_tag_defined params cx : nullish (resolved_tag params cx) = false.
Proof. unfold resolved_tag. apply nullish_coalesce, nullish_coalesce. reflexivity. Qed.

(** X16: an OpenAI call that does not stream and that the provider
    answers returns the provider's response as it is and reports it
    once: provider ["openai"], the model asked for, the resolved tag,
    [usage.prompt_tokens], [usage.completion_tokens] and
    [usage.prompt_tokens_details.cached_tokens] as the input, output
    and cached counts, each 0 when the response does not have it (or
    has no [usage] at all), [success: true], no [error_type], and as
    latency the time between the call and the answer. *)
Theorem openai_success_reported :
  forall (params : obj) (cx : ctx) (w : world) (r : sdk_result),
    truthy (field params "stream") = false ->
    env_provider w "chat.completions.create" [VObj (openai_forwarded params)]
      = Resolves r ->
    let usage := result_field r "usage" in
    reports_success w (OpenAI.create params cx w) (Passed r)
      (VStr "openai") (field params "model")
      (field params "feature_tag" ?? ctx_tag cx ?? VStr "unknown")
      (prop usage "prompt_tokens" ?? VNum 0)
      (prop usage "completion_tokens" ?? VNum 0)
      (prop (prop usage "prompt_tokens_details") "cached_tokens" ?? VNum 0).
Proof.
  intros params cx w r Hs Hp usage.
  rewrite (openai_create_resolves _ _ _ _ Hs Hp).
  apply (success_reported (Passed r)); try reflexivity.
  - apply resolved_tag_defined.
  - apply nullish_coalesce. reflexivity.
Qed.

Lemma openai_success_reported_witness :
  let w := mock_world test_config (Resolves (Response chat_response))
             (FetchResponse 200) in
  fst (OpenAI.create plain_params no_ctx w) = Ok (Passed (Response chat_response)) /\
  exists body,
    telemetry_events (config w)
      (sent_since w (snd (OpenAI.create plain_params no_ctx w))) = [body] /\
    prop body "input_tokens" = VNum 10 /\
    prop body "output_tokens" = VNum 20 /\
    prop body "cached_tokens" = VNum 0 /\
    prop body "latency_ms" = VNum 7.
Proof.
  intros w.
  destruct (openai_success_reported plain_params no_ctx w (Response chat_response)
              eq_refl eq_refl) as (Hr & Hon & _).
  split; [exact Hr|].
  destruct (Hon eq_refl) as (body & Hb & _ & _ & _ & Hi & Ho & Hc & _ & _ & Hl).
  exists body. repeat split; assumption.
Defined.

(** X17: an Anthropic call that does not stream and that the provider
    answers returns the provider's response as it is and reports it
    once: provider ["anthropic"], [usage.input_tokens],
    [usage.output_tokens] and [usage.cache_read_input_tokens] as the
    input, output and cached counts, each 0 when missing,
    [success: true], no [error_type]. *)
Theorem anthropic_success_reported :
  forall (params : obj) (cx : ctx) (w : world) (r : sdk_result),
    truthy (field params "stream") = false ->
    env_provider w "messages.create" [VObj (anthropic_forwarded params)]
      = Resolves r ->
    let usage := result_field r "usage" in
    reports_success w (Anthropic.create params cx w) (Passed r)
      (VStr "anthropic") (field params "model")
      (field params "feature_tag" ?? ctx_tag cx ?? VStr "unknown")
      (prop usage "input_tokens" ?? VNum 0)
      (prop usage "output_tokens" ?? VNum 0)
      (prop usage "cache_read_input_tokens" ?? VNum 0).
Proof.
  intros params cx w r Hs Hp usage.
  rewrite (anthropic_create_resolves _ _ _ _ Hs Hp).
  apply (success_reported (Passed r)); try reflexivity.
  - apply resolved_tag_defined.
  - apply nullish_coalesce. reflexivity.
Qed.

Lemma anthropic_success_reported_witness :
  let w := mock_world test_config (Resolves (Response claude_response))
             (FetchResponse 200) in
  fst (Anthropic.create plain_params no_ctx w) = Ok (Passed (Response claude_response)) /\
  exists body,
    telemetry_events (config w)
      (sent_since w (snd (Anthropic.create plain_params no_ctx w))) = [body] /\
    prop body "provider" = VStr "anthropic" /\
    prop body "input_tokens" = VNum 30 /\
    prop body "output_tokens" = VNum 40 /\
    prop body "cached_tokens" = VNum 5.
Proof.
  intros w.
  destruct (anthropic_success_reported plain_params no_ctx w (Response claude_response)
              eq_refl eq_refl) as (Hr & Hon & _).
  split; [exact Hr|].
  destruct (Hon eq_refl) as (body & Hb & Hp & _ & _ & Hi & Ho & Hc & _).
  exists body. repeat split; assumption.
Defined.

(** X18: [generateContent] of a tracked Gemini model, when the provider
    answers, returns the provider's result as it is and reports it
    once: provider ["gemini"], as model the [model] the tracked model
    was obtained with (["unknown"] when [getGenerativeModel] was given
    none), and [promptTokenCount], [candidatesTokenCount] and
    [cachedContentTokenCount] of [result.response.usageMetadata] as
    the input, output and cached counts, each 0 when missing,
    [success: true], no [error_type]. *)
Theorem gemini_success_reported :
  forall (modelParams params : value) (rest : list value) (cx : ctx) (w : world)
         (r : sdk_result),
    env_provider w "generateContent" (snd (Gemini.extractFeatureTag params cx) :: rest)
      = Resolves r ->
    let usage := prop (result_field r "response") "usageMetadata" in
    reports_success w
      (Gemini.generateContent (Gemini.model_name modelParams) params rest cx w) r
      (VStr "gemini") (prop modelParams "model" ?? VStr "unknown")
      (fst (Gemini.extractFeatureTag params cx))
      (prop usage "promptTokenCount" ?? VNum 0)
      (prop usage "candidatesTokenCount" ?? VNum 0)
      (prop usage "cachedContentTokenCount" ?? VNum 0).
Proof.
  intros modelParams params rest cx w r Hp usage.
  rewrite (gemini_generate_resolves _ _ _ _ _ _ Hp).
  apply (success_reported r); try reflexivity.
  - apply (tag_of_defined (Gemini_generateContent VUndefined params rest) cx).
  - apply nullish_coalesce. reflexivity.
Qed.

Lemma gemini_success_reported_witness :
  let w := mock_world test_config (Resolves (Response gemini_result))
             (FetchResponse 200) in
  let call := Gemini.generateContent
                (Gemini.model_name (VObj {[ "model" := VStr "gemini-pro" ]}))
                (VStr "Hello") [] no_ctx w in
  fst call = Ok (Response gemini_result) /\
  exists body,
    telemetry_events (config w) (sent_since w (snd call)) = [body] /\
    prop body "model" = VStr "gemini-pro" /\
    prop body "input_tokens" = VNum 8 /\
    prop body "output_tokens" = VNum 12 /\
    prop body "cached_tokens" = VNum 3.
Proof.
  intros w call.
  destruct (gemini_success_reported (VObj {[ "model" := VStr "gemini-pro" ]})
              (VStr "Hello") [] no_ctx w (Response gemini_result) eq_refl)
    as (Hr & Hon & _).
  split; [exact Hr|].
  destruct (Hon eq_refl) as (body & Hb & _ & Hm & _ & Hi & Ho & Hc & _).
  exists body. repeat split; assumption.
Defined.

(** ** Streaming calls the provider rejects *)

(** X19: when the provider rejects a streaming call, the caller gets
    the very value that was raised and nothing is reported: unlike the
    non-streaming path, the streaming path of each adapter awaits the
    client outside any [try], so no telemetry event is sent, nothing is
    logged and no run takes a step, telemetry enabled or not. *)
Theorem streaming_call_failure_unreported :
  forall (e : exn) (cx : ctx) (w : world),
    (forall params : obj,
        truthy (field params "stream") = true ->
        env_provider w "chat.completions.create" [VObj (openai_forwarded params)]
          = Rejects e ->
        let w' := snd (OpenAI.create params cx w) in
        fst (OpenAI.create params cx w) = Throw e /\
        net w' = net w /\ console w' = console w /\ runs w' = runs w) /\
    (forall params : obj,
        truthy (field params "stream") = true ->
        env_provider w "messages.create" [VObj (anthropic_forwarded params)]
          = Rejects e ->
        let w' := snd (Anthropic.create params cx w) in
        fst (Anthropic.create params cx w) = Throw e /\
        net w' = net w /\ console w' = console w /\ runs w' = runs w) /\
    (forall (modelName params : value) (rest : list value),
        env_provider w "generateContentStream"
          (snd (Gemini.extractFeatureTag params cx) :: rest) = Rejects e ->
        let w' := snd (Gemini.generateContentStream modelName params rest cx w) in
        fst (Gemini.generateContentStream modelName params rest cx w) = Throw e /\
        net w' = net w /\ console w' = console w /\ runs w' = runs w).
Proof.
  intros e cx w. split; [|split].
  - intros params Hs Hp. cbv zeta. unfold openai_forwarded in Hp. rewrite Hs in Hp.
    unfold OpenAI.create. rewrite field_delete_ne by discriminate. rewrite Hs.
    run_adapter. rewrite Hp. repeat split.
  - intros params Hs Hp. cbv zeta. unfold anthropic_forwarded in Hp.
    unfold Anthropic.create. rewrite field_delete_ne by discriminate. rewrite Hs.
    run_adapter. rewrite Hp. repeat split.
  - intros modelName params rest Hp. cbv zeta.
    unfold Gemini.generateContentStream. run_adapter. rewrite Hp. repeat split.
Qed.

Lemma streaming_call_failure_unreported_witness :
  let w := mock_world test_config (Rejects rate_limited) (FetchResponse 200) in
  enabled w = true /\
  fst (OpenAI.create streaming_params no_ctx w) = Throw rate_limited /\
  net (snd (OpenAI.create streaming_params no_ctx w)) = [] /\
  fst (Gemini.generateContentStream (VStr "gemini-pro") (VStr "Hello") [] no_ctx w)
    = Throw rate_limited /\
  net (snd (Gemini.generateContentStream (VStr "gemini-pro") (VStr "Hello") []
              no_ctx w)) = [].
Proof.
  intros w.
  destruct (streaming_call_failure_unreported rate_limited no_ctx w) as (Ho & _ & Hg).
  destruct (Ho streaming_params eq_refl eq_refl) as (H1 & H2 & _).
  destruct (Hg (VStr "gemini-pro") (VStr "Hello") [] eq_refl) as (H3 & H4 & _).
  split; [reflexivity|]. repeat split; assumption.
Defined.

(** ** Feature tags of any value *)

Lemma invoke_read_elsewhere_tracked c cx cx_read fuel w :
  tracked_at_most_once w (snd (invoke_then_read_in c cx cx_read fuel w)) (tag_of c cx).
Proof.
  unfold invoke_then_read_in.
  destruct c as [params|params|modelName params rest|modelName params rest];
    cbn [invoke tag_of].
  - destruct (truthy (field params "stream")) eqn:Hs;
      destruct (env_provider w "chat.completions.create"
                  [VObj (openai_forwarded params)]) as [r|e] eqn:Hp.
    + unfold bind at 1. rewrite (openai_create_streaming _ _ _ _ Hs Hp).
      apply wrapper_tracked; [reflexivity|reflexivity|].
      intros t cx1 w1. eexists. split; [|reflexivity]. reflexivity.
    + left. unfold bind at 1. unfold OpenAI.create.
      rewrite field_delete_ne by discriminate. rewrite Hs.
      unfold openai_forwarded in Hp. rewrite Hs in Hp.
      run_adapter. rewrite Hp. reflexivity.
    + unfold bind at 1. rewrite (openai_create_resolves _ _ _ _ Hs Hp).
      right. do 3 eexists. split; [|split; [|split; [|reflexivity]]]; reflexivity.
    + unfold bind at 1. rewrite (openai_create_rejects _ _ _ _ Hs Hp).
      right. do 3 eexists. split; [|split; [|split; [|reflexivity]]]; reflexivity.
  - destruct (truthy (field params "stream")) eqn:Hs;
      destruct (env_provider w "messages.create"
                  [VObj (anthropic_forwarded params)]) as [r|e] eqn:Hp.
    + unfold bind at 1. unfold Anthropic.create.
      rewrite field_delete_ne by discriminate. rewrite Hs.
      unfold anthropic_forwarded in Hp. run_adapter. rewrite Hp.
      apply wrapper_tracked; [reflexivity|reflexivity|].
      intros t cx1 w1. eexists. split; [|reflexivity]. reflexivity.
    + left. unfold bind at 1. unfold Anthropic.create.
      rewrite field_delete_ne by discriminate. rewrite Hs.
      unfold anthropic_forwarded in Hp. run_adapter. rewrite Hp. reflexivity.
    + unfold bind at 1. rewrite (anthropic_create_resolves _ _ _ _ Hs Hp).
      right. do 3 eexists. split; [|split; [|split; [|reflexivity]]]; reflexivity.
    + unfold bind at 1. rewrite (anthropic_create_rejects _ _ _ _ Hs Hp).
      right. do 3 eexists. split; [|split; [|split; [|reflexivity]]]; reflexivity.
  - destruct (env_provider w "generateContent"
                (snd (Gemini.extractFeatureTag params cx) :: rest))
      as [r|e] eqn:Hp.
    + unfold bind at 1 2. rewrite (gemini_generate_resolves _ _ _ _ _ _ Hp).
      right. do 3 eexists. split; [|split; [|split; [|reflexivity]]]; reflexivity.
    + unfold bind at 1 2. rewrite (gemini_generate_rejects _ _ _ _ _ _ Hp).
      right. do 3 eexists. split; [|split; [|split; [|reflexivity]]]; reflexivity.
  - destruct (env_provider w "generateContentStream"
                (snd (Gemini.extractFeatureTag params cx) :: rest))
      as [r|e] eqn:Hp.
    + unfold bind at 1 2. unfold Gemini.generateContentStream.
      run_adapter. rewrite Hp.
      apply wrapper_tracked; [reflexivity|reflexivity|].
      intros t cx1 w1. eexists. split; [|reflexivity]. reflexivity.
    + left. unfold bind at 1 2. unfold Gemini.generateContentStream.
      run_adapter. rewrite Hp. reflexivity.
Qed.

(** X20: the tag of a streamed call is fixed when the call is made.
    Whatever the ambient tag is where the stream is later read, every
    event the call posts carries the tag resolved at the call: its own
    [feature_tag], else the tag ambient at the call, else
    ["unknown"]. *)
Theorem stream_tag_is_fixed_at_call_time :
  forall (c : call) (cx_call cx_read : ctx) (fuel : nat) (w : world) (body : value),
    In body (telemetry_events (config w)
               (sent_since w (snd (invoke_then_read_in c cx_call cx_read fuel w)))) ->
    prop body "feature_tag" = json (tag_of c cx_call) /\
    (forall params : obj,
        c = OpenAI_create params \/ c = Anthropic_create params ->
        prop body "feature_tag" =
          json (field params "feature_tag" ?? ctx_tag cx_call ?? VStr "unknown")).
Proof.
  intros c cx_call cx_read fuel w body Hin.
  pose proof (tracked_events_tagged _ _ _ _ (tag_of_defined c cx_call)
                (invoke_read_elsewhere_tracked c cx_call cx_read fuel w) Hin) as H.
  split; [exact H|].
  intros params [-> | ->]; exact H.
Qed.

Lemma stream_tag_is_fixed_at_call_time_witness :
  let w := mock_world test_config (Resolves (Stream example_chunks EndOfStream))
             (FetchResponse 200) in
  let sent := telemetry_events (config w)
                (sent_since w
                   (snd (invoke_then_read_in (OpenAI_create streaming_params)
                           (Ctx (VStr "at-call") None) (Ctx (VStr "at-read") None)
                           4 w))) in
  In (hd VUndefined sent) sent /\
  prop (hd VUndefined sent) "feature_tag" = VStr "at-call".
Proof.
  intros w sent.
  assert (Hin : In (hd VUndefined sent) sent) by (left; reflexivity).
  split; [exact Hin|].
  exact (proj1 (stream_tag_is_fixed_at_call_time (OpenAI_create streaming_params)
                  (Ctx (VStr "at-call") None) (Ctx (VStr "at-read") None) 4 w _ Hin)).
Defined.

(** X21: the OpenAI and Anthropic adapters take [feature_tag] out of
    what they forward whatever value it holds, and fall back to the
    ambient tag only when it is [null] or [undefined]: any other value,
    the empty string included, is the tag every event of the call
    carries. *)
Theorem feature_tag_of_any_value :
  forall (params : obj) (v : value) (cx : ctx) (w : world) (fuel : nat) (c : call),
    params !! "feature_tag" = Some v ->
    c = OpenAI_create params \/ c = Anthropic_create params ->
    (exists fwd : obj,
        calls (snd (invoke c cx w)) = calls w ++ [(method_of c, [VObj fwd])] /\
        fwd !! "feature_tag" = None) /\
    (forall body,
        In body (telemetry_events (config w)
                   (sent_since w (snd (invoke_and_read c cx fuel w)))) ->
        prop body "feature_tag" = json (v ?? ctx_tag cx ?? VStr "unknown") /\
        (nullish v = false -> prop body "feature_tag" = json v)).
Proof.
  intros params v cx w fuel c Hv Hc. split.
  - destruct Hc as [-> | ->].
    + exists (openai_forwarded params).
      split; [exact (invoke_calls (OpenAI_create params) cx w)|].
      exact (proj1 (openai_forwarded_strips params)).
    + exists (anthropic_forwarded params).
      split; [exact (invoke_calls (Anthropic_create params) cx w)|].
      apply lookup_delete_eq.
  - intros body Hin.
    pose proof (tracked_events_tagged _ _ _ _ (tag_of_defined c cx)
                  (invoke_tracked c cx fuel w) Hin) as H.
    assert (Ht : tag_of c cx = v ?? ctx_tag cx ?? VStr "unknown").
    { destruct Hc as [-> | ->]; cbn [tag_of]; unfold resolved_tag;
        rewrite (field_lookup _ _ _ Hv); reflexivity. }
    rewrite Ht in H. split; [exact H|].
    intros N. rewrite H, (coalesce_defined_l _ _ N). reflexivity.
Qed.

Lemma feature_tag_of_any_value_witness :
  let w := mock_world test_config (Resolves (Response chat_response))
             (FetchResponse 200) in
  let params : obj := <["model" := VStr "gpt-4"]> {[ "feature_tag" := VStr EmptyString ]} in
  let cx := Ctx (VStr "ambient") None in
  let sent := telemetry_events (config w)
                (sent_since w (snd (invoke_and_read (OpenAI_create params) cx 0 w))) in
  In (hd VUndefined sent) sent /\
  prop (hd VUndefined sent) "feature_tag" = VStr EmptyString /\
  exists fwd : obj,
    calls (snd (OpenAI.create params cx w)) = [("chat.completions.create", [VObj fwd])] /\
    fwd !! "feature_tag" = None.
Proof.
  intros w params cx sent.
  assert (Hin : In (hd VUndefined sent) sent) by (left; reflexivity).
  destruct (feature_tag_of_any_value params (VStr EmptyString) cx w 0
              (OpenAI_create params) eq_refl (or_introl eq_refl)) as (Hf & Hb).
  split; [exact Hin|]. split; [exact (proj2 (Hb _ Hin) eq_refl)|exact Hf].
Defined.

(** ** Gemini: what counts as a tag *)

Lemma snd_bind_ret {A B} (m : M A) (f : A -> B) w :
  snd ((let! r := m in ret (f r)) w) = snd (m w).
Proof. unfold bind, ret. destruct (m w) as [[a|e] w']; reflexivity. Qed.

Lemma field_truthy_lookup (p : obj) k :
  truthy (field p k) = true -> p !! k = Some (field p k).
Proof.
  unfold field. destruct (p !! k) as [v|]; [reflexivity|discriminate].
Qed.

(** X22: [extractFeatureTag] takes a tag from its argument only when
    that is a plain object whose [feature_tag] is truthy: then the tag
    is that value and what is forwarded is the object without the
    property (putting it back gives the argument again).  In every
    other case (a string or an array as prompt, [null], an object
    without [feature_tag], or with an empty, zero, false or null one)
    the argument is forwarded as it is, a falsy [feature_tag] still in
    it, and the tag is the ambient one, else ["unknown"].  The tag is
    never [null] or [undefined], and the tracked model hands what is
    forwarded to the real model followed by its further arguments. *)
Theorem gemini_tag_extraction :
  forall (params : value) (cx : ctx),
    let tag := fst (Gemini.extractFeatureTag params cx) in
    let fwd := snd (Gemini.extractFeatureTag params cx) in
    nullish tag = false /\
    (forall p : obj,
        params = VObj p -> truthy (field p "feature_tag") = true ->
        tag = field p "feature_tag" /\
        fwd = VObj (delete "feature_tag" p) /\
        <["feature_tag" := tag]> (delete "feature_tag" p) = p) /\
    (forall p : obj,
        params = VObj p -> truthy (field p "feature_tag") = false ->
        tag = ctx_tag cx ?? VStr "unknown" /\ fwd = params) /\
    ((forall p : obj, params <> VObj p) ->
     tag = ctx_tag cx ?? VStr "unknown" /\ fwd = params) /\
    (forall (modelName : value) (rest : list value) (w : world),
        calls (snd (Gemini.generateContent modelName params rest cx w)) =
          calls w ++ [("generateContent", fwd :: rest)] /\
        calls (snd (Gemini.generateContentStream modelName params rest cx w)) =
          calls w ++ [("generateContentStream", fwd :: rest)]).
Proof.
  intros params cx tag fwd. subst tag fwd.
  split; [exact (tag_of_defined (Gemini_generateContent VUndefined params []) cx)|].
  split; [|split; [|split]].
  - intros p -> Ht. unfold Gemini.extractFeatureTag.
    cbn [truthy typeof_object isArray negb andb prop spread]. rewrite Ht.
    cbn [fst snd]. repeat split.
    rewrite insert_delete_eq. apply insert_id, field_truthy_lookup, Ht.
  - intros p -> Ht. unfold Gemini.extractFeatureTag.
    cbn [truthy typeof_object isArray negb andb prop spread]. rewrite Ht.
    split; reflexivity.
  - intros Hn. rewrite (gemini_extract_not_object _ _ Hn). split; reflexivity.
  - intros modelName rest w. split.
    + rewrite <- (snd_bind_ret (Gemini.generateContent modelName params rest cx) Passed).
      exact (invoke_calls (Gemini_generateContent modelName params rest) cx w).
    + rewrite <- (snd_bind_ret (Gemini.generateContentStream modelName params rest cx)
                    Wrapped).
      exact (invoke_calls (Gemini_generateContentStream modelName params rest) cx w).
Qed.

(** ** The earlier versions *)

Lemma legacy_track_eq o cx w :
  IndexLegacy.track o cx w =
  sendTelemetry (VObj (IndexLegacy.payload (config w) (ctx_tag cx) o)) w.
Proof. reflexivity. Qed.

(** The earlier payload is the current one less its two new keys. *)
Lemma base_payload_legacy c tag o :
  delete "success" (delete "cached_tokens" (base_payload c tag o)) =
  IndexLegacy.payload c tag o.
Proof.
  unfold base_payload, IndexLegacy.payload.
  repeat first [rewrite delete_insert_ne by discriminate | rewrite delete_insert_eq].
  rewrite !delete_empty. reflexivity.
Qed.

Lemma legacy_payload_lookup c tag o k :
  k <> "cached_tokens" -> k <> "success" ->
  base_payload c tag o !! k = IndexLegacy.payload c tag o !! k.
Proof.
  intros H1 H2. rewrite <- base_payload_legacy.
  rewrite !lookup_delete_ne by congruence. reflexivity.
Qed.

Lemma legacy_payload_new_keys c tag o :
  IndexLegacy.payload c tag o !! "cached_tokens" = None /\
  IndexLegacy.payload c tag o !! "success" = None.
Proof.
  rewrite <- base_payload_legacy. split.
  - rewrite lookup_delete_ne by discriminate. apply lookup_delete_eq.
  - apply lookup_delete_eq.
Qed.

Lemma ingest_payload_plain c tag o :
  nullish (opt_errorType o) = true -> nullish (opt_endUserId o) = true ->
  nullish (opt_runId o) = true -> nullish (opt_stepIndex o) = true ->
  ingest_payload c tag o (opt_runId o) (opt_stepIndex o) = base_payload c tag o.
Proof.
  intros H1 H2 H3 H4. unfold ingest_payload, set_if_present.
  rewrite H1, H2, H3, H4. reflexivity.
Qed.

(** X23: the current [track] extends the earlier one.  Called outside
    a run with the options the earlier version knew, both post to the
    same URL with the same headers, one request when telemetry is
    enabled and none otherwise; the body of the current version is the
    earlier body with two more properties, [cached_tokens] and
    [success], which the earlier body does not have.  The earlier
    version knows no runs: inside one it takes no step and posts the
    same single event. *)
Theorem track_extends_earlier_version :
  forall (o : TrackOptions) (cx : ctx) (w : world),
    nullish (opt_errorType o) = true -> nullish (opt_endUserId o) = true ->
    nullish (opt_runId o) = true -> nullish (opt_stepIndex o) = true ->
    let old := sent_since w (snd (IndexLegacy.track o cx w)) in
    let new := sent_since w (snd (track o (Ctx (ctx_tag cx) None) w)) in
    fst (IndexLegacy.track o cx w) = Ok tt /\
    runs (snd (IndexLegacy.track o cx w)) = runs w /\
    length old = (if enabled w then 1 else 0)%nat /\
    length new = length old /\
    map req_url new = map req_url old /\
    map req_headers new = map req_headers old /\
    (forall bo bn : value,
        In bo (map req_body old) -> In bn (map req_body new) ->
        (forall k : string,
            k <> "cached_tokens" -> k <> "success" -> prop bn k = prop bo k) /\
        prop bo "cached_tokens" = VUndefined /\ prop bo "success" = VUndefined /\
        prop bn "cached_tokens" = json (opt_cachedTokens o ?? VNum 0) /\
        prop bn "success" = json (opt_success o ?? VBool true)).
Proof.
  intros o cx w H1 H2 H3 H4 old new. subst old new.
  rewrite legacy_track_eq, track_plain by (left; reflexivity).
  rewrite ingest_payload_plain by assumption. cbn [ctx_tag].
  rewrite !(sent_since_app _ _ _ (sendTelemetry_net _ w)).
  split; [rewrite sendTelemetry_eq; reflexivity|].
  split; [rewrite sendTelemetry_eq; destruct (enabled w), (debugging w); reflexivity|].
  destruct (enabled w); cbn [length map ingest_request req_url req_headers req_body];
    repeat (split; [reflexivity|]).
  - intros bo bn [<-|[]] [<-|[]].
    destruct (legacy_payload_new_keys (config w) (ctx_tag cx) o) as (Lc & Ls).
    split; [|split; [|split; [|split]]].
    + intros k Hc Hs. rewrite !prop_json. unfold field.
      rewrite (legacy_payload_lookup _ _ _ _ Hc Hs). reflexivity.
    + rewrite prop_json, (field_absent _ _ Lc). reflexivity.
    + rewrite prop_json, (field_absent _ _ Ls). reflexivity.
    + apply payload_field. unfold base_payload.
      repeat (rewrite lookup_insert_ne by discriminate). apply lookup_insert_eq.
    + apply payload_field. unfold base_payload.
      repeat (rewrite lookup_insert_ne by discriminate). apply lookup_insert_eq.
  - intros bo bn [].
Qed.

Lemma track_extends_earlier_version_witness :
  let w := mock_world test_config (Resolves (Response chat_response))
             (FetchResponse 200) in
  let old := sent_since w (snd (IndexLegacy.track manual_options no_ctx w)) in
  let new := sent_since w (snd (track manual_options no_ctx w)) in
  let bo := hd VUndefined (map req_body old) in
  let bn := hd VUndefined (map req_body new) in
  In bo (map req_body old) /\ In bn (map req_body new) /\
  prop bn "model" = prop bo "model" /\
  prop bo "success" = VUndefined /\ prop bn "success" = VBool true /\
  prop bo "cached_tokens" = VUndefined /\ prop bn "cached_tokens" = VNum 0.
Proof.
  intros w old new bo bn.
  assert (Ho : In bo (map req_body old)) by (left; reflexivity).
  assert (Hn : In bn (map req_body new)) by (left; reflexivity).
  destruct (track_extends_earlier_version manual_options no_ctx w
              eq_refl eq_refl eq_refl eq_refl) as (_ & _ & _ & _ & _ & _ & Hb).
  destruct (Hb bo bn Ho Hn) as (Hk & Hoc & Hos & Hnc & Hns).
  split; [exact Ho|]. split; [exact Hn|].
  split; [apply Hk; discriminate|].
  split; [exact Hos|]. split; [exact Hns|]. split; [exact Hoc|exact Hnc].
Defined.

Lemma sendTelemetry_calls payload w : calls (snd (sendTelemetry payload w)) = calls w.
Proof. rewrite sendTelemetry_eq. destruct (enabled w), (debugging w); reflexivity. Qed.

Ltac run_legacy :=
  unfold bind, try_catch, getConfig, get_config, Date_now, call_provider,
    fire_and_forget, throw, ret;
  world_simpl.

Lemma openai_legacy_calls params cx w :
  calls (snd (OpenAILegacy.create params cx w)) =
  calls w ++ [("chat.completions.create", [VObj (openai_forwarded params)])].
Proof.
  unfold OpenAILegacy.create, openai_forwarded.
  rewrite field_delete_ne by discriminate.
  destruct (truthy (field params "stream")); run_legacy;
    destruct (env_provider w _ _); world_simpl;
    rewrite ?sendTelemetry_calls; reflexivity.
Qed.

Lemma anthropic_legacy_calls params cx w :
  calls (snd (AnthropicLegacy.create params cx w)) =
  calls w ++ [("messages.create", [VObj (anthropic_forwarded params)])].
Proof.
  unfold AnthropicLegacy.create, anthropic_forwarded.
  rewrite field_delete_ne by discriminate.
  destruct (truthy (field params "stream")); run_legacy;
    destruct (env_provider w _ _); world_simpl;
    rewrite ?sendTelemetry_calls; reflexivity.
Qed.

Lemma gemini_legacy_calls modelName params rest cx w :
  calls (snd (GeminiLegacy.generateContent modelName params rest cx w)) =
  calls w ++ [("generateContent", snd (Gemini.extractFeatureTag params cx) :: rest)].
Proof.
  unfold GeminiLegacy.generateContent. run_legacy.
  destruct (env_provider w _ _); world_simpl;
    rewrite ?sendTelemetry_calls; reflexivity.
Qed.

(** X24: the earlier versions of the three adapters hand the real
    client exactly what the current versions hand it ([feature_tag]
    taken out, [stream_options.include_usage] set on an OpenAI
    streaming call), once, and return the provider's answer as it is;
    but they have no [try] around the provider call, so a provider
    failure is thrown on without any request to the collector. *)
Theorem earlier_adapters_forward_alike :
  forall (cx : ctx) (w : world),
    (forall params : obj,
        calls (snd (OpenAILegacy.create params cx w)) =
          calls (snd (OpenAI.create params cx w)) /\
        (forall r, truthy (field params "stream") = false ->
                   env_provider w "chat.completions.create"
                     [VObj (openai_forwarded params)] = Resolves r ->
                   fst (OpenAILegacy.create params cx w) = Ok (Passed r)) /\
        (forall e, env_provider w "chat.completions.create"
                     [VObj (openai_forwarded params)] = Rejects e ->
                   fst (OpenAILegacy.create params cx w) = Throw e /\
                   net (snd (OpenAILegacy.create params cx w)) = net w)) /\
    (forall params : obj,
        calls (snd (AnthropicLegacy.create params cx w)) =
          calls (snd (Anthropic.create params cx w)) /\
        (forall r, truthy (field params "stream") = false ->
                   env_provider w "messages.create"
                     [VObj (anthropic_forwarded params)] = Resolves r ->
                   fst (AnthropicLegacy.create params cx w) = Ok (Passed r)) /\
        (forall e, env_provider w "messages.create"
                     [VObj (anthropic_forwarded params)] = Rejects e ->
                   fst (AnthropicLegacy.create params cx w) = Throw e /\
                   net (snd (AnthropicLegacy.create params cx w)) = net w)) /\
    (forall (modelName params : value) (rest : list value),
        calls (snd (GeminiLegacy.generateContent modelName params rest cx w)) =
          calls (snd (Gemini.generateContent modelName params rest cx w)) /\
        (forall r, env_provider w "generateContent"
                     (snd (Gemini.extractFeatureTag params cx) :: rest) = Resolves r ->
                   fst (GeminiLegacy.generateContent modelName params rest cx w) = Ok r) /\
        (forall e, env_provider w "generateContent"
                     (snd (Gemini.extractFeatureTag params cx) :: rest) = Rejects e ->
                   fst (GeminiLegacy.generateContent modelName params rest cx w)
                     = Throw e /\
                   net (snd (GeminiLegacy.generateContent modelName params rest cx w))
                     = net w)).
Proof.
  intros cx w. split; [|split].
  - intros params. split; [|split].
    + rewrite openai_legacy_calls.
      symmetry. exact (invoke_calls (OpenAI_create params) cx w).
    + intros r Hs Hp. unfold openai_forwarded in Hp. rewrite Hs in Hp.
      unfold OpenAILegacy.create. rewrite field_delete_ne by discriminate.
      rewrite Hs. run_legacy. rewrite Hp. reflexivity.
    + intros e Hp. unfold openai_forwarded in Hp.
      unfold OpenAILegacy.create. rewrite field_delete_ne by discriminate.
      destruct (truthy (field params "stream")); run_legacy; rewrite Hp;
        split; reflexivity.
  - intros params. split; [|split].
    + rewrite anthropic_legacy_calls.
      symmetry. exact (invoke_calls (Anthropic_create params) cx w).
    + intros r Hs Hp. unfold anthropic_forwarded in Hp.
      unfold AnthropicLegacy.create. rewrite field_delete_ne by discriminate.
      rewrite Hs. run_legacy. rewrite Hp. reflexivity.
    + intros e Hp. unfold anthropic_forwarded in Hp.
      unfold AnthropicLegacy.create. rewrite field_delete_ne by discriminate.
      destruct (truthy (field params "stream")); run_legacy; rewrite Hp;
        split; reflexivity.
  - intros modelName params rest. split; [|split].
    + rewrite gemini_legacy_calls.
      rewrite <- (snd_bind_ret (Gemini.generateContent modelName params rest cx) Passed).
      symmetry. exact (invoke_calls (Gemini_generateContent modelName params rest) cx w).
    + intros r Hp. unfold GeminiLegacy.generateContent. run_legacy. rewrite Hp.
      reflexivity.
    + intros e Hp. unfold GeminiLegacy.generateContent. run_legacy. rewrite Hp.
      split; reflexivity.
Qed.

Lemma earlier_adapters_forward_alike_witness :
  let w := mock_world test_config (Rejects rate_limited) (FetchResponse 200) in
  enabled w = true /\
  calls (snd (OpenAILegacy.create tagged_streaming_params no_ctx w)) =
    calls (snd (OpenAI.create tagged_streaming_params no_ctx w)) /\
  fst (OpenAILegacy.create plain_params no_ctx w) = Throw rate_limited /\
  net (snd (OpenAILegacy.create plain_params no_ctx w)) = [] /\
  length (net (snd (OpenAI.create plain_params no_ctx w))) = 1%nat.
Proof.
  intros w.
  destruct (earlier_adapters_forward_alike no_ctx w) as (Ho & _).
  destruct (Ho tagged_streaming_params) as (Hc & _).
  destruct (Ho plain_params) as (_ & _ & Hf).
  destruct (Hf rate_limited eq_refl) as (Ht & Hn).
  split; [reflexivity|]. split; [exact Hc|]. split; [exact Ht|].
  split; [exact Hn|reflexivity].
Defined.

(** ** Streamed calls: the whole event *)

Lemma tracked_stream_reports code provider model tag items start :
  nullish provider = false -> nullish tag = false ->
  (forall t cx w,
      at_end code t cx w =
      (Ok tt,
       snd (track (adapter_options provider model tag (inputTokens t) (outputTokens t)
                     VUndefined (env_clock w (ticks w) - start) VUndefined VUndefined)
              cx (tick w)))) ->
  stream_reports (start_generator code (Stream items EndOfStream)) items
    provider model tag
    (fold_left (fun t x => on_item code x t) items (Tally (VNum 0) (VNum 0))) start.
Proof.
  intros Np Nt Hend cx w r. subst r.
  unfold start_generator. cbn [iterate fst snd].
  rewrite for_await_drain. unfold bind, ret. rewrite Hend. cbn [fst snd app].
  split; [reflexivity|]. split.
  - intros En. eexists. split.
    + rewrite (track_events_from _ _ w (tick w)) by reflexivity. rewrite En. reflexivity.
    + rewrite event_provider, event_model, event_feature_tag, event_input,
        event_output, event_latency.
      cbn [adapter_options opt_provider opt_model opt_featureTag opt_inputTokens
             opt_outputTokens opt_latencyMs].
      rewrite !coalesce_defined_l by assumption. repeat split; reflexivity.
  - intros En. apply (track_net_disabled _ _ (tick w)). exact En.
Qed.

Lemma gemini_tag_defined params cx : nullish (fst (Gemini.extractFeatureTag params cx)) = false.
Proof. exact (tag_of_defined (Gemini_generateContent VUndefined params []) cx). Qed.

(** X25: a streamed call of any of the three adapters sends nothing
    when it is made; the stream it returns, read to its end, is
    reported once, with the adapter's provider name, the model, the
    tag resolved when the call was made, as counts the last usage the
    stream reported (for Gemini [promptTokenCount] and
    [candidatesTokenCount] of the last chunk with [usageMetadata]), and
    as latency the time from the call to the moment the consumer
    reached the end of the stream. *)
Theorem streamed_call_reported :
  forall (cx : ctx) (w : world) (items : list obj),
    (forall params : obj,
        truthy (field params "stream") = true ->
        env_provider w "chat.completions.create" [VObj (openai_forwarded params)]
          = Resolves (Stream items EndOfStream) ->
        exists g w1,
          OpenAI.create params cx w = (Ok (Wrapped g), w1) /\ sent_since w w1 = [] /\
          stream_reports g items (VStr "openai") (field params "model")
            (field params "feature_tag" ?? ctx_tag cx ?? VStr "unknown")
            (openai_counts items) (env_clock w (ticks w))) /\
    (forall params : obj,
        truthy (field params "stream") = true ->
        env_provider w "messages.create" [VObj (anthropic_forwarded params)]
          = Resolves (Stream items EndOfStream) ->
        exists g w1,
          Anthropic.create params cx w = (Ok (Wrapped g), w1) /\ sent_since w w1 = [] /\
          stream_reports g items (VStr "anthropic") (field params "model")
            (field params "feature_tag" ?? ctx_tag cx ?? VStr "unknown")
            (anthropic_counts items) (env_clock w (ticks w))) /\
    (forall (modelParams params : value) (rest : list value),
        env_provider w "generateContentStream"
          (snd (Gemini.extractFeatureTag params cx) :: rest)
          = Resolves (Stream items EndOfStream) ->
        exists g w1,
          Gemini.generateContentStream (Gemini.model_name modelParams) params rest cx w
            = (Ok g, w1) /\
          sent_since w w1 = [] /\
          stream_reports g items (VStr "gemini") (prop modelParams "model" ?? VStr "unknown")
            (fst (Gemini.extractFeatureTag params cx))
            (gemini_counts items) (env_clock w (ticks w))).
Proof.
  intros cx w items. split; [|split].
  - intros params Hs Hp. do 2 eexists.
    split; [exact (openai_create_streaming _ _ _ _ Hs Hp)|].
    split; [apply sent_since_none; reflexivity|].
    unfold openai_counts. rewrite <- openai_fold.
    apply (tracked_stream_reports
             {| on_item := OpenAI.observe_chunk;
                at_end := OpenAI.send_usage (field params "model")
                            (resolved_tag params cx) (env_clock w (ticks w)) |});
      [reflexivity|apply resolved_tag_defined|reflexivity].
  - intros params Hs Hp. do 2 eexists.
    split; [exact (anthropic_create_streaming _ _ _ _ Hs Hp)|].
    split; [apply sent_since_none; reflexivity|].
    replace (anthropic_counts items)
      with (fold_left (fun t x => observe_event x t) items (Tally (VNum 0) (VNum 0)))
      by (rewrite anthropic_fold; reflexivity).
    apply (tracked_stream_reports
             {| on_item := observe_event;
                at_end := Anthropic.send_usage (field params "model")
                            (resolved_tag params cx) (env_clock w (ticks w)) |});
      [reflexivity|apply resolved_tag_defined|reflexivity].
  - intros modelParams params rest Hp. do 2 eexists. split; [|split].
    + unfold Gemini.generateContentStream. run_adapter. rewrite Hp. reflexivity.
    + apply sent_since_none. reflexivity.
    + unfold gemini_counts. rewrite <- gemini_fold.
      apply (tracked_stream_reports
               {| on_item := Gemini.observe_chunk;
                  at_end := Gemini.send_usage (Gemini.model_name modelParams)
                              (fst (Gemini.extractFeatureTag params cx))
                              (env_clock w (ticks w)) |});
        [reflexivity|apply gemini_tag_defined|reflexivity].
Qed.

Lemma streamed_call_reported_witness :
  let w := mock_world test_config (Resolves (Stream gemini_chunks EndOfStream))
             (FetchResponse 200) in
  exists g w1,
    Gemini.generateContentStream
      (Gemini.model_name (VObj {[ "model" := VStr "gemini-pro" ]}))
      (VStr "Hello") [] no_ctx w = (Ok g, w1) /\
    sent_since w w1 = [] /\
    fst (for_await 4 g no_ctx [] w1) = Ok (Some gemini_chunks) /\
    exists body,
      telemetry_events (config w1) (sent_since w1 (snd (for_await 4 g no_ctx [] w1)))
        = [body] /\
      prop body "provider" = VStr "gemini" /\
      prop body "model" = VStr "gemini-pro" /\
      prop body "input_tokens" = VNum 8 /\
      prop body "output_tokens" = VNum 12 /\
      prop body "latency_ms" = VNum 7.
Proof.
  intros w.
  destruct (streamed_call_reported no_ctx w gemini_chunks) as (_ & _ & Hg).
  destruct (Hg (VObj {[ "model" := VStr "gemini-pro" ]}) (VStr "Hello") [] eq_refl)
    as (g & w1 & Hc & Hs & Hr).
  exists g, w1. split; [exact Hc|]. split; [exact Hs|].
  assert (E : snd (Gemini.generateContentStream
                     (Gemini.model_name (VObj {[ "model" := VStr "gemini-pro" ]}))
                     (VStr "Hello") [] no_ctx w) = w1) by (rewrite Hc; reflexivity).
  destruct (Hr no_ctx w1) as (Hy & Hon & _).
  split; [exact Hy|].
  assert (En : enabled w1 = true) by (rewrite <- E; reflexivity).
  destruct (Hon En) as (body & Hb & Hp & Hm & _ & Hi & Ho & Hl).
  exists body. split; [exact Hb|]. split; [exact Hp|]. split; [exact Hm|].
  split; [exact Hi|]. split; [exact Ho|].
  rewrite Hl, <- E. reflexivity.
Defined.

Lemma sent_telemetry_event payload w :
  telemetry_events (config w) (sent_since w (snd (sendTelemetry payload (tick w)))) =
  if enabled w then [json payload] else [].
Proof.
  rewrite <- sent_since_tick.
  rewrite (sent_since_app _ _ _ (sendTelemetry_net _ (tick w))).
  change (enabled (tick w)) with (enabled w). destruct (enabled w); [|reflexivity].
  apply (telemetry_events_ingest (config w)).
Qed.

Ltac direct_stream unfold_payload :=
  intros cx w r; subst r;
  unfold start_generator; cbn [iterate fst snd];
  rewrite for_await_drain; cbn [at_end on_item];
  unfold bind, ret, getConfig, get_config, Date_now, fire_and_forget;
  cbn [fst snd app];
  split; [reflexivity|]; split;
  [ intros En; eexists; split;
    [ change (config w) with (config (tick w)) at 2;
      rewrite sent_telemetry_event, En; reflexivity
    | repeat split;
      (first [apply payload_field | apply (payload_field _ _ (VNum _))];
       unfold_payload;
       repeat (rewrite lookup_insert_ne by discriminate); apply lookup_insert_eq) ]
  | intros En; rewrite sendTelemetry_net;
    change (enabled (tick w)) with (enabled w); rewrite En; apply app_nil_r ].

Lemma openai_legacy_stream_reports items model tag start :
  stream_reports (OpenAILegacy.wrapOpenAIStream (Stream items EndOfStream) model tag start)
    items (VStr "openai") model tag
    (fold_left (fun t x => OpenAI.observe_chunk x t) items (Tally (VNum 0) (VNum 0)))
    start.
Proof.
  unfold OpenAILegacy.wrapOpenAIStream, OpenAILegacy.send_usage.
  direct_stream ltac:(unfold OpenAILegacy.usage_payload).
Qed.

Lemma anthropic_legacy_stream_reports items model tag start :
  stream_reports
    (AnthropicLegacy.wrapAnthropicStream (Stream items EndOfStream) model tag start)
    items (VStr "anthropic") model tag
    (fold_left (fun t x => observe_event x t) items (Tally (VNum 0) (VNum 0)))
    start.
Proof.
  unfold AnthropicLegacy.wrapAnthropicStream, AnthropicLegacy.send_usage.
  direct_stream ltac:(unfold AnthropicLegacy.usage_payload).
Qed.

Lemma gemini_legacy_stream_reports items model tag start :
  stream_reports (GeminiLegacy.wrapGeminiStream (Stream items EndOfStream) model tag start)
    items (VStr "gemini") model tag
    (fold_left (fun t x => Gemini.observe_chunk x t) items (Tally (VNum 0) (VNum 0)))
    start.
Proof.
  unfold GeminiLegacy.wrapGeminiStream, GeminiLegacy.send_usage.
  direct_stream ltac:(unfold GeminiLegacy.usage_payload).
Qed.

Lemma sendTelemetry_runs payload w : runs (snd (sendTelemetry payload w)) = runs w.
Proof. rewrite sendTelemetry_eq. destruct (enabled w), (debugging w); reflexivity. Qed.

Lemma drained_runs code items :
  (forall t cx w, runs (snd (at_end code t cx w)) = runs w) ->
  forall cx w,
    runs (snd (for_await (S (length items))
                 (start_generator code (Stream items EndOfStream)) cx [] w)) = runs w.
Proof.
  intros Hend cx w. unfold start_generator. cbn [iterate fst snd].
  rewrite for_await_drain. unfold bind, ret.
  specialize (Hend (fold_left (fun t x => on_item code x t) items
                      (Tally (VNum 0) (VNum 0))) cx w).
  destruct (at_end code _ cx w) as [[u|e] w2]; exact Hend.
Qed.

(** X26: the earlier versions of the three adapters treat a streamed
    call as the current ones do: nothing is sent when the call is made,
    and the stream read to its end is reported once, with the same
    provider name, model, tag, counts and latency.  They post the event
    themselves, so no run takes a step for it, wherever the stream is
    read. *)
Theorem earlier_streamed_call_reported :
  forall (cx : ctx) (w : world) (items : list obj),
    (forall params : obj,
        truthy (field params "stream") = true ->
        env_provider w "chat.completions.create" [VObj (openai_forwarded params)]
          = Resolves (Stream items EndOfStream) ->
        exists g w1,
          OpenAILegacy.create params cx w = (Ok (Wrapped g), w1) /\
          sent_since w w1 = [] /\
          stream_reports g items (VStr "openai") (field params "model")
            (field params "feature_tag" ?? ctx_tag cx ?? VStr "unknown")
            (openai_counts items) (env_clock w (ticks w)) /\
          forall cx' w', runs (snd (for_await (S (length items)) g cx' [] w')) = runs w') /\
    (forall params : obj,
        truthy (field params "stream") = true ->
        env_provider w "messages.create" [VObj (anthropic_forwarded params)]
          = Resolves (Stream items EndOfStream) ->
        exists g w1,
          AnthropicLegacy.create params cx w = (Ok (Wrapped g), w1) /\
          sent_since w w1 = [] /\
          stream_reports g items (VStr "anthropic") (field params "model")
            (field params "feature_tag" ?? ctx_tag cx ?? VStr "unknown")
            (anthropic_counts items) (env_clock w (ticks w)) /\
          forall cx' w', runs (snd (for_await (S (length items)) g cx' [] w')) = runs w') /\
    (forall (modelParams params : value) (rest : list value),
        env_provider w "generateContentStream"
          (snd (Gemini.extractFeatureTag params cx) :: rest)
          = Resolves (Stream items EndOfStream) ->
        exists g w1,
          GeminiLegacy.generateContentStream (Gemini.model_name modelParams) params rest
            cx w = (Ok g, w1) /\
          sent_since w w1 = [] /\
          stream_reports g items (VStr "gemini") (prop modelParams "model" ?? VStr "unknown")
            (fst (Gemini.extractFeatureTag params cx))
            (gemini_counts items) (env_clock w (ticks w)) /\
          forall cx' w', runs (snd (for_await (S (length items)) g cx' [] w')) = runs w').
Proof.
  intros cx w items. split; [|split].
  - intros params Hs Hp. unfold openai_forwarded in Hp. rewrite Hs in Hp.
    do 2 eexists. split; [|split; [|split]].
    + unfold OpenAILegacy.create. rewrite field_delete_ne by discriminate.
      rewrite Hs. run_legacy. rewrite Hp. reflexivity.
    + apply sent_since_none. reflexivity.
    + unfold openai_counts. rewrite <- openai_fold.
      apply openai_legacy_stream_reports.
    + apply drained_runs. intros t cx1 w1. exact (sendTelemetry_runs _ (tick w1)).
  - intros params Hs Hp. unfold anthropic_forwarded in Hp.
    do 2 eexists. split; [|split; [|split]].
    + unfold AnthropicLegacy.create. rewrite field_delete_ne by discriminate.
      rewrite Hs. run_legacy. rewrite Hp. reflexivity.
    + apply sent_since_none. reflexivity.
    + replace (anthropic_counts items)
        with (fold_left (fun t x => observe_event x t) items (Tally (VNum 0) (VNum 0)))
        by (rewrite anthropic_fold; reflexivity).
      apply anthropic_legacy_stream_reports.
    + apply drained_runs. intros t cx1 w1. exact (sendTelemetry_runs _ (tick w1)).
  - intros modelParams params rest Hp.
    do 2 eexists. split; [|split; [|split]].
    + unfold GeminiLegacy.generateContentStream. run_legacy. rewrite Hp. reflexivity.
    + apply sent_since_none. reflexivity.
    + unfold gemini_counts. rewrite <- gemini_fold.
      apply gemini_legacy_stream_reports.
    + apply drained_runs. intros t cx1 w1. exact (sendTelemetry_runs _ (tick w1)).
Qed.

Lemma earlier_streamed_call_reported_witness :
  let w := mock_world test_config (Resolves (Stream example_chunks EndOfStream))
             (FetchResponse 200) in
  exists g w1,
    OpenAILegacy.create streaming_params no_ctx w = (Ok (Wrapped g), w1) /\
    sent_since w w1 = [] /\
    fst (for_await 4 g no_ctx [] w1) = Ok (Some example_chunks) /\
    exists body,
      telemetry_events (config w1) (sent_since w1 (snd (for_await 4 g no_ctx [] w1)))
        = [body] /\
      prop body "provider" = VStr "openai" /\
      prop body "input_tokens" = VNum 15 /\
      prop body "output_tokens" = VNum 25.
Proof.
  intros w.
  destruct (earlier_streamed_call_reported no_ctx w example_chunks) as (Ho & _).
  destruct (Ho streaming_params eq_refl eq_refl) as (g & w1 & Hc & Hs & Hr & _).
  exists g, w1. split; [exact Hc|]. split; [exact Hs|].
  assert (E : snd (OpenAILegacy.create streaming_params no_ctx w) = w1)
    by (rewrite Hc; reflexivity).
  destruct (Hr no_ctx w1) as (Hy & Hon & _).
  split; [exact Hy|].
  assert (En : enabled w1 = true) by (rewrite <- E; reflexivity).
  destruct (Hon En) as (body & Hb & Hp & _ & _ & Hi & Ho' & _).
  exists body. repeat split; assumption.
Defined.

(** ** The client singletons *)

Lemma construct_instance args s :
  _clientInstance (snd (construct args s)) = _clientInstance s.
Proof. unfold construct. destruct (env_new s _ args); reflexivity. Qed.

Lemma construct_ok args s c :
  fst (construct args s) = Ok c -> c = Constructed (length (constructed s)) args.
Proof.
  unfold construct. destruct (env_new s _ args); cbn; [discriminate|].
  intros H. injection H as <-. reflexivity.
Qed.

Lemma construct_log args s :
  constructed (snd (construct args s)) = constructed s ++ [args].
Proof. unfold construct. destruct (env_new s _ args); reflexivity. Qed.

(** A getter call leaves a client that is cached where it is. *)
Lemma getter_keeps gemini opts s :
  is_client (_clientInstance s) = true ->
  _clientInstance (snd (getter_of gemini opts s)) = _clientInstance s.
Proof.
  intros H. destruct gemini; cbn [getter_of];
    unfold GeminiClient.getClient, OpenAIClient.getClient; rewrite H; cbn [negb];
    match goal with |- context [if ?b then _ else _] => destruct b end;
    [apply construct_instance|reflexivity|apply construct_instance|reflexivity].
Qed.

Lemma get_each_keeps gemini l : forall s,
  is_client (_clientInstance s) = true ->
  _clientInstance (snd (get_each (getter_of gemini) l s)) = _clientInstance s.
Proof.
  induction l as [|o l IH]; intros s H; [reflexivity|].
  cbn [get_each snd].
  rewrite IH; rewrite getter_keeps by exact H; [reflexivity|exact H].
Qed.

(** A default call that returns has cached what it returns. *)
Lemma getter_default gemini opts s c :
  asks_default gemini opts = true ->
  fst (getter_of gemini opts s) = Ok c ->
  _clientInstance (snd (getter_of gemini opts s)) = c /\ is_client c = true.
Proof.
  unfold asks_default. intros Hd Hc. apply negb_true_iff in Hd.
  destruct gemini; cbn [getter_of] in *;
    unfold GeminiClient.getClient, OpenAIClient.getClient in *; rewrite Hd in *;
    (destruct (is_client (_clientInstance s)) eqn:E; cbn [negb] in *;
     [ cbn [fst snd] in *; injection Hc as <-; split; [reflexivity|exact E]
     | match goal with
       | H : fst (match ?x with _ => _ end) = _ |- _ =>
           destruct x as [[c'|e] s'] eqn:Ec; cbn [fst snd] in *;
           [ injection H as <-; split; [reflexivity|];
             assert (Hk : fst (construct _ s) = Ok c') by (rewrite Ec; reflexivity);
             rewrite (construct_ok _ _ _ Hk); reflexivity
           | discriminate H ]
       end ]).
Qed.

Lemma get_each_default gemini l : forall s i opts c,
  l !! i = Some opts ->
  asks_default gemini opts = true ->
  fst (get_each (getter_of gemini) l s) !! i = Some (Ok c) ->
  c = _clientInstance (snd (get_each (getter_of gemini) l s)) /\ is_client c = true.
Proof.
  induction l as [|o l IH]; intros s i opts c Hi Hd Hc; [discriminate Hi|].
  cbn [get_each fst snd] in *. destruct i as [|i].
  - cbn in Hi, Hc. injection Hi as ->. injection Hc as Hc.
    destruct (getter_default gemini opts s c Hd Hc) as (Hin & Hcl).
    split; [|exact Hcl].
    rewrite get_each_keeps by (rewrite Hin; exact Hcl). symmetry. exact Hin.
  - cbn in Hi, Hc. exact (IH _ i opts c Hi Hd Hc).
Qed.

Lemma getter_log gemini opts s :
  is_client (_clientInstance s) = true ->
  constructed (snd (getter_of gemini opts s)) =
  constructed s ++
  (if asks_default gemini opts then []
   else [[if gemini then prop opts "apiKey" else opts]]).
Proof.
  intros H. unfold asks_default.
  destruct gemini; cbn [getter_of];
    unfold GeminiClient.getClient, OpenAIClient.getClient; rewrite H; cbn [negb];
    match goal with |- context [if truthy ?b then _ else _] => destruct (truthy b) end;
    cbn [negb]; rewrite ?construct_log, ?app_nil_r; reflexivity.
Qed.

(** X27: the default client of an adapter is a singleton.  In any
    sequence of [getClient] calls, with or without options, every call
    for the default client that returns, returns the client cached in
    the end, so all of them return the same object; a call with
    options (for Gemini: with an [apiKey]) builds a client of its own
    from them and never replaces the cached one; and once a client is
    cached (built before, or injected with [_setClientForTesting]) the
    default calls build nothing. *)
Theorem default_client_is_singleton :
  forall (gemini : bool) (l : list value) (s : clients),
    let getClient := getter_of gemini in
    let out := get_each getClient l s in
    (forall (i : nat) (opts : value) (c : client),
        l !! i = Some opts -> asks_default gemini opts = true ->
        fst out !! i = Some (Ok c) ->
        c = _clientInstance (snd out) /\ is_client c = true) /\
    (forall (i j : nat) (oi oj : value) (ci cj : client),
        l !! i = Some oi -> asks_default gemini oi = true ->
        l !! j = Some oj -> asks_default gemini oj = true ->
        fst out !! i = Some (Ok ci) -> fst out !! j = Some (Ok cj) ->
        ci = cj) /\
    (is_client (_clientInstance s) = true ->
     _clientInstance (snd out) = _clientInstance s /\
     constructed (snd out) =
       constructed s ++
       map (fun opts => [if gemini then prop opts "apiKey" else opts])
         (List.filter (fun opts => negb (asks_default gemini opts)) l)).
Proof.
  intros gemini l s getClient out. subst out getClient.
  split; [|split].
  - intros i opts c. apply get_each_default.
  - intros i j oi oj ci cj Hi Hdi Hj Hdj Hci Hcj.
    destruct (get_each_default gemini l s i oi ci Hi Hdi Hci) as (-> & _).
    destruct (get_each_default gemini l s j oj cj Hj Hdj Hcj) as (-> & _).
    reflexivity.
  - intros H. split; [apply get_each_keeps, H|].
    revert s H. induction l as [|o l IH]; intros s H.
    + cbn. rewrite app_nil_r. reflexivity.
    + cbn [get_each snd List.filter].
      rewrite IH by (rewrite getter_keeps by exact H; exact H).
      rewrite getter_log by exact H.
      destruct (asks_default gemini o); cbn [negb map];
        rewrite <- ?app_assoc, ?app_nil_r; reflexivity.
Qed.

Lemma default_client_is_singleton_witness :
  let opts := VObj {[ "apiKey" := VStr "sk-other" ]} in
  let out := get_each OpenAIClient.getClient [VUndefined; opts; VUndefined] (no_client ∅) in
  fst out = [Ok (Constructed 0 []); Ok (Constructed 1 [opts]); Ok (Constructed 0 [])] /\
  _clientInstance (snd out) = Constructed 0 [] /\
  let mock := Injected (VObj {[ "mock" := VBool true ]}) in
  let s := OpenAIClient._setClientForTesting mock (no_client ∅) in
  _clientInstance (snd (get_each OpenAIClient.getClient [VUndefined; opts; VNull] s))
    = mock /\
  constructed (snd (get_each OpenAIClient.getClient [VUndefined; opts; VNull] s))
    = [[opts]].
Proof.
  intros opts out. split; [reflexivity|].
  destruct (default_client_is_singleton false [VUndefined; opts; VUndefined]
              (no_client ∅)) as (H1 & _ & _).
  destruct (H1 2%nat VUndefined (Constructed 0 []) eq_refl eq_refl eq_refl) as (Hc & _).
  split; [symmetry; exact Hc|].
  intros mock s.
  destruct (default_client_is_singleton false [VUndefined; opts; VNull] s)
    as (_ & _ & H3).
  exact (H3 eq_refl).
Defined.

(** X28: the first default [getClient()] of the Gemini adapter builds
    the client with one argument, the API key: [GOOGLE_API_KEY] of the
    environment if it is set and not empty, else [GEMINI_API_KEY] if
    that is set and not empty, else the empty string.  An [apiKey]
    passed in the options is used as it is, whatever the environment
    holds.  If the construction throws, [getClient] throws the same
    and caches nothing, so the next call builds again. *)
Theorem gemini_client_key :
  forall (opts : value) (s : clients),
    let google := field (process_env s) "GOOGLE_API_KEY" in
    let gemini := field (process_env s) "GEMINI_API_KEY" in
    let r := GeminiClient.getClient opts s in
    (truthy (prop opts "apiKey") = true ->
     constructed (snd r) = constructed s ++ [[prop opts "apiKey"]] /\
     _clientInstance (snd r) = _clientInstance s) /\
    (truthy (prop opts "apiKey") = false -> is_client (_clientInstance s) = false ->
     exists key : value,
       constructed (snd r) = constructed s ++ [[key]] /\
       (truthy google = true -> key = google) /\
       (truthy google = false -> truthy gemini = true -> key = gemini) /\
       (truthy google = false -> truthy gemini = false -> key = VStr EmptyString) /\
       (forall c, fst r = Ok c ->
                  c = Constructed (length (constructed s)) [key] /\
                  _clientInstance (snd r) = c) /\
       (forall e, fst r = Throw e ->
                  _clientInstance (snd r) = _clientInstance s /\
                  constructed (snd (GeminiClient.getClient opts (snd r))) =
                    constructed s ++ [[key]; [key]])).
Proof.
  intros opts s google gemini r. subst r. unfold GeminiClient.getClient. split.
  - intros ->. split; [apply construct_log|apply construct_instance].
  - intros -> Hn. rewrite Hn. cbn [negb]. fold google gemini.
    exists (or_else google (or_else gemini (VStr EmptyString))).
    set (key := or_else google (or_else gemini (VStr EmptyString))).
    assert (Hlog : constructed (snd (construct [key] s)) = constructed s ++ [[key]])
      by apply construct_log.
    assert (Hin : _clientInstance (snd (construct [key] s)) = _clientInstance s)
      by apply construct_instance.
    destruct (construct [key] s) as [[c|e] s'] eqn:Ec; cbn [fst snd] in *.
    + split; [exact Hlog|]. split; [|split; [|split; [|split]]].
      * intros Hg. subst key. unfold or_else. rewrite Hg. reflexivity.
      * intros Hg Hm. subst key. unfold or_else. rewrite Hg, Hm. reflexivity.
      * intros Hg Hm. subst key. unfold or_else. rewrite Hg, Hm. reflexivity.
      * intros c' Hc. injection Hc as <-. split; [|reflexivity].
        apply (construct_ok [key] s). rewrite Ec. reflexivity.
      * intros e Hc. discriminate Hc.
    + split; [exact Hlog|]. split; [|split; [|split; [|split]]].
      * intros Hg. subst key. unfold or_else. rewrite Hg. reflexivity.
      * intros Hg Hm. subst key. unfold or_else. rewrite Hg, Hm. reflexivity.
      * intros Hg Hm. subst key. unfold or_else. rewrite Hg, Hm. reflexivity.
      * intros c' Hc. discriminate Hc.
      * intros e' _. split; [exact Hin|].
        rewrite Hin, Hn. cbn [negb].
        assert (Henv : process_env s' = process_env s).
        { assert (E : s' = snd (construct [key] s)) by (rewrite Ec; reflexivity).
          rewrite E. unfold construct. destruct (env_new s _ _); reflexivity. }
        rewrite Henv. fold google gemini. fold key.
        assert (Hlog2 : constructed (snd (construct [key] s')) =
                        constructed s' ++ [[key]]) by apply construct_log.
        destruct (construct [key] s') as [[c2|e2] s2];
          cbn [fst snd set_instance constructed] in *;
          rewrite Hlog2, Hlog, <- app_assoc; reflexivity.
Qed.

Lemma gemini_client_key_witness :
  let env : obj := <["GOOGLE_API_KEY" := VStr EmptyString]> {[ "GEMINI_API_KEY" := VStr "g-key" ]} in
  constructed (snd (GeminiClient.getClient VUndefined (no_client env))) = [[VStr "g-key"]] /\
  constructed (snd (GeminiClient.getClient (VObj {[ "apiKey" := VStr "mine" ]})
                      (no_client env))) = [[VStr "mine"]] /\
  fst (GeminiClient.getClient VUndefined (no_sdk rate_limited env)) = Throw rate_limited /\
  is_client (_clientInstance (snd (GeminiClient.getClient VUndefined
                                     (no_sdk rate_limited env)))) = false.
Proof.
  intros env.
  destruct (gemini_client_key VUndefined (no_client env)) as (_ & Hd).
  destruct (Hd eq_refl eq_refl) as (key & Hlog & _ & Hk & _).
  destruct (gemini_client_key (VObj {[ "apiKey" := VStr "mine" ]}) (no_client env))
    as (Ho & _).
  destruct (gemini_client_key VUndefined (no_sdk rate_limited env)) as (_ & Hf).
  destruct (Hf eq_refl eq_refl) as (key' & _ & _ & _ & _ & _ & Hthrow).
  split; [rewrite Hlog, (Hk eq_refl eq_refl); reflexivity|].
  split; [exact (proj1 (Ho eq_refl))|].
  split; [reflexivity|].
  rewrite (proj1 (Hthrow rate_limited eq_refl)). reflexivity.
Defined.

(** ** One provider call, and silence when disabled *)






